(** * sadales_tikls: the e-st.lv smart-meter scraper (scraper.py)

    A shallow embedding of [scraper.py] and the properties its specification
    states about it.  The pure parts (URL builder, timestamp formatting,
    response formatter, command line) are functions; the browser workflow is
    written in a state-and-exception monad over an abstract Selenium driver,
    so that every statement holds for every behaviour of the portal. *)

From Stdlib Require Import ZArith String Ascii List Lia DecimalString.
From stdpp Require Import base tactics option list strings gmap.

Local Open Scope Z_scope.

(** ** Python runtime fragments *)

Module Py.

(** Exceptions the program raises or lets through. *)
Inductive exn :=
| KeyError (key : string)
| ValueError (msg : string)
| AttributeError (msg : string)
| TimeoutException
| WebDriverException (msg : string)
| JSONDecodeError
| Exception (msg : string)
| SystemExit (code : Z).

Inductive result (A : Type) :=
| Ok (a : A)
| Raise (e : exn).
Arguments Ok {A} a.
Arguments Raise {A} e.

#[global] Instance result_ret : MRet result := fun _ a => Ok a.
#[global] Instance result_bind : MBind result := fun _ _ f m =>
  match m with Ok a => f a | Raise e => Raise e end.
#[global] Instance result_fmap : FMap result := fun _ _ f m =>
  match m with Ok a => Ok (f a) | Raise e => Raise e end.

(** [for x in l: ys.append(f x)] with [f] able to raise. *)
Fixpoint for_each {A B} (f : A -> result B) (l : list A) : result (list B) :=
  match l with
  | [] => Ok []
  | x :: l' => y ← f x; ys ← for_each f l'; Ok (y :: ys)
  end.

(** The dynamically typed values that flow through the program: scalars,
    and the empty list, which [argparse] stores for an option written
    [--opt=--]. *)
Inductive pyval :=
| PNone
| PBool (b : bool)
| PInt (z : Z)
| PStr (s : string)
| PEmptyList.

#[global] Instance pyval_eq_dec : EqDecision pyval.
Proof. solve_decision. Defined.

(** Truth value testing: [None], [False], [0], [''] and [[]] are false. *)
Definition truthy (v : pyval) : bool :=
  match v with
  | PNone => false
  | PBool b => b
  | PInt z => negb (z =? 0)
  | PStr s => negb (String.eqb s "")
  | PEmptyList => false
  end.

(** [a or b] *)
Definition py_or (a b : pyval) : pyval := if truthy a then a else b.

(** [str(int)] *)
Definition str_int (z : Z) : string := NilZero.string_of_int (Z.to_int z).

(** [str(v)] *)
Definition str (v : pyval) : string :=
  match v with
  | PNone => "None"
  | PBool true => "True"
  | PBool false => "False"
  | PInt z => str_int z
  | PStr s => s
  | PEmptyList => "[]"
  end.

(** [s[:-n]] for [n > 0] *)
Definition drop_last (n : nat) (s : string) : string :=
  substring 0 (String.length s - n) s.

(** [sep.join(l)] *)
Fixpoint join (sep : string) (l : list string) : string :=
  match l with
  | [] => ""
  | [s] => s
  | s :: l' => s +:+ sep +:+ join sep l'
  end.

(** ['%02d' % n] and [f'{n:02d}']: zero padding to width 2, sign first. *)
Definition fmt_02d (z : Z) : string :=
  if z <? 0 then str_int z
  else if z <? 10 then "0" +:+ str_int z
  else str_int z.

End Py.
Export Py.

(** ** The [datetime] module, as far as the scraper uses it *)

Module Datetime.

Record datetime := {
  year : Z; month : Z; day : Z;
  hour : Z; minute : Z; second : Z; microsecond : Z
}.

Definition MINYEAR : Z := 1.
Definition MAXYEAR : Z := 9999.

Definition _is_leap (y : Z) : bool :=
  (y mod 4 =? 0) && (negb (y mod 100 =? 0) || (y mod 400 =? 0)).

(** number of days before January 1st of year [y] *)
Definition _days_before_year (y : Z) : Z :=
  let y := y - 1 in y * 365 + y / 4 - y / 100 + y / 400.

Definition _DAYS_IN_MONTH : list Z :=
  [-1; 31; 28; 31; 30; 31; 30; 31; 31; 30; 31; 30; 31].

Definition _DAYS_BEFORE_MONTH : list Z :=
  [-1; 0; 31; 59; 90; 120; 151; 181; 212; 243; 273; 304; 334].

Definition table (t : list Z) (i : Z) : Z := nth (Z.to_nat i) t (-1).

Definition _days_in_month (y m : Z) : Z :=
  if (m =? 2) && _is_leap y then 29 else table _DAYS_IN_MONTH m.

Definition _days_before_month (y m : Z) : Z :=
  table _DAYS_BEFORE_MONTH m + (if (2 <? m) && _is_leap y then 1 else 0).

(** year, month, day -> ordinal, considering 01-Jan-0001 as day 1 *)
Definition _ymd2ord (y m d : Z) : Z :=
  _days_before_year y + _days_before_month y m + d.

Definition _DI400Y : Z := 146097.
Definition _DI100Y : Z := 36524.
Definition _DI4Y : Z := 1461.

(** The month and day of the [n]-th day (from 0) of a year: an estimate of
    the month that is exact or one too large, then the correction. *)
Definition _month_day (leapyear : bool) (n : Z) : Z * Z :=
  let m := Z.shiftr (n + 50) 5 in
  let preceding :=
    table _DAYS_BEFORE_MONTH m + (if (2 <? m) && leapyear then 1 else 0) in
  if n <? preceding then
    let m := m - 1 in
    let preceding :=
      preceding
      - (table _DAYS_IN_MONTH m + (if (m =? 2) && leapyear then 1 else 0)) in
    (m, n - preceding + 1)
  else (m, n - preceding + 1).

(** ordinal -> (year, month, day), considering 01-Jan-0001 as day 1 *)
Definition _ord2ymd (n : Z) : Z * Z * Z :=
  let n := n - 1 in
  let n400 := n / _DI400Y in let n := n mod _DI400Y in
  let y := n400 * 400 + 1 in
  let n100 := n / _DI100Y in let n := n mod _DI100Y in
  let n4 := n / _DI4Y in let n := n mod _DI4Y in
  let n1 := n / 365 in let n := n mod 365 in
  let y := y + n100 * 100 + n4 * 4 + n1 in
  if (n1 =? 4) || (n100 =? 4) then (y - 1, 12, 31)
  else
    let leapyear := (n1 =? 3) && (negb (n4 =? 24) || (n100 =? 3)) in
    let '(m, d) := _month_day leapyear n in
    (y, m, d).

(** ordinal of 1970-01-01 *)
Definition EPOCH_ORDINAL : Z := 719163.
(** ordinal of 9999-12-31 *)
Definition _MAXORDINAL : Z := 3652059.

(** The civil date and time [s] seconds (and [us] microseconds) after the
    epoch, in the zone the seconds are counted in; outside years 1..9999
    the constructor refuses ([ValueError: year ... is out of range], or
    [OverflowError] / [OSError] from the platform for larger values). *)
Definition of_seconds (s us : Z) : result datetime :=
  let ord := s / 86400 + EPOCH_ORDINAL in
  if (1 <=? ord) && (ord <=? _MAXORDINAL) then
    let '(y, m, d) := _ord2ymd ord in
    let r := s mod 86400 in
    Ok {| year := y; month := m; day := d;
          hour := r / 3600; minute := r mod 3600 / 60; second := r mod 60;
          microsecond := us |}
  else Raise (ValueError "year is out of range").

(** [datetime.fromtimestamp(ms / 1000.0, tz)].

    The float [ms / 1000.0] is carried as its numerator [ms]: over the
    range of [datetime] the quotient is within 2^-53 relative of the exact
    value and the rounding to microseconds never reaches the next second,
    so the whole seconds are [ms / 1000] rounded down.  [host] gives the
    local UTC offset, in seconds, of the machine at an instant; it is used
    only when no [tz] is passed.  With a [tz], the UTC fields are built
    first and [tz.fromutc] then adds the fixed offset. *)
Definition fromtimestamp (host : Z -> Z) (tz : option Z) (ms : Z)
  : result datetime :=
  let s := ms / 1000 in
  let us := ms mod 1000 * 1000 in
  match tz with
  | None => of_seconds (s + host s) us
  | Some off => _ ← of_seconds s us; of_seconds (s + off) us
  end.

(** [timezone(timedelta(hours=h))] *)
Definition timezone_hours (h : Z) : option Z := Some (h * 3600).

(** One [strftime] directive, as the C library that CPython hands the
    format to writes it.  [%Y] is the year in decimal with no padding: with
    glibc the year 1 comes out as [1] and the year 999 as [999], not as
    [0001] and [0999]; the other fields are padded to two digits. *)
Definition directive (dt : datetime) (c : ascii) : string :=
  if Ascii.eqb c "Y" then str_int (year dt)
  else if Ascii.eqb c "m" then fmt_02d (month dt)
  else if Ascii.eqb c "d" then fmt_02d (day dt)
  else if Ascii.eqb c "H" then fmt_02d (hour dt)
  else if Ascii.eqb c "M" then fmt_02d (minute dt)
  else if Ascii.eqb c "S" then fmt_02d (second dt)
  else String "%" (String c "").

(** [dt.strftime(fmt)] for formats made of the numeric directives
    [%Y %m %d %H %M %S] and literal characters. *)
Fixpoint strftime (dt : datetime) (fmt : string) : string :=
  match fmt with
  | "" => ""
  | String "%" (String c rest) => directive dt c +:+ strftime dt rest
  | String c rest => String c (strftime dt rest)
  end%string.

End Datetime.

(** ** [urllib.parse.urlencode] *)

Module Urllib.

Definition in_range (lo hi c : ascii) : bool :=
  (N.leb (N_of_ascii lo) (N_of_ascii c)) && (N.leb (N_of_ascii c) (N_of_ascii hi)).

(** the characters [quote] never escapes: letters, digits and [_.-~] *)
Definition always_safe (c : ascii) : bool :=
  in_range "a" "z" c || in_range "A" "Z" c || in_range "0" "9" c
  || Ascii.eqb c "_" || Ascii.eqb c "." || Ascii.eqb c "-" || Ascii.eqb c "~".

Definition hex_digit (n : N) : ascii :=
  if N.ltb n 10 then ascii_of_N (48 + n) else ascii_of_N (55 + n).

(** one byte of the UTF-8 text: kept, turned into [+], or [%XX] *)
Definition quote_byte (c : ascii) : string :=
  if always_safe c then String c ""
  else if Ascii.eqb c " " then "+"
  else String "%" (String (hex_digit (N.div (N_of_ascii c) 16))
                     (String (hex_digit (N.modulo (N_of_ascii c) 16)) "")).

Fixpoint quote_plus (s : string) : string :=
  match s with
  | "" => ""
  | String c s' => quote_byte c +:+ quote_plus s'
  end%string.

(** [urlencode(params)] on a dict whose keys are [str] and whose values
    are scalars: [str(v)] is quoted unless [v] is already a [str]. *)
Definition urlencode (params : list (string * pyval)) : string :=
  join "&" (map (fun kv => quote_plus (fst kv) +:+ "=" +:+ quote_plus (str (snd kv)))
                params).

(** [params[k] = v] on an insertion-ordered dict *)
Fixpoint setitem (k : string) (v : pyval) (d : list (string * pyval))
  : list (string * pyval) :=
  match d with
  | [] => [(k, v)]
  | (k', v') :: d' =>
      if String.eqb k k' then (k, v) :: d' else (k', v') :: setitem k v d'
  end.

(** The parameter names of a query string: the text before the first [=]
    of every [&]-separated piece. *)
Fixpoint split_on (sep : ascii) (s : string) : list string :=
  match s with
  | "" => [""]
  | String c s' =>
      if Ascii.eqb c sep then "" :: split_on sep s'
      else match split_on sep s' with
           | [] => [String c ""]
           | p :: ps => String c p :: ps
           end
  end%string.

Definition query_keys (q : string) : list string :=
  map (fun p => hd ""%string (split_on "=" p)) (split_on "&" q).

End Urllib.

(** ** [argparse], as far as [main] configures it *)

Module Argparse.

Inductive action :=
| Store (type_ : string -> result pyval) (choices : option (list pyval))
| StoreTrue
| Help.

(** One [add_argument] call. *)
Record argument := {
  option_string : string;
  dest : string;
  act : action;
  default : pyval
}.

Definition is_space (c : ascii) : bool :=
  Ascii.eqb c " " || (N.leb 9 (N_of_ascii c) && N.leb (N_of_ascii c) 13).

Fixpoint lstrip (s : string) : string :=
  match s with
  | String c s' => if is_space c then lstrip s' else s
  | "" => ""
  end%string.

Definition rev_string (s : string) : string :=
  string_of_list_ascii (rev (list_ascii_of_string s)).

Definition strip (s : string) : string := rev_string (lstrip (rev_string (lstrip s))).

Definition is_digit (c : ascii) : bool := Urllib.in_range "0" "9" c.

(** decimal digits, single underscores allowed between digits;
    [prev] tells whether the previous character was a digit *)
Fixpoint digits (acc : Z) (prev : bool) (s : string) : option Z :=
  match s with
  | "" => if prev then Some acc else None
  | String c s' =>
      if is_digit c then digits (acc * 10 + Z.of_N (N_of_ascii c) - 48) true s'
      else if Ascii.eqb c "_" && prev then digits acc false s'
      else None
  end%string.

(** [int(s)] on a [str], base 10 *)
Definition py_int (s : string) : result pyval :=
  let body := strip s in
  let '(neg, body) :=
    match body with
    | String "-" r => (true, r)
    | String "+" r => (false, r)
    | _ => (false, body)
    end%string in
  match digits 0 false body with
  | Some z => Ok (PInt (if neg : bool then - z else z))
  | None => Raise (ValueError "invalid literal for int() with base 10")
  end.

(** [str], the default [type] of an argument *)
Definition py_str (s : string) : result pyval := Ok (PStr s).

(** the text before the first [=] and, if there is one, the text after it *)
Fixpoint split_eq (s : string) : string * option string :=
  match s with
  | "" => ("", None)
  | String c s' =>
      if Ascii.eqb c "=" then ("", Some s')
      else let '(n, e) := split_eq s' in (String c n, e)
  end%string.

Fixpoint contains_space (s : string) : bool :=
  match s with
  | "" => false
  | String c s' => Ascii.eqb c " " || contains_space s'
  end%string.

Fixpoint all_digits (s : string) : bool :=
  match s with
  | "" => true
  | String c s' => is_digit c && all_digits s'
  end%string.

Fixpoint digits_dot_digits (s : string) : bool :=
  match s with
  | "" => false
  | String c s' =>
      if Ascii.eqb c "." then negb (String.eqb s' "") && all_digits s'
      else is_digit c && digits_dot_digits s'
  end%string.

(** [^-\d+$|^-\d*\.\d+$] *)
Definition negative_number_like (s : string) : bool :=
  match s with
  | String "-" r => (negb (String.eqb r "") && all_digits r) || digits_dot_digits r
  | _ => false
  end%string.

Inductive token :=
| Positional
| Optional (a : argument) (explicit : option string)
| Ambiguous
| Unknown.

Definition exact (spec : list argument) (s : string) : option argument :=
  find (fun a => String.eqb (option_string a) s) spec.

(** [_parse_optional]: how one command-line string is read. *)
Definition classify (spec : list argument) (tok : string) : token :=
  match tok with
  | String "-" rest =>
      match exact spec tok with
      | Some a => Optional a None
      | None =>
          if String.eqb rest "" then Positional
          else
            let '(name, explicit) := split_eq tok in
            match (if explicit is Some _ then exact spec name else None) with
            | Some a => Optional a explicit
            | None =>
                let candidates :=
                  match rest with
                  | String "-" _ =>
                      map (fun a => (a, explicit))
                          (filter (fun a => String.prefix name (option_string a) = true) spec)
                  | _ =>
                      flat_map (fun a =>
                        if String.eqb (option_string a) (substring 0 2 tok)
                        then [(a, Some (substring 2 (String.length tok - 2) tok))]
                        else if String.prefix tok (option_string a)
                        then [(a, None)] else []) spec
                  end in
                match candidates with
                | [(a, e)] => Optional a e
                | _ :: _ :: _ => Ambiguous
                | [] =>
                    if negative_number_like tok then Positional
                    else if contains_space tok then Positional
                    else Unknown
                end
            end
      end
  | _ => Positional
  end%string.

(** [parser.error(...)]: usage on stderr, exit status 2 *)
Definition error {A} : result A := Raise (SystemExit 2).

(** the [store] action: convert, check [choices], assign.  Before that,
    [_get_values] takes a ['--'] out of the strings of the argument: when
    the one string is ['--'] itself, as in [--opt=--], none is left, nothing
    is converted or checked, and the value is the empty list. *)
Definition store (a : argument) (type_ : string -> result pyval)
    (choices : option (list pyval)) (raw : string)
    (ns : gmap string pyval) : result (gmap string pyval) :=
  if String.eqb raw "--" then Ok (<[dest a := PEmptyList]> ns)
  else
    match type_ raw with
    | Raise _ => error
    | Ok v =>
        match choices with
        | Some cs => if bool_decide (v ∈ cs) then Ok (<[dest a := v]> ns) else error
        | None => Ok (<[dest a := v]> ns)
        end
    end.

(** The parse loop over [sys.argv[1:]]; no positional is declared, so a
    string that is neither an option nor an option's value is an error, and
    so is a ['--'] that stands by itself: nothing can take what follows it,
    and it does not count as the value of an option before it.  The loop
    decides which command lines are accepted and what they store; for one
    that is refused it stops at the first fault from the left, where
    [argparse] reports an unrecognised string only after it has gone through
    the others. *)
Fixpoint consume (spec : list argument) (argv : list string)
    (ns : gmap string pyval) : result (gmap string pyval) :=
  match argv with
  | [] => Ok ns
  | tok :: rest =>
      if String.eqb tok "--" then error
      else
        match classify spec tok with
        | Optional a explicit =>
            match act a with
            | Help => match explicit with None => Raise (SystemExit 0) | Some _ => error end
            | StoreTrue =>
                match explicit with
                | None => consume spec rest (<[dest a := PBool true]> ns)
                | Some _ => error
                end
            | Store type_ choices =>
                match explicit with
                | Some raw => ns' ← store a type_ choices raw ns; consume spec rest ns'
                | None =>
                    match rest with
                    | [] => error
                    | v :: rest' =>
                        if String.eqb v "--" then error
                        else
                          match classify spec v with
                          | Positional =>
                              ns' ← store a type_ choices v ns; consume spec rest' ns'
                          | _ => error
                          end
                    end
                end
            end
        | _ => error
        end
  end.

(** the namespace before any argument is seen *)
Definition defaults (spec : list argument) : gmap string pyval :=
  foldl (fun ns a => match act a with Help => ns | _ => <[dest a := default a]> ns end)
        ∅ spec.

Definition parse_args (spec : list argument) (argv : list string)
  : result (gmap string pyval) :=
  consume spec argv (defaults spec).

(** [args.name] *)
Definition attr (ns : gmap string pyval) (name : string) : pyval :=
  from_option id PNone (ns !! name).

End Argparse.

(** ** The chart payload and the output records *)

(** A JSON value, as [json.loads] hands it over and [json.dump] takes it. *)
#[warnings="-register-all"]
Inductive json :=
| JNull
| JBool (b : bool)
| JInt (z : Z)
| JFloat (mantissa exponent : Z)
| JStr (s : string)
| JArr (items : list json)
| JObj (members : list (string * json)).

(** The payload of the chart's [data-values] attribute, read at the shape
    the formatter indexes it: [response['values'][name]['total']['data']] is
    a list of [{'timestamp': <epoch milliseconds>, 'value': <json>}]. *)
Record entry := { timestamp : Z; value : json }.
Record totals := { data : list entry }.
Record series := { total : totals }.
Record response := { values : gmap string series }.

(** One output record; the key ['production'] may be missing. *)
Record data_point := {
  date : string;
  consumption : json;
  production : option json
}.

(** ** The Selenium driver, as an interface *)

Module Selenium.

Inductive By := NAME | CSS_SELECTOR | XPATH.

Definition locator : Type := By * string.

Inductive condition :=
| presence_of_element_located (loc : locator)
| element_to_be_clickable (loc : locator).

Record Options := {
  arguments : list string;
  experimental_options : list (string * string)
}.

Definition add_argument (a : string) (o : Options) : Options :=
  {| arguments := arguments o ++ [a];
     experimental_options := experimental_options o |}.

Definition add_experimental_option (k v : string) (o : Options) : Options :=
  {| arguments := arguments o;
     experimental_options := experimental_options o ++ [(k, v)] |}.

(** A browser session [B] with element handles [E].  Every call may change
    the session and may raise; [until t c] is
    [WebDriverWait(driver, t).until(c)], which raises [TimeoutException]
    when the condition does not come true in time.  [sleep] is what the
    page does while the program sleeps.  [quit] has no method here: it ends
    the session, and nothing of it is left to observe. *)
Class WebDriver (B E : Type) := {
  Chrome : Options -> result B;
  execute_cdp_cmd : string -> string -> B -> result unit * B;
  execute_script : string -> list E -> B -> result unit * B;
  get : string -> B -> result unit * B;
  current_url : B -> string;
  page_source : B -> string;
  until : Z -> condition -> B -> result E * B;
  find_element : locator -> B -> result E * B;
  send_keys : E -> string -> B -> result unit * B;
  click : E -> B -> result unit * B;
  get_attribute : E -> string -> B -> result (option string) * B;
  sleep : Z -> B -> B
}.

(** What the program asked of the browser, for the trace. *)
Inductive request :=
| RCdp (cmd : string)
| RScript (script : string)
| RGet (url : string)
| RUntil (timeout : Z) (c : condition)
| RFind (loc : locator)
| RSendKeys (text : string)
| RClick
| RGetAttribute (name : string).

End Selenium.
Export Selenium.

(** What the program takes from the machine it runs on and from the
    libraries outside this file: the local UTC offset at an instant, the
    successive readings of [datetime.now()] (local civil time), the
    environment after [load_dotenv()], and [json.loads] on the chart
    attribute. *)
Class Host := {
  utcoffset : Z -> Z;
  now : nat -> Datetime.datetime;
  getenv : string -> option string;
  json_loads : string -> result response
}.

(** ** Effects: the monad of the workflow *)

(** Observable effects, oldest first. [ELaunch] records a Chrome session that
    was created, [EQuit] one that was ended. *)
Inductive event :=
| EPrint (text : string)
| EPrintJson (records : list data_point)
| ESleep (seconds : Z)
| ELaunch (options : Options)
| EBrowser (r : request)
| EQuit
| EWrite (name text : string)
| EDump (name : string) (records : list data_point).

(** The state the workflow runs in: [self.driver], the number of clock
    readings taken so far, and the effects so far. *)
Record world (B : Type) := World {
  driver : option B;
  ticks : nat;
  trace : list event
}.
Arguments World {B}.
Arguments driver {B}.
Arguments ticks {B}.
Arguments trace {B}.

(** A computation returns or raises, and leaves a state either way. *)
Definition M (B A : Type) : Type := world B -> result A * world B.

#[global] Instance M_ret B : MRet (M B) := fun _ a w => (Ok a, w).
#[global] Instance M_bind B : MBind (M B) := fun _ _ f m w =>
  match m w with
  | (Ok a, w') => f a w'
  | (Raise e, w') => (Raise e, w')
  end.

Section Effects.
Context {B E : Type} `{!WebDriver B E} `{!Host}.

Definition raise {A} (e : exn) : M B A := fun w => (Raise e, w).

Definition lift {A} (r : result A) : M B A := fun w => (r, w).

Definition log (e : event) : M B unit := fun w =>
  (Ok tt, World (driver w) (ticks w) (trace w ++ [e])).

Definition print (text : string) : M B unit := log (EPrint text).

(** [with open(name, 'w') as f: f.write(text)]; the file system accepts
    every write. *)
Definition write_file (name text : string) : M B unit := log (EWrite name text).

(** [self.driver] *)
Definition get_driver : M B (option B) := fun w => (Ok (driver w), w).

(** [self.driver = d] *)
Definition set_driver (d : option B) : M B unit := fun w =>
  (Ok tt, World d (ticks w) (trace w)).

(** [time.sleep(n)] *)
Definition time_sleep (n : Z) : M B unit := fun w =>
  (Ok tt, World (sleep n <$> driver w) (ticks w) (trace w ++ [ESleep n])).

(** [datetime.now()] *)
Definition datetime_now : M B Datetime.datetime := fun w =>
  (Ok (now (ticks w)), World (driver w) (S (ticks w)) (trace w)).

(** [self.driver.<call>]: on [None] the attribute lookup fails. *)
Definition call {A} (r : request) (f : B -> result A * B) : M B A := fun w =>
  match driver w with
  | None => (Raise (AttributeError "'NoneType' object has no attribute"), w)
  | Some b =>
      let '(res, b') := f b in
      (res, World (Some b') (ticks w) (trace w ++ [EBrowser r]))
  end.

(** [self.driver.<property>] *)
Definition property {A} (f : B -> A) : M B A := fun w =>
  match driver w with
  | None => (Raise (AttributeError "'NoneType' object has no attribute"), w)
  | Some b => (Ok (f b), w)
  end.

(** [try: m  except <those e with h e = Some k>: k] *)
Definition try_except {A} (m : M B A) (h : exn -> option (M B A)) : M B A := fun w =>
  match m w with
  | (Ok a, w') => (Ok a, w')
  | (Raise e, w') =>
      match h e with
      | Some k => k w'
      | None => (Raise e, w')
      end
  end.

(** [a or <m>] with the right operand evaluated only when needed *)
Definition or_else (a : pyval) (m : M B pyval) : M B pyval :=
  if truthy a then mret a else m.

End Effects.

(** ** String operations of [str] used by the workflow *)

Module PyStr.

(** [needle in hay] *)
Fixpoint contains (needle hay : string) : bool :=
  String.prefix needle hay
  || match hay with
     | String _ hay' => contains needle hay'
     | "" => false
     end%string.

Definition lower_char (c : ascii) : ascii :=
  if Urllib.in_range "A" "Z" c then ascii_of_N (N_of_ascii c + 32) else c.

(** [s.lower()], on the ASCII letters; no other character lowers to one of
    the letters the program looks for. *)
Fixpoint lower (s : string) : string :=
  match s with
  | "" => ""
  | String c s' => String (lower_char c) (lower s')
  end%string.

(** [c * n] *)
Fixpoint repeat_char (c : ascii) (n : nat) : string :=
  match n with
  | O => ""
  | S n' => String c (repeat_char c n')
  end%string.

End PyStr.

(** ** class ElectricityScraper *)

Module ElectricityScraper.

Definition BASE_HOST : string := "https://mans.e-st.lv".
Definition LOGIN_URL : string := BASE_HOST +:+ "/lv/private/user-authentification/".
Definition DATA_URL : string :=
  BASE_HOST +:+ "/lv/private/paterini-un-norekini/paterinu-grafiki/".

Definition PERIOD_DAY : string := "D".
Definition PERIOD_MONTH : string := "M".
Definition PERIOD_YEAR : string := "Y".

Definition GRANULARITY_HOUR : string := "H".
Definition GRANULARITY_DAY : string := "D".

(** The attributes [__init__] stores; [self.driver], the one that changes,
    lives in the [world]. *)
Record scraper := {
  login : string;
  password : string;
  object_id : string;
  meter_id : string;
  headless : bool
}.

(** The dict [_get_current_date] returns. *)
Record current_date := {
  cur_year : string;
  cur_month : string;
  cur_day : string
}.

Definition USER_AGENT : string :=
  "Mozilla/5.0 (Windows NT 10.0; Win64; x64) AppleWebKit/537.36 (KHTML, like Gecko) Chrome/120.0.0.0 Safari/537.36".

Definition chrome_options (hl : bool) : Options :=
  let o := {| arguments := []; experimental_options := [] |} in
  let o :=
    if hl then
      add_argument "--start-maximized"
        (add_argument "--window-size=1920,1080" (add_argument "--headless=new" o))
    else o in
  let o := add_argument "--log-level=3" o in
  let o := add_experimental_option "excludeSwitches" "enable-logging,enable-automation" o in
  let o := add_argument "--disable-blink-features=AutomationControlled" o in
  let o := add_argument "--disable-gpu" o in
  let o := add_argument "--no-sandbox" o in
  let o := add_argument "--disable-dev-shm-usage" o in
  let o := add_argument "--disable-web-security" o in
  let o := add_argument "--disable-features=IsolateOrigins,site-per-process" o in
  let o := add_argument ("user-agent=" +:+ USER_AGENT) o in
  let o := add_experimental_option "useAutomationExtension" "False" o in
  add_experimental_option "prefs" "profile.default_content_setting_values.notifications=2" o.

Definition cookie_selectors : list string :=
  [ "button#accept";
    "button[data-action='consent'][data-action-type='accept']";
    "button.uc-accept-button";
    "button[aria-label*='Piekrītu']";
    "//button[contains(text(), 'Piekrītu')]";
    "//button[contains(@aria-label, 'Piekrītu')]" ].

Section Methods.
Context {B E : Type} `{!WebDriver B E} `{!Host}.

(** [__init__] *)
Definition __init__ (login password object_id meter_id : string) (headless : bool)
  : M B scraper :=
  set_driver None;;
  mret {| login := login; password := password; object_id := object_id;
          meter_id := meter_id; headless := headless |}.

Definition _init_driver (self : scraper) : M B unit :=
  d ← get_driver;
  match d with
  | Some _ => mret tt
  | None =>
      let options := chrome_options (headless self) in
      b ← lift (Chrome options);
      set_driver (Some b);;
      log (ELaunch options);;
      call (RCdp "Network.setUserAgentOverride")
           (execute_cdp_cmd "Network.setUserAgentOverride" USER_AGENT);;
      call (RScript "Object.defineProperty(navigator, 'webdriver', {get: () => undefined})")
           (execute_script "Object.defineProperty(navigator, 'webdriver', {get: () => undefined})" []);;
      call (RScript "Object.defineProperty(navigator, 'plugins', {get: () => [1, 2, 3, 4, 5]})")
           (execute_script "Object.defineProperty(navigator, 'plugins', {get: () => [1, 2, 3, 4, 5]})" []);;
      call (RScript "Object.defineProperty(navigator, 'languages', {get: () => ['en-US', 'en', 'lv']})")
           (execute_script "Object.defineProperty(navigator, 'languages', {get: () => ['en-US', 'en', 'lv']})" [])
  end.

Definition _get_current_date : M B current_date :=
  n ← datetime_now;
  mret {| cur_year := Datetime.strftime n "%Y";
          cur_month := Datetime.strftime n "%m";
          cur_day := Datetime.strftime n "%d" |}.

(** [_get_data_url]: the three [if]s on [period], in the order written. *)
Definition _get_data_url (self : scraper)
    (period year month day granularity : pyval) : M B string :=
  let params :=
    [ ("objectEic", PStr (object_id self));
      ("counterNumber", PStr (meter_id self));
      ("period", period) ]%string in
  year ← or_else year (d ← _get_current_date; mret (PStr (cur_year d)));
  let params :=
    if bool_decide (period = PStr PERIOD_YEAR)
    then Urllib.setitem "year" year params
    else params in
  params ←
    (if bool_decide (period = PStr PERIOD_MONTH) then
       let params := Urllib.setitem "year" year params in
       m ← or_else month (d ← _get_current_date; mret (PStr (cur_month d)));
       let params := Urllib.setitem "month" m params in
       mret (Urllib.setitem "granularity" granularity params)
     else mret params);
  params ←
    (if bool_decide (period = PStr PERIOD_DAY) then
       month ← or_else month (d ← _get_current_date; mret (PStr (cur_month d)));
       day ← or_else day (d ← _get_current_date; mret (PStr (cur_day d)));
       let params :=
         Urllib.setitem "date" (PStr (str day +:+ "." +:+ str month +:+ "." +:+ str year))
                        params in
       mret (Urllib.setitem "granularity" granularity params)
     else mret params);
  mret (DATA_URL +:+ "?" +:+ Urllib.urlencode params).

(** [_format_timestamp]: the zone is passed explicitly, [timedelta(hours=0)]. *)
Definition _format_timestamp (timestamp : Z) : result string :=
  dt ← Datetime.fromtimestamp utcoffset (Datetime.timezone_hours 0) timestamp;
  Ok (Datetime.strftime dt "%Y-%m-%d %H:%M:%S").

(** [response_data['values'][name]] *)
Definition getitem (vs : gmap string series) (name : string) : result series :=
  match vs !! name with
  | Some s => Ok s
  | None => Raise (KeyError name)
  end.

Definition _format_response (response_data : response) (neto : bool)
  : result (list data_point) :=
  s ← getitem (values response_data) "A+";
  let response_cons_data := data (total s) in
  (* Check if generation data (A-) exists *)
  let '(response_neto_data, neto) :=
    match values response_data !! "A-" with
    | Some s' => (data (total s'), neto)
    | None => ([], false)
    end in
  (* Create a mapping of timestamps to production values *)
  let production_map : gmap Z json :=
    if neto
    then foldl (fun m item => <[timestamp item := value item]> m) ∅ response_neto_data
    else ∅ in
  (* Format data as array with consumption and production *)
  for_each (fun item =>
    let timestamp := timestamp item in
    date_str ← drop_last 3 <$> _format_timestamp timestamp;
    Ok {| date := date_str;
          consumption := value item;
          production :=
            if neto then Some (default (JInt 0) (production_map !! timestamp))
            else None |})
    response_cons_data.

(** One round of the cookie-banner loop: wait for the button, click it. *)
Definition accept_cookie (selector : string) : M B unit :=
  let by_ := if String.prefix "//" selector then XPATH else CSS_SELECTOR in
  accept_button ←
    call (RUntil 3 (element_to_be_clickable (by_, selector)))
         (until 3 (element_to_be_clickable (by_, selector)));
  call (RScript "arguments[0].click();")
       (execute_script "arguments[0].click();" [accept_button]);;
  print "[OK] Accepted cookies";;
  time_sleep 2.

(** [for selector in ...: try: ...; break  except: continue] *)
Fixpoint accept_cookies (selectors : list string) : M B unit :=
  match selectors with
  | [] => mret tt
  | selector :: rest =>
      fun w =>
        match accept_cookie selector w with
        | (Ok _, w') => (Ok tt, w')
        | (Raise _, w') => accept_cookies rest w'
        end
  end.

Definition _login (self : scraper) : M B bool :=
  _init_driver self;;
  print ("Opening login page: " +:+ LOGIN_URL);;
  call (RGet LOGIN_URL) (get LOGIN_URL);;
  time_sleep 3;;
  try_except
    ((* Handle cookie consent banner *)
     try_except
       (print "Checking for cookie consent banner...";;
        accept_cookies cookie_selectors)
       (fun _ => Some (print "No cookie banner or already accepted"));;
     (* Wait for and fill login form *)
     login_input ←
       call (RUntil 20 (presence_of_element_located (NAME, "login")))
            (until 20 (presence_of_element_located (NAME, "login")));
     password_input ←
       call (RFind (NAME, "password")) (find_element (NAME, "password"));
     print "Filling login form...";;
     call (RSendKeys (login self)) (send_keys login_input (login self));;
     call (RSendKeys (password self)) (send_keys password_input (password self));;
     (* Submit form *)
     submit_button ←
       call (RFind (CSS_SELECTOR, "button[type='submit'], input[type='submit']"))
            (find_element (CSS_SELECTOR, "button[type='submit'], input[type='submit']"));
     try_except
       (call RClick (click submit_button))
       (fun _ => Some (
          print "Using JavaScript click...";;
          call (RScript "arguments[0].click();")
               (execute_script "arguments[0].click();" [submit_button])));;
     time_sleep 5;;
     url ← property current_url;
     print ("Current URL after login: " +:+ url);;
     print "[OK] Login submitted, session should be active";;
     mret true)
    (fun e =>
       match e with
       | TimeoutException => Some (
           print "ERROR: Login form not found - possible bot detection";;
           src ← property page_source;
           write_file "login_timeout.html" src;;
           mret false)
       | _ => None
       end).

(** The [try] block of [_fetch_remote_data]: wait for the chart, read
    its attribute, decode it. *)
Definition read_chart : M B response :=
  try_except
    (chart_div ←
       call (RUntil 20 (presence_of_element_located (CSS_SELECTOR, "div.chart")))
            (until 20 (presence_of_element_located (CSS_SELECTOR, "div.chart")));
     data_values ←
       call (RGetAttribute "data-values") (get_attribute chart_div "data-values");
     match data_values with
     | Some (String c s) =>
         print "[OK] Chart data found";;
         lift (json_loads (String c s))
     | _ =>
         print "ERROR: Chart data-values attribute is empty";;
         src ← property page_source;
         write_file "chart_empty.html" src;;
         raise (Exception "Chart data not found")
     end)
    (fun e =>
       match e with
       | TimeoutException => Some (
           print "ERROR: Chart not found on page";;
           src ← property page_source;
           write_file "chart_not_found.html" src;;
           raise (Exception "Chart element not found"))
       | _ => None
       end).

(** [_fetch_remote_data] up to its [try] block: log in if there is no
    session, load the data page, log in once more if the portal sent the
    browser back to the login page. *)
Definition open_data_page (self : scraper)
    (period year month day granularity : pyval) : M B unit :=
  d ← get_driver;
  (match d with
   | None =>
       ok ← _login self;
       if ok : bool then mret tt else raise (Exception "Login failed")
   | Some _ => mret tt
   end);;
  (* Navigate to data page *)
  url ← _get_data_url self period year month day granularity;
  print ("Fetching data from: " +:+ url);;
  call (RGet url) (get url);;
  print "Waiting for chart to load...";;
  time_sleep 5;;
  (* Check if redirected back to login *)
  cur ← property current_url;
  if PyStr.contains "authentification" cur || PyStr.contains "login" (PyStr.lower cur)
  then
    print "WARNING: Redirected back to login page, attempting re-login...";;
    _login self;;
    call (RGet url) (get url);;
    time_sleep 5
  else mret tt.

Definition _fetch_remote_data (self : scraper)
    (period year month day granularity : pyval) : M B response :=
  open_data_page self period year month day granularity;;
  read_chart.

Definition get_day_data (self : scraper) (neto : bool) (year month day : pyval)
  : M B (list data_point) :=
  response ←
    _fetch_remote_data self (PStr PERIOD_DAY) year month day (PStr GRANULARITY_HOUR);
  lift (_format_response response neto).

Definition get_month_data (self : scraper) (neto : bool)
    (year month granularity : pyval) : M B (list data_point) :=
  response ←
    _fetch_remote_data self (PStr PERIOD_MONTH) year month PNone
                       (py_or granularity (PStr GRANULARITY_DAY));
  lift (_format_response response neto).

Definition get_year_data (self : scraper) (neto : bool) (year : pyval)
  : M B (list data_point) :=
  response ← _fetch_remote_data self (PStr PERIOD_YEAR) year PNone PNone PNone;
  lift (_format_response response neto).

(** [close]: quit the browser if there is one, and forget it. *)
Definition close : M B unit :=
  d ← get_driver;
  match d with
  | Some _ => log EQuit;; set_driver None
  | None => mret tt
  end.

Definition __enter__ (self : scraper) : M B scraper := mret self.

Definition __exit__ : M B unit := close.

(** Leaving the [with] block: [__exit__] runs however the body ends; it
    returns [None], so an exception of the body goes on. *)
Definition leaving {A} (body : M B A) : M B A := fun w =>
  match body w with
  | (r, w') =>
      match __exit__ w' with
      | (Ok _, w'') => (r, w'')
      | (Raise e, w'') => (Raise e, w'')
      end
  end.

(** [with <ctx> as scraper: <body>] *)
Definition with_ {A} (ctx : M B scraper) (body : scraper -> M B A) : M B A :=
  self ← ctx;
  scraper ← __enter__ self;
  leaving (body scraper).

End Methods.

End ElectricityScraper.

(** ** main() *)

Module Main.
Import Argparse ElectricityScraper.

(** The parser [main] builds: [-h/--help], which [ArgumentParser] adds
    itself, then the eight [add_argument] calls. *)
Definition parser : list argument :=
  [ {| option_string := "-h"; dest := "help"; act := Help; default := PNone |};
    {| option_string := "--help"; dest := "help"; act := Help; default := PNone |};
    {| option_string := "--period"; dest := "period";
       act := Store py_str (Some [PStr "day"; PStr "month"; PStr "year"]);
       default := PStr "month" |};
    {| option_string := "--year"; dest := "year";
       act := Store py_int None; default := PNone |};
    {| option_string := "--month"; dest := "month";
       act := Store py_int None; default := PNone |};
    {| option_string := "--day"; dest := "day";
       act := Store py_int None; default := PNone |};
    {| option_string := "--granularity"; dest := "granularity";
       act := Store py_str (Some [PStr "D"; PStr "H"]); default := PNone |};
    {| option_string := "--neto"; dest := "neto";
       act := StoreTrue; default := PBool true |};
    {| option_string := "--outfile"; dest := "outfile";
       act := Store py_str None; default := PNone |};
    {| option_string := "--debug"; dest := "debug";
       act := StoreTrue; default := PBool false |} ].

(** [not os.getenv(name)] *)
Definition unset (v : option string) : bool :=
  match v with
  | None => true
  | Some s => String.eqb s ""
  end.

Definition nl : string := String (ascii_of_N 10) "".

Definition rule : string := PyStr.repeat_char "=" 60.

(** [f'{v:02d}'] *)
Definition format_02d (v : pyval) : result string :=
  match v with
  | PInt z => Ok (fmt_02d z)
  | PBool b => Ok (fmt_02d (if b then 1 else 0))
  | _ => Raise (ValueError "Unknown format code 'd'")
  end.

Section Program.
Context {B E : Type} `{!WebDriver B E} `{!Host}.

(** [datetime.now().<field>] *)
Definition now_field (f : Datetime.datetime -> Z) : M B pyval :=
  n ← datetime_now; mret (PInt (f n)).

(** The list [missing_vars], in the order the checks are written. *)
Definition missing_vars : list string :=
  (if unset (getenv "EST_USERNAME") then ["EST_USERNAME"] else [])
  ++ (if unset (getenv "EST_PASSWORD") then ["EST_PASSWORD"] else [])
  ++ (if unset (getenv "EST_OBJECT_ID") then ["EST_OBJECT_ID"] else [])
  ++ (if unset (getenv "EST_METER_ID") then ["EST_METER_ID"] else []).

(** The body of the [with] block. *)
Definition session (args : gmap string pyval) (scraper : scraper) : M B unit :=
  let neto := truthy (attr args "neto") in
  (* Fetch data based on period *)
  '(data, auto_filename) ←
    (if bool_decide (attr args "period" = PStr "year") then
       data ← get_year_data scraper neto (attr args "year");
       year_val ← or_else (attr args "year") (now_field Datetime.year);
       mret (data, "st_" +:+ str year_val +:+ ".json")
     else if bool_decide (attr args "period" = PStr "month") then
       data ← get_month_data scraper neto (attr args "year") (attr args "month")
                             (attr args "granularity");
       year_val ← or_else (attr args "year") (now_field Datetime.year);
       month_val ← or_else (attr args "month") (now_field Datetime.month);
       mm ← lift (format_02d month_val);
       mret (data, "st_" +:+ str year_val +:+ mm +:+ ".json")
     else if bool_decide (attr args "period" = PStr "day") then
       data ← get_day_data scraper neto (attr args "year") (attr args "month")
                           (attr args "day");
       year_val ← or_else (attr args "year") (now_field Datetime.year);
       month_val ← or_else (attr args "month") (now_field Datetime.month);
       day_val ← or_else (attr args "day") (now_field Datetime.day);
       mm ← lift (format_02d month_val);
       dd ← lift (format_02d day_val);
       mret (data, "st_" +:+ str year_val +:+ mm +:+ dd +:+ ".json")
     else raise (ValueError ("Invalid period: " +:+ str (attr args "period"))));
  (* Output data *)
  let outfile := py_or (attr args "outfile") (PStr auto_filename) in
  if truthy outfile then
    log (EDump (str outfile) data);;
    print (nl +:+ "[OK] Data saved to " +:+ str outfile)
  else log (EPrintJson data).

Definition main (argv : list string) : M B unit :=
  args ← lift (parse_args parser argv);
  (* Load credentials from environment variables *)
  let username := getenv "EST_USERNAME" in
  let password := getenv "EST_PASSWORD" in
  let object_id := getenv "EST_OBJECT_ID" in
  let meter_id := getenv "EST_METER_ID" in
  (* Check if all required environment variables are set *)
  match missing_vars with
  | _ :: _ =>
      print ("ERROR: Missing required environment variables: "
             +:+ join ", " missing_vars);;
      print (nl +:+ "Please create a .env file with:");;
      print "EST_USERNAME=your_email";;
      print "EST_PASSWORD=your_password";;
      print "EST_OBJECT_ID=your_object_eic_id";;
      print "EST_METER_ID=your_meter_id"
  | [] =>
      (* Headless by default, visible only in debug mode *)
      let headless := negb (truthy (attr args "debug")) in
      print rule;;
      print "E-ST.LV ELECTRICITY DATA SCRAPER";;
      print rule;;
      (if truthy (attr args "debug")
       then print "DEBUG MODE: Browser window will be visible"
       else mret tt);;
      print "";;
      with_ (__init__ (from_option id "" username) (from_option id "" password)
                      (from_option id "" object_id) (from_option id "" meter_id)
                      headless)
            (session args);;
      print (nl +:+ rule);;
      print "DONE";;
      print rule
  end.

End Program.

End Main.

(** ** A scripted portal, for running the program on concrete inputs *)

Module Fixture.
Import ElectricityScraper.

(** What the portal shows on the data page. *)
Inductive chart :=
| NoChart
| Chart (data_values : option string).

Record portal := {
  login_form : bool;
  cookie_banner : bool;
  redirect_once : bool;
  page_chart : chart
}.

(** The session: the address shown, how often the data page was asked
    for, and the script the portal follows. *)
Record browser := {
  address : string;
  loads : nat;
  script : portal
}.

Definition goto (url : string) (b : browser) : browser :=
  if String.prefix DATA_URL url then
    {| address :=
         if redirect_once (script b) && Nat.eqb (loads b) 0 then LOGIN_URL else url;
       loads := S (loads b);
       script := script b |}
  else {| address := url; loads := loads b; script := script b |}.

Definition wait (c : condition) (b : browser) : result unit * browser :=
  match c with
  | element_to_be_clickable _ =>
      (if cookie_banner (script b) then Ok tt else Raise TimeoutException, b)
  | presence_of_element_located (NAME, _) =>
      (if login_form (script b) then Ok tt else Raise TimeoutException, b)
  | presence_of_element_located _ =>
      (match page_chart (script b) with
       | NoChart => Raise TimeoutException
       | Chart _ => Ok tt
       end, b)
  end.

Definition attribute (b : browser) : option string :=
  match page_chart (script b) with
  | NoChart => None
  | Chart v => v
  end.

Definition scripted (p : portal) : WebDriver browser unit := {|
  Chrome := fun _ => Ok {| address := "about:blank"; loads := 0; script := p |};
  execute_cdp_cmd := fun _ _ b => (Ok tt, b);
  execute_script := fun _ _ b => (Ok tt, b);
  get := fun url b => (Ok tt, goto url b);
  current_url := address;
  page_source := fun b => "<html>" +:+ address b +:+ "</html>";
  until := fun _ c b => wait c b;
  find_element := fun _ b => (Ok tt, b);
  send_keys := fun _ _ b => (Ok tt, b);
  click := fun _ b => (Ok tt, b);
  get_attribute := fun _ _ b => (Ok (attribute b), b);
  sleep := fun _ b => b
|}.

Definition T0 : Z := 1756684800000.
Definition T1 : Z := 1756688400000.

(** The payload of the specification's example. *)
Definition sample : response :=
  {| values :=
       <["A+" := {| total := {| data := [ {| timestamp := T0; value := JInt 5 |};
                                         {| timestamp := T1; value := JInt 7 |} ] |} |}]>
       (<["A-" := {| total := {| data := [ {| timestamp := T0; value := JInt 2 |} ] |} |}]>
        ∅) |}.

(** The same without a production series. *)
Definition sample_consumption_only : response :=
  {| values :=
       <["A+" := {| total := {| data := [ {| timestamp := T0; value := JInt 5 |};
                                         {| timestamp := T1; value := JInt 7 |} ] |} |}]> ∅ |}.

Definition q (s : string) : string :=
  String (ascii_of_N 34) (s +:+ String (ascii_of_N 34) "").

(** [sample] as JSON text. *)
Definition sample_text : string :=
  "{" +:+ q "values" +:+ ": {"
  +:+ q "A+" +:+ ": {" +:+ q "total" +:+ ": {" +:+ q "data" +:+ ": [{"
  +:+ q "timestamp" +:+ ": 1756684800000, " +:+ q "value" +:+ ": 5}, {"
  +:+ q "timestamp" +:+ ": 1756688400000, " +:+ q "value" +:+ ": 7}]}}, "
  +:+ q "A-" +:+ ": {" +:+ q "total" +:+ ": {" +:+ q "data" +:+ ": [{"
  +:+ q "timestamp" +:+ ": 1756684800000, " +:+ q "value" +:+ ": 2}]}}}}".

(** A decoder that knows this one document and refuses every other text;
    the texts it is given below that are not [sample_text] are no JSON. *)
Definition decode (s : string) : result response :=
  if String.eqb s sample_text then Ok sample else Raise JSONDecodeError.

(** A machine two hours east of Greenwich on 2026-11-04, 13:47 local
    time, with the given environment. *)
Definition machine (env : gmap string string) : Host := {|
  utcoffset := fun _ => 7200;
  now := fun _ =>
    {| Datetime.year := 2026; Datetime.month := 11; Datetime.day := 4;
       Datetime.hour := 13; Datetime.minute := 47; Datetime.second := 0;
       Datetime.microsecond := 0 |};
  getenv := fun name => env !! name;
  json_loads := decode
|}.

(** The same machine in another zone. *)
Definition machine_west (env : gmap string string) : Host := {|
  utcoffset := fun _ => -28800;
  now := @now (machine env);
  getenv := fun name => env !! name;
  json_loads := decode
|}.

Definition credentials : gmap string string :=
  <["EST_USERNAME" := "user@example.org"]>
  (<["EST_PASSWORD" := "secret"]>
   (<["EST_OBJECT_ID" := "30X-OBJ 1"]>
    (<["EST_METER_ID" := "12345"]> ∅))).

Definition me : scraper :=
  {| login := "user@example.org"; password := "secret";
     object_id := "30X-OBJ 1"; meter_id := "12345"; headless := true |}.

(** A fresh process: no session, no clock reading, nothing done yet. *)
Definition start : world browser := World None 0 [].

Definition good : portal :=
  {| login_form := true; cookie_banner := true; redirect_once := false;
     page_chart := Chart (Some sample_text) |}.

End Fixture.

(** * What the statements are written with *)

#[local] Arguments String.append !s1 s2 : simpl nomatch.

(** ** Civil time *)

(** [y]-[m]-[d] is a date of the proleptic Gregorian calendar that
    [datetime] can hold. *)
Definition valid_date (y m d : Z) : Prop :=
  Datetime.MINYEAR <= y <= Datetime.MAXYEAR
  /\ 1 <= m <= 12
  /\ 1 <= d <= Datetime._days_in_month y m.

(** The minutes from 1970-01-01 00:00 to the civil time [y]-[m]-[d]
    [hh]:[mi], both read in UTC. *)
Definition minutes_since_epoch (y m d hh mi : Z) : Z :=
  ((Datetime._ymd2ord y m d - Datetime.EPOCH_ORDINAL) * 24 + hh) * 60 + mi.

(** [<year>-MM-DD HH:MM], the year in decimal as it is: four digits from
    the year 1000 on, fewer before. *)
Definition minute_text (y m d hh mi : Z) : string :=
  str_int y +:+ "-" +:+ fmt_02d m +:+ "-" +:+ fmt_02d d +:+ " "
  +:+ fmt_02d hh +:+ ":" +:+ fmt_02d mi.

(** The epoch milliseconds whose UTC civil time lies in the years 1..9999:
    from 0001-01-01 00:00:00.000 to 9999-12-31 23:59:59.999. *)
Definition representable (ts : Z) : Prop :=
  -62135596800000 <= ts < 253402300800000.

(** The check of one day of the year, for both kinds of year. *)
Definition month_day_ok (leap : bool) (n : Z) : bool :=
  let '(m, d) := Datetime._month_day leap n in
  (1 <=? m) && (m <=? 12) && (1 <=? d)
  && (d <=? Datetime.table Datetime._DAYS_IN_MONTH m + (if (m =? 2) && leap then 1 else 0))
  && (Datetime.table Datetime._DAYS_BEFORE_MONTH m
      + (if (2 <? m) && leap then 1 else 0) + d =? n + 1).

(** ** Output records *)

(** The production series' value at a timestamp: that of the last entry
    carrying the timestamp, if there is one. *)
Fixpoint production_at (prod : list entry) (ts : Z) : option json :=
  match prod with
  | [] => None
  | e :: rest =>
      match production_at rest ts with
      | Some v => Some v
      | None => if timestamp e =? ts then Some (value e) else None
      end
  end.

(** [fmt(T)]: the date string of an output record, as the formatter cuts it
    out of [_format_timestamp]. *)
Definition fmt `{!Host} (ts : Z) : result string :=
  drop_last 3 <$> ElectricityScraper._format_timestamp ts.

(** The record for one consumption entry, given the production series that
    is joined in, if any, and the entry's date string. *)
Definition record_of (prod : option (list entry)) (e : entry) (d : string) : data_point :=
  {| date := d;
     consumption := value e;
     production :=
       match prod with
       | Some p => Some (default (JInt 0) (production_at p (timestamp e)))
       | None => None
       end |}.

(** ** Query strings *)

Fixpoint all_chars (P : ascii -> bool) (s : string) : bool :=
  match s with
  | "" => true
  | String c s' => P c && all_chars P s'
  end%string.

(** a character that ends a name or a value in a query string *)
Definition separator (c : ascii) : bool := Ascii.eqb c "&" || Ascii.eqb c "=".

Definition pair_text (kv : string * pyval) : string :=
  Urllib.quote_plus (fst kv) +:+ "=" +:+ Urllib.quote_plus (str (snd kv)).

(** The parameters every data URL starts with. *)
Definition base_params (self : ElectricityScraper.scraper) (period : string)
  : list (string * pyval) :=
  [ ("objectEic", PStr (ElectricityScraper.object_id self));
    ("counterNumber", PStr (ElectricityScraper.meter_id self));
    ("period", PStr period) ]%string.

(** A date component as the builder takes it: the caller's value when it is
    true, else the field of clock reading number [t], which is then used up. *)
Definition defaulted `{!Host} (v : pyval) (field : string) (t : nat) : pyval * nat :=
  if truthy v then (v, t) else (PStr (Datetime.strftime (now t) field), S t).

(** ** Credentials *)

Definition required : list string :=
  ["EST_USERNAME"; "EST_PASSWORD"; "EST_OBJECT_ID"; "EST_METER_ID"]%string.

(** What [main] prints when credentials are missing. *)
Definition report (missing : list string) : list string :=
  [ "ERROR: Missing required environment variables: " +:+ join ", " missing;
    Main.nl +:+ "Please create a .env file with:";
    "EST_USERNAME=your_email";
    "EST_PASSWORD=your_password";
    "EST_OBJECT_ID=your_object_eic_id";
    "EST_METER_ID=your_meter_id" ]%string.

(** ** The chart *)

Definition chart_wait : condition :=
  presence_of_element_located (CSS_SELECTOR, "div.chart"%string).

(** the attribute is missing or empty: what [if data_values:] turns down *)
Definition empty_attribute (v : option string) : bool :=
  match v with
  | Some (String _ _) => false
  | _ => true
  end.

Definition is_dump (e : event) : bool :=
  match e with
  | EWrite _ _ => true
  | _ => false
  end.

(** ** Sessions *)

(** Chrome sessions created and not yet ended, read off a trace. *)
Definition open_sessions (t : list event) : Z :=
  foldr (fun e n => match e with
                    | ELaunch _ => n + 1
                    | EQuit => n - 1
                    | _ => n
                    end) 0 t.

(** The handle and the trace agree: a session is open exactly when
    [self.driver] holds it. *)
Definition consistent {B} (w : world B) : Prop :=
  open_sessions (trace w) = if driver w is Some _ then 1 else 0.


(** [m] keeps handle and trace in agreement, however it ends. *)
Definition keeps {B A} (m : M B A) : Prop :=
  forall w, consistent w -> consistent (m w).2.


(** ** Scenarios for the scripted portal *)

Module Scenario.
Import Fixture ElectricityScraper.

(** the chart is there, its attribute is no JSON *)
Definition undecodable : portal :=
  {| login_form := true; cookie_banner := false; redirect_once := false;
     page_chart := Chart (Some "not json") |}.

(** the chart never shows *)
Definition chartless : portal :=
  {| login_form := true; cookie_banner := false; redirect_once := false;
     page_chart := NoChart |}.

(** a session on the data page of a portal *)
Definition on_data_page (p : portal) : world browser :=
  World (Some {| address := DATA_URL; loads := 1; script := p |}) 0 [].

Definition only_username : gmap string string :=
  <["EST_USERNAME" := "user@example.org"]> ∅.

(** a payload with both series whose second consumption entry is stamped
    with the first millisecond of the year 10000 *)
Definition beyond_datetime : response :=
  {| values :=
       <["A+" := {| total := {| data := [ {| timestamp := T0; value := JInt 5 |};
                                         {| timestamp := 253402300800000;
                                            value := JInt 7 |} ] |} |}]>
       (<["A-" := {| total := {| data := [ {| timestamp := T0; value := JInt 2 |} ] |} |}]>
        ∅) |}.

End Scenario.

(** * What the further properties are written with *)

(** ** Formatted numbers *)

(** [f z] has [width] characters and reads back as [z]. *)
Definition reads_back (f : Z -> string) (width : nat) (z : Z) : bool :=
  match Argparse.digits 0 false (f z) with
  | Some z' => (z' =? z) && Nat.eqb (String.length (f z)) width
  | None => false
  end.

(** [str(y)] for a year of [datetime]: digits only, reading back as [y],
    as many as the year has, four from the year 1000 on. *)
Definition year_reads_back (y : Z) : bool :=
  match Argparse.digits 0 false (str_int y) with
  | Some y' =>
      (y' =? y)
      && all_chars Argparse.is_digit (str_int y)
      && Nat.eqb (String.length (str_int y))
                 (if (y <? 10)%Z then 1 else if (y <? 100)%Z then 2
                  else if (y <? 1000)%Z then 3 else 4)%nat
  | None => false
  end.

(** The first millisecond of the year 1000, from which on the date string
    has its full width. *)
Definition YEAR_1000 : Z := -30610224000000.

(** ** Traces *)

(** What [m] adds to the trace, however it ends, is made of events that
    satisfy [P]; what was there before stays. *)
Definition adds {B A} (P : event -> Prop) (m : M B A) : Prop :=
  forall w, exists t, trace (m w).2 = trace w ++ t /\ Forall P t.

(** When [m] returns a value, the value and the state satisfy [Q]. *)
Definition returns {B A} (Q : A -> world B -> Prop) (m : M B A) : Prop :=
  forall w a w', m w = (Ok a, w') -> Q a w'.

(** [m] raises nothing. *)
Definition never_raises {B A} (m : M B A) : Prop :=
  forall w, exists a, (m w).1 = Ok a.


(** What a fetch may do: anything but end the session or emit the data. *)
Definition fetch_event (e : event) : bool :=
  match e with
  | EQuit | EDump _ _ | EPrintJson _ => false
  | _ => true
  end.

Definition is_launch (e : event) : bool :=
  match e with
  | ELaunch _ => true
  | _ => false
  end.

(** Chrome sessions started in a trace. *)
Definition launches (t : list event) : nat := length (List.filter is_launch t).



(** What [_login] leaves behind when it returns: a session, and as the last
    effect the confirmation when it returned [True], the page written to
    [login_timeout.html] when it returned [False]. *)
Definition login_post {B E} `{!WebDriver B E} (ok : bool) (w : world B) : Prop :=
  exists b t,
    driver w = Some b
    /\ trace w = t ++ [if ok
                       then EPrint "[OK] Login submitted, session should be active"
                       else EWrite "login_timeout.html" (page_source b)].

(** The data page as [_fetch_remote_data] finds it after loading it: not a
    login page. *)
Definition stays_on_page (cur : string) : bool :=
  negb (PyStr.contains "authentification" cur
        || PyStr.contains "login" (PyStr.lower cur)).

Module Broken.
Import Fixture.

(** A machine on which Chrome does not start. *)
Definition no_chrome : WebDriver browser unit := {|
  Chrome := fun _ => Raise (WebDriverException "chromedriver not found");
  execute_cdp_cmd := fun _ _ b => (Ok tt, b);
  execute_script := fun _ _ b => (Ok tt, b);
  get := fun url b => (Ok tt, goto url b);
  current_url := address;
  page_source := fun b => "<html>" +:+ address b +:+ "</html>";
  until := fun _ c b => wait c b;
  find_element := fun _ b => (Ok tt, b);
  send_keys := fun _ _ b => (Ok tt, b);
  click := fun _ b => (Ok tt, b);
  get_attribute := fun _ _ b => (Ok (attribute b), b);
  sleep := fun _ b => b
|}.

(** A portal whose pages load, and whose chart wait fails with an error of
    the driver that is no timeout. *)
Definition stale : WebDriver browser unit := {|
  Chrome := fun _ => Ok {| address := "about:blank"; loads := 0; script := good |};
  execute_cdp_cmd := fun _ _ b => (Ok tt, b);
  execute_script := fun _ _ b => (Ok tt, b);
  get := fun url b => (Ok tt, goto url b);
  current_url := address;
  page_source := fun b => "<html>" +:+ address b +:+ "</html>";
  until := fun _ _ b => (Raise (WebDriverException "invalid session id"), b);
  find_element := fun _ b => (Ok tt, b);
  send_keys := fun _ _ b => (Ok tt, b);
  click := fun _ b => (Ok tt, b);
  get_attribute := fun _ _ b => (Ok (attribute b), b);
  sleep := fun _ b => b
|}.

End Broken.


(** What a Chrome start must look like when the browser is to be headless
    exactly when [hl] says so. *)
Definition launched_as (hl : bool) (e : event) : Prop :=
  match e with
  | ELaunch o => o = ElectricityScraper.chrome_options hl
  | _ => True
  end.

(** What saving [data] under [name] adds to the trace. *)
Definition saved (name : string) (data : list data_point) : list event :=
  [EDump name data; EPrint (Main.nl +:+ "[OK] Data saved to " +:+ name)].

(** The end of the [with] block's body once the data is there or is not:
    save it under [name], or pass the exception on. *)
Definition then_save {B} (name : string) (r : result (list data_point) * world B)
  : result unit * world B :=
  match r with
  | (Ok data, w) => (Ok tt, World (driver w) (ticks w) (trace w ++ saved name data))
  | (Raise e, w) => (Raise e, w)
  end.

Definition not_json (e : event) : Prop :=
  match e with
  | EPrintJson _ => False
  | _ => True
  end.

(** ** The namespace of an accepted command line *)

(** The values an attribute of [args] may have.  An option that takes a
    value may also hold the empty list, which is what [--opt=--] stores,
    past the conversion and the check of the choices. *)
Definition typed_value (k : string) (v : pyval) : bool :=
  if String.eqb k "period"
  then bool_decide (v ∈ [PStr "day"; PStr "month"; PStr "year"; PEmptyList])
  else if String.eqb k "year" || String.eqb k "month" || String.eqb k "day"
  then match v with PNone | PInt _ | PEmptyList => true | _ => false end
  else if String.eqb k "granularity"
  then bool_decide (v ∈ [PNone; PStr "D"; PStr "H"; PEmptyList])
  else if String.eqb k "outfile"
  then match v with PNone | PStr _ | PEmptyList => true | _ => false end
  else if String.eqb k "neto" || String.eqb k "debug"
  then match v with PBool _ => true | _ => false end
  else true.

Definition typed (ns : gmap string pyval) : Prop :=
  forall k, typed_value k (Argparse.attr ns k) = true.

(** * Proofs *)

(** ** Strings *)

Lemma append_assoc (a b c : string) : (a +:+ b) +:+ c = a +:+ (b +:+ c).
Proof. induction a as [|x a IH]; cbn; [reflexivity | now rewrite IH]. Qed.

Lemma append_nil_r (a : string) : a +:+ "" = a.
Proof. induction a as [|x a IH]; cbn; [reflexivity | now rewrite IH]. Qed.

Lemma length_append (a b : string) :
  String.length (a +:+ b) = (String.length a + String.length b)%nat.
Proof. induction a as [|x a IH]; cbn; [reflexivity | now rewrite IH]. Qed.

Lemma substring_append (a b : string) :
  substring 0 (String.length a) (a +:+ b) = a.
Proof. induction a as [|x a IH]; cbn; [now destruct b | now rewrite IH]. Qed.

Lemma drop_last_append (n : nat) (a b : string) :
  String.length b = n -> drop_last n (a +:+ b) = a.
Proof.
  intros Hb. unfold drop_last. rewrite length_append, Hb.
  replace (String.length a + n - n)%nat with (String.length a) by lia.
  apply substring_append.
Qed.

(** A property checked on [0 .. n-1] holds on that range. *)
Lemma range_check (P : Z -> bool) (n : nat) :
  forallb (fun k => P (Z.of_nat k)) (seq 0 n) = true ->
  forall z, 0 <= z < Z.of_nat n -> P z = true.
Proof.
  intros Hall z Hz.
  rewrite forallb_forall in Hall.
  rewrite <- (Z2Nat.id z) by lia.
  apply Hall, in_seq. lia.
Qed.

Lemma fmt_02d_length (z : Z) : 0 <= z < 100 -> String.length (fmt_02d z) = 2%nat.
Proof.
  intros Hz.
  apply Nat.eqb_eq.
  apply (range_check (fun z => Nat.eqb (String.length (fmt_02d z)) 2) 100);
    [vm_compute; reflexivity | lia].
Qed.

(** ** The calendar: [_ord2ymd] inverts [_ymd2ord] *)

Section Calendar.
Import Datetime.

Lemma month_day_spec (leap : bool) (n : Z) :
  0 <= n < (if leap then 366 else 365) ->
  month_day_ok leap n = true.
Proof.
  intros Hn. destruct leap.
  - apply (range_check (month_day_ok true) 366); [vm_compute; reflexivity | lia].
  - apply (range_check (month_day_ok false) 365); [vm_compute; reflexivity | lia].
Qed.

Lemma days_in_month_leap (y m : Z) :
  _days_in_month y m
  = table _DAYS_IN_MONTH m + (if (m =? 2) && _is_leap y then 1 else 0).
Proof.
  unfold _days_in_month. destruct (m =? 2) eqn:Hm; simpl; [|lia].
  apply Z.eqb_eq in Hm. subst. destruct (_is_leap y); reflexivity.
Qed.

Ltac split_div n d q r :=
  assert (n = d * q + r /\ 0 <= r < d)
    by (subst q r; split; [apply Z.div_mod; lia | apply Z.mod_pos_bound; lia]).

Ltac case_eqb :=
  repeat match goal with
         | |- context [?a =? ?b] => destruct (Z.eqb_spec a b)
         end;
  cbn [andb orb negb].

Lemma ord2ymd_spec (n : Z) :
  1 <= n <= _MAXORDINAL ->
  let '(y, m, d) := _ord2ymd n in
  valid_date y m d /\ _ymd2ord y m d = n.
Proof.
  intros Hn. unfold _ord2ymd, _MAXORDINAL, _DI400Y, _DI100Y, _DI4Y in *.
  set (n0 := n - 1).
  set (n400 := n0 / 146097). set (r400 := n0 mod 146097).
  set (n100 := r400 / 36524). set (r100 := r400 mod 36524).
  set (n4 := r100 / 1461). set (r4 := r100 mod 1461).
  set (n1 := r4 / 365). set (r1 := r4 mod 365).
  split_div n0 146097 n400 r400. split_div r400 36524 n100 r100.
  split_div r100 1461 n4 r4. split_div r4 365 n1 r1.
  assert (Hn0 : 0 <= n0 <= 3652058 /\ n = n0 + 1) by (subst n0; lia).
  clearbody n400 r400 n100 r100 n4 r4 n1 r1 n0.
  assert (0 <= n400 <= 24) by lia.
  assert (0 <= n100 <= 4) by lia.
  assert (0 <= n4 <= 24) by lia.
  assert (0 <= n1 <= 4) by lia.
  destruct ((n1 =? 4) || (n100 =? 4)) eqn:Hsp.
  - (* the last day of a leap year *)
    unfold valid_date, _ymd2ord, _days_before_year, _days_before_month, _days_in_month,
      _is_leap, MINYEAR, MAXYEAR.
    change (table _DAYS_BEFORE_MONTH 12) with 334.
    change (table _DAYS_IN_MONTH 12) with 31.
    change (12 =? 2) with false. change (2 <? 12) with true. cbn [andb].
    apply orb_true_iff in Hsp.
    assert (Hy : 1 <= n400 * 400 + 1 + n100 * 100 + n4 * 4 + n1 - 1 <= 9999) by lia.
    case_eqb; (split; [lia|]); destruct Hsp as [Hsp|Hsp]; apply Z.eqb_eq in Hsp;
      Z.div_mod_to_equations; lia.
  - apply orb_false_iff in Hsp. destruct Hsp as [Hn1 Hn100].
    apply Z.eqb_neq in Hn1, Hn100.
    set (y := n400 * 400 + 1 + n100 * 100 + n4 * 4 + n1).
    set (leapyear := (n1 =? 3) && (negb (n4 =? 24) || (n100 =? 3))).
    assert (Hy : 1 <= y <= 9999) by (subst y; lia).
    assert (Hleap : leapyear = _is_leap y).
    { subst leapyear y. unfold _is_leap.
      case_eqb; try reflexivity; exfalso; Z.div_mod_to_equations; lia. }
    assert (Hdby : _days_before_year y = n0 - r1).
    { subst y. unfold _days_before_year. Z.div_mod_to_equations. lia. }
    assert (Hmd : month_day_ok leapyear r1 = true)
      by (apply month_day_spec; destruct leapyear; lia).
    unfold month_day_ok in Hmd.
    destruct (_month_day leapyear r1) as [m d].
    rewrite !andb_true_iff in Hmd.
    destruct Hmd as [[[[Hm1 Hm2] Hd1] Hd2] Hsum].
    apply Z.leb_le in Hm1, Hm2, Hd1, Hd2. apply Z.eqb_eq in Hsum.
    unfold valid_date, _ymd2ord, _days_before_month, MINYEAR, MAXYEAR.
    rewrite days_in_month_leap, <- Hleap, Hdby. lia.
Qed.

Lemma strftime_seconds (dt : datetime) :
  strftime dt "%Y-%m-%d %H:%M:%S"
  = minute_text (year dt) (month dt) (day dt) (hour dt) (minute dt)
    +:+ (":" +:+ fmt_02d (second dt)).
Proof.
  unfold minute_text. cbn [strftime directive Ascii.eqb Bool.eqb].
  rewrite !append_assoc. cbn [String.append]. rewrite !append_nil_r.
  reflexivity.
Qed.

Lemma of_seconds_ok (s us : Z) :
  -62135596800 <= s <= 253402300799 ->
  exists dt, of_seconds s us = Ok dt
    /\ valid_date (year dt) (month dt) (day dt)
    /\ 0 <= hour dt < 24 /\ 0 <= minute dt < 60 /\ 0 <= second dt < 60
    /\ minutes_since_epoch (year dt) (month dt) (day dt) (hour dt) (minute dt) = s / 60.
Proof.
  intros Hs. unfold of_seconds.
  set (ord := s / 86400 + EPOCH_ORDINAL).
  assert (Hord : 1 <= ord <= _MAXORDINAL).
  { subst ord. unfold EPOCH_ORDINAL, _MAXORDINAL. Z.div_mod_to_equations. lia. }
  replace ((1 <=? ord) && (ord <=? _MAXORDINAL)) with true
    by (symmetry; apply andb_true_iff; split; apply Z.leb_le; lia).
  pose proof (ord2ymd_spec ord Hord) as Hymd.
  destruct (_ord2ymd ord) as [[y m] d]. destruct Hymd as [Hv Hrt].
  eexists. split; [reflexivity|]. cbn [year month day hour minute second].
  split; [exact Hv|].
  unfold minutes_since_epoch. rewrite Hrt. subst ord.
  repeat split; Z.div_mod_to_equations; lia.
Qed.

Lemma of_seconds_out (s us : Z) :
  ~ (-62135596800 <= s <= 253402300799) ->
  of_seconds s us = Raise (ValueError "year is out of range").
Proof.
  intros Hs. unfold of_seconds.
  set (ord := s / 86400 + EPOCH_ORDINAL).
  destruct ((1 <=? ord) && (ord <=? _MAXORDINAL)) eqn:Hr; [|reflexivity].
  exfalso. apply Hs. apply andb_true_iff in Hr. destruct Hr as [H1 H2].
  apply Z.leb_le in H1, H2. subst ord. unfold EPOCH_ORDINAL, _MAXORDINAL in *.
  Z.div_mod_to_equations. lia.
Qed.

(** The zone is passed to [fromtimestamp], so the machine's own is never
    asked. *)
Lemma format_timestamp_eq (h : Host) (ts : Z) :
  @ElectricityScraper._format_timestamp h ts
  = dt ← of_seconds (ts / 1000) (ts mod 1000 * 1000);
    Ok (strftime dt "%Y-%m-%d %H:%M:%S").
Proof.
  unfold ElectricityScraper._format_timestamp, fromtimestamp, timezone_hours.
  replace (ts / 1000 + 0 * 3600) with (ts / 1000) by lia.
  destruct (of_seconds (ts / 1000) (ts mod 1000 * 1000)); reflexivity.
Qed.

Lemma fmt_any_host (h1 h2 : Host) (ts : Z) : @fmt h1 ts = @fmt h2 ts.
Proof. unfold fmt. now rewrite !format_timestamp_eq. Qed.

Lemma fmt_in_range (h : Host) (ts : Z) :
  representable ts ->
  exists y m d hh mi,
    valid_date y m d /\ 0 <= hh < 24 /\ 0 <= mi < 60
    /\ minutes_since_epoch y m d hh mi = ts / 60000
    /\ @fmt h ts = Ok (minute_text y m d hh mi).
Proof.
  unfold fmt, representable. rewrite format_timestamp_eq. intros Hr.
  destruct (of_seconds_ok (ts / 1000) (ts mod 1000 * 1000))
    as (dt & Hdt & Hv & Hh & Hm & Hs & Hmin);
    [Z.div_mod_to_equations; lia|].
  exists (year dt), (month dt), (day dt), (hour dt), (minute dt).
  split; [exact Hv|]. split; [lia|]. split; [lia|]. split.
  - rewrite Hmin. Z.div_mod_to_equations. lia.
  - rewrite Hdt. unfold mbind, result_bind, fmap, result_fmap.
    rewrite strftime_seconds.
    rewrite drop_last_append; [reflexivity|].
    cbn. now rewrite fmt_02d_length by lia.
Qed.

Lemma fmt_beyond_range (h : Host) (ts : Z) :
  ~ representable ts -> @fmt h ts = Raise (ValueError "year is out of range").
Proof.
  unfold fmt, representable. rewrite format_timestamp_eq. intros Hr.
  rewrite of_seconds_out; [reflexivity|].
  intros Hs. apply Hr. Z.div_mod_to_equations. lia.
Qed.

(** C6 (as amended): formatting a timestamp gives the same outcome on every
    machine, whatever its time zone, clock and environment; for a timestamp
    whose UTC civil time lies in the years 1..9999 the outcome is the text
    [<year>-MM-DD HH:MM] of a valid calendar date and time of day that is,
    in UTC, the minute the timestamp falls in, the year written in decimal
    as [%Y] gives it, without padding (so [YYYY] from the year 1000 on and
    shorter before); for any other timestamp the call raises and no text is
    produced. *)
Theorem format_timestamp_utc_minute (h1 h2 : Host) (ts : Z) :
  @fmt h1 ts = @fmt h2 ts
  /\ (representable ts ->
      exists y m d hh mi,
        valid_date y m d /\ 0 <= hh < 24 /\ 0 <= mi < 60
        /\ minutes_since_epoch y m d hh mi = ts / 60000
        /\ @fmt h1 ts = Ok (minute_text y m d hh mi))
  /\ (~ representable ts -> exists e, @fmt h1 ts = Raise e).
Proof.
  split; [apply fmt_any_host|]. split; [apply fmt_in_range|].
  intros Hr. eexists. now apply fmt_beyond_range.
Qed.

End Calendar.

Lemma format_timestamp_utc_minute_witness :
  representable Fixture.T0
  /\ exists y m d hh mi,
       valid_date y m d /\ 0 <= hh < 24 /\ 0 <= mi < 60
       /\ minutes_since_epoch y m d hh mi = Fixture.T0 / 60000
       /\ @fmt (Fixture.machine ∅) Fixture.T0 = Ok (minute_text y m d hh mi).
Proof.
  assert (Hr : representable Fixture.T0) by (unfold representable, Fixture.T0; lia).
  split; [exact Hr|].
  exact (proj1 (proj2 (format_timestamp_utc_minute
                         (Fixture.machine ∅) (Fixture.machine_west ∅) Fixture.T0)) Hr).
Defined.

(** C6, as the specification words it, fails on the first millisecond of
    the year 10000: no text comes back. *)
Lemma format_timestamp_out_of_range :
  @fmt (Fixture.machine ∅) 253402300800000 = Raise (ValueError "year is out of range")
  /\ ~ (exists text, @fmt (Fixture.machine ∅) 253402300800000 = Ok text).
Proof.
  assert (H : @fmt (Fixture.machine ∅) 253402300800000
              = Raise (ValueError "year is out of range")) by reflexivity.
  split; [exact H|]. intros [text Ht]. rewrite H in Ht. discriminate.
Qed.

Example format_timestamp_sample :
  @fmt (Fixture.machine ∅) 1700000000000 = Ok "2023-11-14 22:13"%string
  /\ @fmt (Fixture.machine_west ∅) 1700000000000 = Ok "2023-11-14 22:13"%string
  /\ @fmt (Fixture.machine ∅) (-1) = Ok "1969-12-31 23:59"%string
  /\ @fmt (Fixture.machine ∅) (-62135596800000) = Ok "1-01-01 00:00"%string
  /\ @fmt (Fixture.machine ∅) (-30610224000001) = Ok "999-12-31 23:59"%string
  /\ @ElectricityScraper._format_timestamp (Fixture.machine ∅) (-62135596800000)
     = Ok "1-01-01 00:00:00"%string.
Proof. repeat split; reflexivity. Qed.

(** ** The response formatter *)

Lemma production_map_lookup (prod : list entry) (m : gmap Z json) (ts : Z) :
  foldl (fun m item => <[timestamp item := value item]> m) m prod !! ts
  = match production_at prod ts with
    | Some v => Some v
    | None => m !! ts
    end.
Proof.
  revert m. induction prod as [|e rest IH]; intros m; cbn [foldl production_at];
    [reflexivity|].
  rewrite IH. destruct (production_at rest ts); [reflexivity|].
  destruct (Z.eqb_spec (timestamp e) ts) as [->|Hne].
  - apply lookup_insert_eq.
  - now apply lookup_insert_ne.
Qed.

Lemma for_each_zip {A C} (f : A -> result string) (g : A -> string -> C)
    (l : list A) (ds : list string) :
  Forall2 (fun a d => f a = Ok d) l ds ->
  for_each (fun a => d ← f a; Ok (g a d)) l = Ok (zip_with g l ds).
Proof.
  induction 1 as [|a d l ds Ha _ IH]; cbn [for_each zip_with]; [reflexivity|].
  rewrite Ha, IH. reflexivity.
Qed.

Lemma for_each_ext {A C} (f g : A -> result C) (l : list A) :
  (forall a, f a = g a) -> for_each f l = for_each g l.
Proof. intros Hfg. induction l as [|a l IH]; cbn; [reflexivity | now rewrite Hfg, IH]. Qed.

Section Formatter.
Context `{!Host}.
Import ElectricityScraper.

(** The formatter is the loop over the consumption series, with the
    production series joined in when it is there and asked for. *)
Lemma format_response_body (resp : response) (neto : bool) (sc : series) :
  values resp !! "A+" = Some sc ->
  let prod :=
    match values resp !! "A-" with
    | Some sp => if neto then Some (data (total sp)) else None
    | None => None
    end in
  _format_response resp neto
  = for_each (fun e => d ← fmt (timestamp e); Ok (record_of prod e d)) (data (total sc)).
Proof.
  intros Hc. cbv zeta. unfold _format_response, getitem. rewrite Hc.
  unfold mbind at 1, result_bind at 1.
  destruct (values resp !! "A-") as [sp|]; [destruct neto|]; cbv iota beta;
    unfold fmt, record_of; try reflexivity.
  apply for_each_ext. intros e.
  rewrite production_map_lookup, lookup_empty.
  now destruct (production_at (data (total sp)) (timestamp e)).
Qed.

Lemma fmt_representable (ts : Z) : representable ts -> exists d, fmt ts = Ok d.
Proof.
  intros Hr.
  destruct (fmt_in_range _ ts Hr) as (y & m & d & hh & mi & _ & _ & _ & _ & Hd). eauto.
Qed.

Lemma fmt_all (l : list entry) :
  Forall (fun e => representable (timestamp e)) l ->
  exists ds, Forall2 (fun e d => fmt (timestamp e) = Ok d) l ds.
Proof.
  induction 1 as [|e l He _ [ds IH]]; [exists []; constructor|].
  destruct (fmt_representable _ He) as [d Hd]. exists (d :: ds). now constructor.
Qed.

Lemma format_response_records (resp : response) (neto : bool) (sc : series) :
  values resp !! "A+" = Some sc ->
  Forall (fun e => representable (timestamp e)) (data (total sc)) ->
  let prod :=
    match values resp !! "A-" with
    | Some sp => if neto then Some (data (total sp)) else None
    | None => None
    end in
  exists recs,
    _format_response resp neto = Ok recs
    /\ length recs = length (data (total sc))
    /\ forall i e, data (total sc) !! i = Some e ->
         exists d, fmt (timestamp e) = Ok d /\ recs !! i = Some (record_of prod e d).
Proof.
  intros Hc Hall prod. destruct (fmt_all _ Hall) as [ds Hds].
  exists (zip_with (record_of prod) (data (total sc)) ds).
  split; [|split].
  - rewrite (format_response_body _ _ _ Hc). fold prod. now apply for_each_zip.
  - rewrite length_zip_with. apply Forall2_length in Hds. lia.
  - intros i e Hi.
    destruct (Forall2_lookup_l _ _ _ _ _ Hds Hi) as (d & Hd & Hfd).
    exists d. split; [exact Hfd|].
    rewrite lookup_zip_with, Hi. cbn. rewrite Hd. reflexivity.
Qed.

(** C1 (as amended): when the payload has a consumption series and a
    production series, formatting with inclusion enabled is the loop over
    the consumption series, in its order, that builds for each entry the
    record with the date string of the entry's timestamp, the entry's value
    as consumption, and as production the value the production series has at
    that timestamp (its last entry with it), or 0 when it has none.  So when
    every consumption timestamp can be formatted, that is, lies in the years
    1 to 9999, it returns exactly one record per consumption entry, the
    [i]-th record being that of the [i]-th entry; a timestamp outside these
    years makes the loop raise. *)
Theorem format_response_joins_production (resp : response) (sc sp : series) :
  values resp !! "A+" = Some sc ->
  values resp !! "A-" = Some sp ->
  _format_response resp true
  = for_each (fun e =>
                d ← fmt (timestamp e);
                Ok {| date := d;
                      consumption := value e;
                      production :=
                        Some (default (JInt 0)
                                (production_at (data (total sp)) (timestamp e))) |})
             (data (total sc))
  /\ (Forall (fun e => representable (timestamp e)) (data (total sc)) ->
      exists recs,
        _format_response resp true = Ok recs
        /\ length recs = length (data (total sc))
        /\ forall i e, data (total sc) !! i = Some e ->
             exists d,
               fmt (timestamp e) = Ok d
               /\ recs !! i
                  = Some {| date := d;
                            consumption := value e;
                            production :=
                              Some (default (JInt 0)
                                      (production_at (data (total sp)) (timestamp e))) |}).
Proof.
  intros Hc Hp. split.
  - pose proof (format_response_body resp true sc Hc) as Hb.
    cbv zeta in Hb. rewrite Hp in Hb. exact Hb.
  - intros Hall.
    pose proof (format_response_records resp true sc Hc Hall) as Hrec.
    cbv zeta in Hrec. rewrite Hp in Hrec. exact Hrec.
Qed.

(** C2: when the payload has no production series, what the caller asks
    for makes no difference: formatting does what it does with inclusion
    off, no record it returns has a production, and when the consumption
    series is there and its timestamps can be formatted it does return one
    record per entry. *)
Theorem format_response_without_production (resp : response) (neto : bool)
    (sc : series) :
  values resp !! "A-" = None ->
  values resp !! "A+" = Some sc ->
  Forall (fun e => representable (timestamp e)) (data (total sc)) ->
  _format_response resp neto = _format_response resp false
  /\ exists recs,
       _format_response resp neto = Ok recs
       /\ length recs = length (data (total sc))
       /\ Forall (fun r => production r = None) recs.
Proof.
  intros Hp Hc Hall.
  assert (Heq : _format_response resp neto = _format_response resp false).
  { rewrite !(format_response_body _ _ _ Hc). cbv zeta. now rewrite Hp. }
  split; [exact Heq|].
  destruct (format_response_records resp neto sc Hc Hall) as (recs & Hr & Hlen & Hrec).
  exists recs. split; [exact Hr|]. split; [exact Hlen|].
  apply Forall_lookup. intros i r Hi.
  assert (Hlt : (i < length (data (total sc)))%nat)
    by (rewrite <- Hlen; now apply lookup_lt_Some in Hi).
  destruct (lookup_lt_is_Some_2 _ _ Hlt) as [e He].
  destruct (Hrec i e He) as (d & _ & Hri).
  rewrite Hp in Hri. rewrite Hi in Hri. now inversion Hri.
Qed.

End Formatter.

Lemma format_response_joins_production_witness :
  exists recs,
    @ElectricityScraper._format_response (Fixture.machine ∅) Fixture.sample true = Ok recs
    /\ length recs = 2%nat.
Proof.
  destruct (@format_response_joins_production (Fixture.machine ∅) Fixture.sample
              {| total := {| data := [ {| timestamp := Fixture.T0; value := JInt 5 |};
                                       {| timestamp := Fixture.T1; value := JInt 7 |} ] |} |}
              {| total := {| data := [ {| timestamp := Fixture.T0; value := JInt 2 |} ] |} |})
    as (_ & Hrecs).
  - reflexivity.
  - reflexivity.
  - destruct Hrecs as (recs & Hr & Hlen & _).
    + repeat constructor; unfold representable, Fixture.T0, Fixture.T1; cbn; lia.
    + exists recs. split; [exact Hr | exact Hlen].
Defined.

(** C1, as the specification words it, fails for a payload with both
    series when a consumption entry is stamped outside the years that
    [datetime] holds: the call raises, and no record comes back, not even
    for the entry before it. *)
Lemma format_response_beyond_datetime :
  values Scenario.beyond_datetime !! "A+"
  = Some {| total := {| data := [ {| timestamp := Fixture.T0; value := JInt 5 |};
                                  {| timestamp := 253402300800000;
                                     value := JInt 7 |} ] |} |}
  /\ values Scenario.beyond_datetime !! "A-"
     = Some {| total := {| data := [ {| timestamp := Fixture.T0; value := JInt 2 |} ] |} |}
  /\ @ElectricityScraper._format_response (Fixture.machine ∅) Scenario.beyond_datetime true
     = Raise (ValueError "year is out of range")
  /\ ~ (exists recs,
          @ElectricityScraper._format_response (Fixture.machine ∅)
             Scenario.beyond_datetime true = Ok recs).
Proof.
  assert (H : @ElectricityScraper._format_response (Fixture.machine ∅)
                Scenario.beyond_datetime true
              = Raise (ValueError "year is out of range")) by reflexivity.
  split; [reflexivity|]. split; [reflexivity|]. split; [exact H|].
  intros [recs Hr]. rewrite H in Hr. discriminate.
Qed.

Lemma format_response_without_production_witness :
  exists recs,
    @ElectricityScraper._format_response (Fixture.machine ∅)
       Fixture.sample_consumption_only true = Ok recs
    /\ Forall (fun r => production r = None) recs.
Proof.
  destruct (@format_response_without_production (Fixture.machine ∅)
              Fixture.sample_consumption_only true
              {| total := {| data := [ {| timestamp := Fixture.T0; value := JInt 5 |};
                                       {| timestamp := Fixture.T1; value := JInt 7 |} ] |} |})
    as (_ & recs & Hr & _ & Hall).
  - reflexivity.
  - reflexivity.
  - repeat constructor; unfold representable, Fixture.T0, Fixture.T1; cbn; lia.
  - exists recs. split; [exact Hr | exact Hall].
Defined.

(** The example of the specification, run. *)
Example format_response_example :
  @ElectricityScraper._format_response (Fixture.machine ∅) Fixture.sample true
  = Ok [ {| date := "2025-09-01 00:00"; consumption := JInt 5; production := Some (JInt 2) |};
         {| date := "2025-09-01 01:00"; consumption := JInt 7; production := Some (JInt 0) |} ]
  /\ @ElectricityScraper._format_response (Fixture.machine ∅)
       Fixture.sample_consumption_only true
     = Ok [ {| date := "2025-09-01 00:00"; consumption := JInt 5; production := None |};
            {| date := "2025-09-01 01:00"; consumption := JInt 7; production := None |} ].
Proof. split; reflexivity. Qed.

(** ** Query strings *)

Section Quoting.
Import Urllib.

Lemma all_chars_append (P : ascii -> bool) (a b : string) :
  all_chars P (a +:+ b) = all_chars P a && all_chars P b.
Proof. induction a as [|c a IH]; cbn; [reflexivity|]. now rewrite IH, andb_assoc. Qed.

Lemma all_chars_weaken (P Q : ascii -> bool) (s : string) :
  (forall c, P c = true -> Q c = true) -> all_chars P s = true -> all_chars Q s = true.
Proof.
  intros HPQ. induction s as [|c s IH]; cbn; [reflexivity|].
  rewrite !andb_true_iff. intros [Hc Hs]. auto.
Qed.

Lemma quote_plus_safe (s : string) : all_chars always_safe s = true -> quote_plus s = s.
Proof.
  induction s as [|c s IH]; cbn; [reflexivity|].
  rewrite andb_true_iff. intros [Hc Hs]. unfold quote_byte. rewrite Hc. cbn.
  now rewrite IH.
Qed.

(** Quoting leaves no [&] and no [=] behind. *)
Lemma quote_byte_plain (c : ascii) :
  all_chars (fun x => negb (separator x)) (quote_byte c) = true.
Proof. destruct c as [[] [] [] [] [] [] [] []]; reflexivity. Qed.

Lemma quote_plus_plain (s : string) :
  all_chars (fun x => negb (separator x)) (quote_plus s) = true.
Proof.
  induction s as [|c s IH]; cbn; [reflexivity|].
  now rewrite all_chars_append, quote_byte_plain, IH.
Qed.

Lemma uint_safe (u : Decimal.uint) :
  all_chars always_safe (NilEmpty.string_of_uint u) = true.
Proof. induction u; cbn; try reflexivity; exact IHu. Qed.

Lemma str_int_safe (z : Z) : all_chars always_safe (str_int z) = true.
Proof.
  unfold str_int, NilZero.string_of_int, NilZero.string_of_uint.
  destruct (Z.to_int z) as [u|u]; destruct u; try reflexivity;
    try (apply (uint_safe (Decimal.D0 u)) || apply (uint_safe (Decimal.D1 u))
         || apply (uint_safe (Decimal.D2 u)) || apply (uint_safe (Decimal.D3 u))
         || apply (uint_safe (Decimal.D4 u)) || apply (uint_safe (Decimal.D5 u))
         || apply (uint_safe (Decimal.D6 u)) || apply (uint_safe (Decimal.D7 u))
         || apply (uint_safe (Decimal.D8 u)) || apply (uint_safe (Decimal.D9 u))).
Qed.

Lemma split_on_plain (sep : ascii) (a : string) :
  all_chars (fun x => negb (Ascii.eqb x sep)) a = true -> split_on sep a = [a].
Proof.
  induction a as [|c a IH]; cbn; [reflexivity|].
  rewrite andb_true_iff, negb_true_iff. intros [Hc Ha].
  now rewrite Hc, IH.
Qed.

Lemma split_on_sep (sep : ascii) (a b : string) :
  all_chars (fun x => negb (Ascii.eqb x sep)) a = true ->
  split_on sep (a +:+ String sep b) = a :: split_on sep b.
Proof.
  induction a as [|c a IH]; cbn.
  - intros _. now rewrite Ascii.eqb_refl.
  - rewrite andb_true_iff, negb_true_iff. intros [Hc Ha]. now rewrite Hc, IH.
Qed.

Lemma plain_no_amp (s : string) :
  all_chars (fun x => negb (separator x)) s = true ->
  all_chars (fun x => negb (Ascii.eqb x "&")) s = true.
Proof.
  apply all_chars_weaken. intros c. unfold separator.
  rewrite !negb_true_iff, orb_false_iff. tauto.
Qed.

Lemma plain_no_eq (s : string) :
  all_chars (fun x => negb (separator x)) s = true ->
  all_chars (fun x => negb (Ascii.eqb x "=")) s = true.
Proof.
  apply all_chars_weaken. intros c. unfold separator.
  rewrite !negb_true_iff, orb_false_iff. tauto.
Qed.

Lemma pair_text_key (kv : string * pyval) :
  hd ""%string (split_on "=" (pair_text kv)) = quote_plus (fst kv).
Proof.
  unfold pair_text. change ("=" +:+ ?s) with (String "=" s).
  rewrite split_on_sep; [reflexivity|]. apply plain_no_eq, quote_plus_plain.
Qed.

Lemma pair_text_no_amp (kv : string * pyval) :
  all_chars (fun x => negb (Ascii.eqb x "&")) (pair_text kv) = true.
Proof.
  unfold pair_text. rewrite !all_chars_append, !andb_true_iff.
  repeat split; try reflexivity; apply plain_no_amp, quote_plus_plain.
Qed.

(** The names read back from an encoded query are the names that went in. *)
Lemma query_keys_urlencode (params : list (string * pyval)) :
  params <> [] ->
  query_keys (urlencode params) = map (fun kv => quote_plus (fst kv)) params.
Proof.
  unfold query_keys, urlencode.
  change (map (fun kv => quote_plus kv.1 +:+ "=" +:+ quote_plus (str kv.2)) params)
    with (map pair_text params).
  induction params as [|kv [|kv' rest] IH]; intros Hne; [congruence| |].
  - cbn [map join]. rewrite split_on_plain by apply pair_text_no_amp.
    cbn [map]. now rewrite pair_text_key.
  - cbn [map join] in *. change ("&" +:+ ?s) with (String "&" s).
    rewrite split_on_sep by apply pair_text_no_amp.
    cbn [map]. rewrite pair_text_key. f_equal. apply IH. congruence.
Qed.

End Quoting.

(** ** The URL builder *)

Section Url.
Context {B E : Type} `{!WebDriver B E} `{!Host}.
Import ElectricityScraper Urllib.

Lemma world_eta (w : world B) : World (driver w) (ticks w) (trace w) = w.
Proof. now destruct w. Qed.

Lemma or_else_year (v : pyval) (w : world B) :
  or_else v (d ← _get_current_date; mret (PStr (cur_year d))) w
  = (Ok (defaulted v "%Y" (ticks w)).1,
     World (driver w) (defaulted v "%Y" (ticks w)).2 (trace w)).
Proof.
  unfold or_else, defaulted. destruct (truthy v); cbn; [now rewrite world_eta|reflexivity].
Qed.

Lemma or_else_month (v : pyval) (w : world B) :
  or_else v (d ← _get_current_date; mret (PStr (cur_month d))) w
  = (Ok (defaulted v "%m" (ticks w)).1,
     World (driver w) (defaulted v "%m" (ticks w)).2 (trace w)).
Proof.
  unfold or_else, defaulted. destruct (truthy v); cbn; [now rewrite world_eta|reflexivity].
Qed.

Lemma or_else_day (v : pyval) (w : world B) :
  or_else v (d ← _get_current_date; mret (PStr (cur_day d))) w
  = (Ok (defaulted v "%d" (ticks w)).1,
     World (driver w) (defaulted v "%d" (ticks w)).2 (trace w)).
Proof.
  unfold or_else, defaulted. destruct (truthy v); cbn; [now rewrite world_eta|reflexivity].
Qed.

Lemma get_data_url_year (self : scraper) (year month day granularity : pyval)
    (w : world B) :
  let y := defaulted year "%Y" (ticks w) in
  _get_data_url self (PStr PERIOD_YEAR) year month day granularity w
  = (Ok (DATA_URL +:+ "?"
         +:+ urlencode (base_params self PERIOD_YEAR ++ [("year", y.1)]%string)),
     World (driver w) y.2 (trace w)).
Proof.
  cbv zeta. unfold _get_data_url.
  unfold mbind at 1, M_bind at 1. rewrite or_else_year.
  reflexivity.
Qed.

Lemma get_data_url_month (self : scraper) (year month day granularity : pyval)
    (w : world B) :
  let y := defaulted year "%Y" (ticks w) in
  let m := defaulted month "%m" y.2 in
  _get_data_url self (PStr PERIOD_MONTH) year month day granularity w
  = (Ok (DATA_URL +:+ "?"
         +:+ urlencode (base_params self PERIOD_MONTH
                        ++ [("year", y.1); ("month", m.1);
                            ("granularity", granularity)]%string)),
     World (driver w) m.2 (trace w)).
Proof.
  cbv zeta. unfold _get_data_url.
  unfold mbind at 1, M_bind at 1. rewrite or_else_year.
  change (bool_decide (PStr PERIOD_MONTH = PStr PERIOD_YEAR)) with false.
  change (bool_decide (PStr PERIOD_MONTH = PStr PERIOD_MONTH)) with true.
  change (bool_decide (PStr PERIOD_MONTH = PStr PERIOD_DAY)) with false.
  cbv iota.
  unfold mbind at 1, M_bind at 1. unfold mbind at 1, M_bind at 1.
  rewrite or_else_month. reflexivity.
Qed.

Lemma get_data_url_day (self : scraper) (year month day granularity : pyval)
    (w : world B) :
  let y := defaulted year "%Y" (ticks w) in
  let m := defaulted month "%m" y.2 in
  let d := defaulted day "%d" m.2 in
  _get_data_url self (PStr PERIOD_DAY) year month day granularity w
  = (Ok (DATA_URL +:+ "?"
         +:+ urlencode (base_params self PERIOD_DAY
                        ++ [("date", PStr (str d.1 +:+ "." +:+ str m.1 +:+ "." +:+ str y.1));
                            ("granularity", granularity)]%string)),
     World (driver w) d.2 (trace w)).
Proof.
  cbv zeta. unfold _get_data_url.
  unfold mbind at 1, M_bind at 1. rewrite or_else_year.
  change (bool_decide (PStr PERIOD_DAY = PStr PERIOD_YEAR)) with false.
  change (bool_decide (PStr PERIOD_DAY = PStr PERIOD_MONTH)) with false.
  change (bool_decide (PStr PERIOD_DAY = PStr PERIOD_DAY)) with true.
  cbv iota.
  unfold mbind at 1, M_bind at 1. unfold mret at 1, M_ret at 1.
  unfold mbind at 1, M_bind at 1. unfold mbind at 1, M_bind at 1.
  rewrite or_else_month.
  unfold mbind at 1, M_bind at 1. rewrite or_else_day. reflexivity.
Qed.

(** C3 (as amended): for every year other than 0, the data URL for
    period=year has the query [objectEic=..&counterNumber=..&period=Y&year=<year>]
    with the two identifiers quoted; its parameters are these four and no
    other, whatever month, day and granularity are passed, and the clock is
    not read. *)
Theorem year_url_nonzero (self : scraper) (y : Z) (month day granularity : pyval)
    (w : world B) :
  y <> 0 ->
  let query :=
    "objectEic=" +:+ quote_plus (object_id self)
    +:+ "&counterNumber=" +:+ quote_plus (meter_id self)
    +:+ "&period=Y&year=" +:+ str_int y in
  _get_data_url self (PStr PERIOD_YEAR) (PInt y) month day granularity w
  = (Ok (DATA_URL +:+ "?" +:+ query), w)
  /\ query_keys query = ["objectEic"; "counterNumber"; "period"; "year"]%string.
Proof.
  intros Hy. cbv zeta.
  assert (Hq : urlencode (base_params self PERIOD_YEAR ++ [("year", PInt y)]%string)
               = "objectEic=" +:+ quote_plus (object_id self)
                 +:+ "&counterNumber=" +:+ quote_plus (meter_id self)
                 +:+ "&period=Y&year=" +:+ str_int y).
  { unfold urlencode, base_params. cbn [app map join fst snd str].
    rewrite (quote_plus_safe (str_int y)) by apply str_int_safe.
    rewrite !append_assoc. reflexivity. }
  split.
  - rewrite get_data_url_year. cbv zeta. unfold defaulted. cbn [truthy].
    destruct (Z.eqb_spec y 0) as [|_]; [contradiction|]. cbn [negb fst snd].
    now rewrite Hq, world_eta.
  - rewrite <- Hq. rewrite query_keys_urlencode by discriminate. reflexivity.
Qed.

(** C4: the URL [get_month_data] asks for.  It carries [year], [month]
    and [granularity] after the three fixed parameters, and nothing else;
    the year and the month are the caller's, or the clock's when the caller
    gives none, the month then as [strftime('%m')] writes it; the
    granularity is the caller's, or [D] when the caller gives none. *)
Theorem month_url (self : scraper) (neto : bool) (year month granularity : pyval)
    (w : world B) :
  let y := defaulted year "%Y" (ticks w) in
  let m := defaulted month "%m" y.2 in
  let g := py_or granularity (PStr GRANULARITY_DAY) in
  let query :=
    urlencode (base_params self PERIOD_MONTH
               ++ [("year", y.1); ("month", m.1); ("granularity", g)]%string) in
  get_month_data self neto year month granularity
  = (response ← _fetch_remote_data self (PStr PERIOD_MONTH) year month PNone g;
     lift (_format_response response neto))
  /\ _get_data_url self (PStr PERIOD_MONTH) year month PNone g w
     = (Ok (DATA_URL +:+ "?" +:+ query), World (driver w) m.2 (trace w))
  /\ query_keys query
     = ["objectEic"; "counterNumber"; "period"; "year"; "month"; "granularity"]%string
  /\ defaulted PNone "%m" y.2
     = (PStr (fmt_02d (Datetime.month (now y.2))), S y.2)
  /\ py_or PNone (PStr GRANULARITY_DAY) = PStr "D".
Proof.
  cbv zeta. split; [reflexivity|]. split; [apply get_data_url_month|].
  split; [now rewrite query_keys_urlencode by discriminate|].
  split; [|reflexivity].
  unfold defaulted. cbn [truthy Datetime.strftime Datetime.directive Ascii.eqb Bool.eqb].
  now rewrite append_nil_r.
Qed.

(** C5, where the code leaves the claim: a day and a month given as
    numbers go into [date] as they are, [5.9.2025], not as two digits;
    components taken from the clock are written as [DD.MM.YYYY], day and
    month with two digits, the year as [strftime('%Y')] writes it. *)
Theorem day_url_unpadded (self : scraper) (w : world B) :
  _get_data_url self (PStr PERIOD_DAY) (PInt 2025) (PInt 9) (PInt 5)
                (PStr GRANULARITY_HOUR) w
  = (Ok (DATA_URL +:+ "?objectEic=" +:+ quote_plus (object_id self)
         +:+ "&counterNumber=" +:+ quote_plus (meter_id self)
         +:+ "&period=D&date=5.9.2025&granularity=H"), w)
  /\ _get_data_url self (PStr PERIOD_DAY) PNone PNone PNone (PStr GRANULARITY_HOUR) w
     = (Ok (DATA_URL +:+ "?"
            +:+ urlencode
                  (base_params self PERIOD_DAY
                   ++ [("date",
                        PStr (fmt_02d (Datetime.day (now (S (S (ticks w)))))
                              +:+ "." +:+ fmt_02d (Datetime.month (now (S (ticks w))))
                              +:+ "." +:+ str_int (Datetime.year (now (ticks w)))));
                       ("granularity", PStr "H")]%string)),
        World (driver w) (S (S (S (ticks w)))) (trace w)).
Proof.
  split.
  - rewrite get_data_url_day. cbv zeta. unfold defaulted. cbn [truthy Z.eqb negb fst snd].
    rewrite world_eta.
    unfold urlencode, base_params. cbn [app map join fst snd str].
    rewrite !append_assoc. reflexivity.
  - rewrite get_data_url_day. cbv zeta. unfold defaulted.
    cbn [truthy fst snd Datetime.strftime Datetime.directive Ascii.eqb Bool.eqb str].
    now rewrite !append_nil_r.
Qed.

End Url.

Lemma year_url_nonzero_witness :
  2025 <> 0
  /\ @ElectricityScraper._get_data_url Fixture.browser
       (Fixture.machine Fixture.credentials)
       Fixture.me (PStr "Y") (PInt 2025) PNone PNone PNone Fixture.start
     = (Ok (ElectricityScraper.DATA_URL
            +:+ "?objectEic=" +:+ Urllib.quote_plus "30X-OBJ 1"
            +:+ "&counterNumber=" +:+ Urllib.quote_plus "12345"
            +:+ "&period=Y&year=" +:+ str_int 2025), Fixture.start).
Proof.
  assert (Hy : 2025 <> 0) by lia.
  split; [exact Hy|].
  exact (proj1 (@year_url_nonzero Fixture.browser
                  (Fixture.machine Fixture.credentials) Fixture.me 2025
                  PNone PNone PNone Fixture.start Hy)).
Defined.

(** C3, as the specification words it, fails for the year 0: the URL
    carries the year of the clock, not [year=0]. *)
Lemma year_zero_counterexample :
  (@ElectricityScraper._get_data_url Fixture.browser
     (Fixture.machine Fixture.credentials)
     Fixture.me (PStr "Y") (PInt 0) PNone PNone PNone Fixture.start).1
  = Ok ("https://mans.e-st.lv/lv/private/paterini-un-norekini/paterinu-grafiki/"
        +:+ "?objectEic=30X-OBJ+1&counterNumber=12345&period=Y&year=2026")
  /\ (@ElectricityScraper._get_data_url Fixture.browser
        (Fixture.machine Fixture.credentials)
        Fixture.me (PStr "Y") (PInt 0) PNone PNone PNone Fixture.start).1
     <> Ok ("https://mans.e-st.lv/lv/private/paterini-un-norekini/paterinu-grafiki/"
            +:+ "?objectEic=30X-OBJ+1&counterNumber=12345&period=Y&year=0").
Proof.
  split; [reflexivity|].
  intros H. vm_compute in H. discriminate H.
Qed.

Example month_url_defaults :
  (@ElectricityScraper._get_data_url Fixture.browser
     (Fixture.machine Fixture.credentials)
     Fixture.me (PStr "M") PNone PNone PNone (py_or PNone (PStr "D")) Fixture.start).1
  = Ok ("https://mans.e-st.lv/lv/private/paterini-un-norekini/paterinu-grafiki/"
        +:+ "?objectEic=30X-OBJ+1&counterNumber=12345&period=M&year=2026&month=11&granularity=D").
Proof. reflexivity. Qed.

(** ** The command line *)

Section CommandLine.
Import Argparse.

Lemma exact_elem (spec : list argument) (s : string) (a : argument) :
  exact spec s = Some a -> a ∈ spec.
Proof. unfold exact. intros Hf. apply find_some in Hf. apply list_elem_of_In, Hf. Qed.

(** An option a string is read as is one of the declared ones. *)
Lemma classify_elem (spec : list argument) (tok : string) (a : argument)
    (e : option string) :
  classify spec tok = Optional a e -> a ∈ spec.
Proof.
  unfold classify.
  destruct tok as [|c rest]; [discriminate|].
  destruct (Ascii.eqb_spec c "-") as [->|Hc].
  2:{ destruct c as [[] [] [] [] [] [] [] []]; try discriminate. now contradict Hc. }
  destruct (exact spec (String "-" rest)) as [a0|] eqn:Hex.
  { intros [= <- <-]. eapply exact_elem, Hex. }
  destruct (String.eqb rest ""); [discriminate|].
  destruct (split_eq (String "-" rest)) as [name explicit].
  destruct (if explicit is Some _ then exact spec name else None) as [a0|] eqn:Hex2.
  { intros [= <- <-]. destruct explicit; [|discriminate]. eapply exact_elem, Hex2. }
  match goal with |- match ?c with _ => _ end = _ -> _ => set (cands := c) end.
  assert (Hc : forall x, x ∈ cands -> x.1 ∈ spec).
  { subst cands. intros [a0 e0].
    destruct rest as [|c2 rest2].
    - rewrite list_elem_of_In, in_flat_map. intros (a1 & Ha1 & Hin).
      repeat case_match; cbn in Hin; intuition; simplify_eq; now apply list_elem_of_In.
    - destruct (Ascii.eqb_spec c2 "-") as [->|Hc2].
      + rewrite list_elem_of_fmap. intros (a1 & [= -> ->] & Hin).
        apply list_elem_of_filter in Hin. apply Hin.
      + assert (Hfm : (a0, e0) ∈ flat_map (fun a1 =>
            if String.eqb (option_string a1) (substring 0 2 (String "-" (String c2 rest2)))
            then [(a1, Some (substring 2 (String.length (String "-" (String c2 rest2)) - 2)
                                       (String "-" (String c2 rest2))))]
            else if String.prefix (String "-" (String c2 rest2)) (option_string a1)
            then [(a1, None)] else []) spec -> a0 ∈ spec).
        { rewrite list_elem_of_In, in_flat_map. intros (a1 & Ha1 & Hin).
          repeat case_match; cbn in Hin; intuition; simplify_eq; now apply list_elem_of_In. }
        destruct c2 as [[] [] [] [] [] [] [] []]; try exact Hfm. now contradict Hc2. }
  destruct cands as [|[a0 e0] [|]]; try discriminate.
  - repeat case_match; discriminate.
  - intros [= <- <-]. apply (Hc (a0, e0)). left.
Qed.

Lemma store_other (a : argument) (ty : string -> result pyval)
    (ch : option (list pyval)) (raw : string) (ns ns' : gmap string pyval) (k : string) :
  dest a <> k -> store a ty ch raw ns = Ok ns' -> ns' !! k = ns !! k.
Proof.
  intros Hk. unfold store, error.
  destruct (String.eqb raw "--"); [intros [= <-]; now apply lookup_insert_ne|].
  destruct (ty raw); [|discriminate].
  destruct ch as [cs|]; [case_bool_decide; [|discriminate]|];
    intros [= <-]; now apply lookup_insert_ne.
Qed.

(** A flag that only [store_true] writes keeps the value [True] once it
    has it. *)
Lemma consume_store_true (spec : list argument) (k : string) :
  (forall a, a ∈ spec -> dest a = k -> act a = StoreTrue) ->
  forall (n : nat) (argv : list string) (ns ns' : gmap string pyval),
    (length argv <= n)%nat ->
    ns !! k = Some (PBool true) ->
    consume spec argv ns = Ok ns' ->
    ns' !! k = Some (PBool true).
Proof.
  intros Hspec. induction n as [|n IH]; intros argv ns ns' Hlen Hns.
  { destruct argv; [|cbn in Hlen; lia]. now intros [= <-]. }
  destruct argv as [|tok rest]; [now intros [= <-]|].
  cbn [consume length] in *.
  destruct (String.eqb tok "--"); [discriminate|].
  destruct (classify spec tok) as [|a explicit| |] eqn:Hcl; try discriminate.
  pose proof (classify_elem _ _ _ _ Hcl) as Ha.
  destruct (act a) as [ty ch| |] eqn:Hact.
  - assert (Hk : dest a <> k).
    { intros Hd. rewrite (Hspec a Ha Hd) in Hact. discriminate. }
    destruct explicit as [raw|].
    + destruct (store a ty ch raw ns) as [ns1|] eqn:Hst; [|discriminate]. cbn.
      apply IH; [lia|]. now rewrite (store_other _ _ _ _ _ _ _ Hk Hst).
    + destruct rest as [|v rest']; [discriminate|].
      destruct (String.eqb v "--"); [discriminate|].
      destruct (classify spec v); try discriminate.
      destruct (store a ty ch v ns) as [ns1|] eqn:Hst; [|discriminate]. cbn.
      apply IH; [cbn in Hlen; lia|]. now rewrite (store_other _ _ _ _ _ _ _ Hk Hst).
  - destruct explicit; [discriminate|].
    apply IH; [lia|].
    destruct (decide (dest a = k)) as [->|Hk].
    + apply lookup_insert_eq.
    + now rewrite lookup_insert_ne.
  - destruct explicit; discriminate.
Qed.

Lemma parser_neto (a : argument) :
  a ∈ Main.parser -> dest a = "neto"%string -> act a = StoreTrue.
Proof.
  unfold Main.parser. rewrite !elem_of_cons, elem_of_nil.
  intros Ha Hd.
  repeat (destruct Ha as [->|Ha]; [cbn in Hd; try discriminate; try reflexivity|]).
  destruct Ha.
Qed.

(** C10: whatever command line the parser accepts, [args.neto] is [True]:
    the default is [True] and the one action that writes it stores [True]. *)
Theorem neto_always_true (argv : list string) (args : gmap string pyval) :
  parse_args Main.parser argv = Ok args ->
  attr args "neto" = PBool true /\ truthy (attr args "neto") = true.
Proof.
  intros Hp. unfold parse_args in Hp.
  assert (Hn : args !! "neto"%string = Some (PBool true)).
  { apply (consume_store_true Main.parser "neto" parser_neto (length argv) argv
             (defaults Main.parser) args);
      [apply Nat.le_refl | reflexivity | exact Hp]. }
  unfold attr. rewrite Hn. split; reflexivity.
Qed.

End CommandLine.

Lemma neto_always_true_witness :
  Argparse.parse_args Main.parser ["--year"; "2025"; "--neto"]%string
  = Ok (<["neto"%string := PBool true]>
          (<["year"%string := PInt 2025]> (Argparse.defaults Main.parser)))
  /\ Argparse.attr
       (<["neto"%string := PBool true]>
          (<["year"%string := PInt 2025]> (Argparse.defaults Main.parser))) "neto"
     = PBool true.
Proof.
  assert (Hp : Argparse.parse_args Main.parser ["--year"; "2025"; "--neto"]%string
               = Ok (<["neto"%string := PBool true]>
                       (<["year"%string := PInt 2025]> (Argparse.defaults Main.parser))))
    by reflexivity.
  split; [exact Hp|].
  exact (proj1 (neto_always_true _ _ Hp)).
Defined.

Example parse_args_samples :
  Argparse.parse_args Main.parser []%string = Ok (Argparse.defaults Main.parser)
  /\ Argparse.parse_args Main.parser ["--neto=0"]%string = Raise (SystemExit 2)
  /\ Argparse.parse_args Main.parser ["--no-neto"]%string = Raise (SystemExit 2)
  /\ Argparse.parse_args Main.parser ["-h"]%string = Raise (SystemExit 0).
Proof. repeat split; reflexivity. Qed.

(** ** Missing credentials *)

Section Early.
Context {B E : Type} `{!WebDriver B E} `{!Host}.
Import ElectricityScraper Main.

Lemma missing_vars_filter :
  missing_vars = filter (fun name => unset (getenv name) = true) required.
Proof.
  unfold missing_vars, required. rewrite !filter_cons, filter_nil.
  destruct (unset (getenv "EST_USERNAME")), (unset (getenv "EST_PASSWORD")),
    (unset (getenv "EST_OBJECT_ID")), (unset (getenv "EST_METER_ID")); reflexivity.
Qed.

(** C7: when one of the four credentials is unset or empty, [main] does
    nothing but print: on an accepted command line it prints the report,
    whose first line names every missing variable, and returns; on a
    refused one it stops in the parser.  Either way no session is created
    and nothing is asked of a browser. *)
Theorem missing_credentials_stop_early (argv : list string) (w : world B) :
  (exists name, name ∈ required /\ unset (getenv name) = true) ->
  main argv w
  = match Argparse.parse_args parser argv with
    | Ok _ =>
        (Ok tt,
         World (driver w) (ticks w)
               (trace w ++ map EPrint
                  (report (filter (fun name => unset (getenv name) = true) required))))
    | Raise e => (Raise e, w)
    end.
Proof.
  intros (name & Hin & Hun). rewrite <- missing_vars_filter.
  assert (Hne : missing_vars <> []).
  { rewrite missing_vars_filter. intros Hnil.
    assert (Hm : name ∈ filter (fun name => unset (getenv name) = true) required)
      by (apply list_elem_of_filter; auto).
    rewrite Hnil in Hm. inversion Hm. }
  unfold main, lift. unfold mbind at 1, M_bind at 1.
  destruct (Argparse.parse_args parser argv) as [args|e]; [|reflexivity].
  destruct missing_vars as [|m ms] eqn:Hmv; [congruence|].
  unfold mbind, M_bind, print, log. cbn [driver ticks trace].
  rewrite <- !app_assoc. reflexivity.
Qed.

End Early.

Lemma missing_credentials_stop_early_witness :
  (exists name, name ∈ required
                /\ Main.unset (@getenv (Fixture.machine Scenario.only_username) name) = true)
  /\ @Main.main Fixture.browser unit (Fixture.scripted Fixture.good)
       (Fixture.machine Scenario.only_username) ["--period"; "day"]%string Fixture.start
     = (Ok tt,
        World None 0
          (map EPrint (report ["EST_PASSWORD"; "EST_OBJECT_ID"; "EST_METER_ID"]%string))).
Proof.
  assert (Hm : exists name, name ∈ required
     /\ Main.unset (@getenv (Fixture.machine Scenario.only_username) name) = true).
  { exists "EST_PASSWORD"%string. split; [|reflexivity].
    unfold required. rewrite !elem_of_cons. auto. }
  split; [exact Hm|].
  rewrite (@missing_credentials_stop_early Fixture.browser unit
             (Fixture.scripted Fixture.good) (Fixture.machine Scenario.only_username)
             ["--period"; "day"]%string Fixture.start Hm).
  reflexivity.
Defined.

(** ** Sessions *)

Lemma open_sessions_app (t t' : list event) :
  open_sessions (t ++ t') = open_sessions t + open_sessions t'.
Proof.
  unfold open_sessions.
  induction t as [|e t IH]; cbn [app foldr]; [lia|]. rewrite IH. destruct e; lia.
Qed.

Section Sessions.
Context {B E : Type} `{!WebDriver B E} `{!Host}.
Import ElectricityScraper Main.

Lemma keeps_ret {A} (a : A) : keeps (mret a : M B A).
Proof. intros w Hw. exact Hw. Qed.

Lemma keeps_bind {A C} (m : M B A) (f : A -> M B C) :
  keeps m -> (forall a, keeps (f a)) -> keeps (m ≫= f).
Proof.
  intros Hm Hf w Hw. unfold mbind, M_bind. specialize (Hm w Hw).
  destruct (m w) as [[a|e] w']; [apply Hf, Hm | exact Hm].
Qed.

Lemma keeps_raise {A} (e : exn) : keeps (raise e : M B A).
Proof. intros w Hw. exact Hw. Qed.

Lemma keeps_lift {A} (r : result A) : keeps (lift r : M B A).
Proof. intros w Hw. exact Hw. Qed.

Lemma keeps_log (e : event) :
  open_sessions [e] = 0 -> keeps (log e : M B unit).
Proof.
  intros He w Hw. unfold consistent, log in *. cbn [snd driver trace].
  rewrite open_sessions_app, He. lia.
Qed.

Lemma keeps_print (s : string) : keeps (print s : M B unit).
Proof. now apply keeps_log. Qed.

Lemma keeps_write_file (n s : string) : keeps (write_file n s : M B unit).
Proof. now apply keeps_log. Qed.

Lemma keeps_time_sleep (n : Z) : keeps (time_sleep n : M B unit).
Proof.
  intros w Hw. unfold consistent, time_sleep in *. cbn [snd driver trace].
  rewrite open_sessions_app. cbn. destruct (driver w); cbn; lia.
Qed.

Lemma keeps_datetime_now : keeps (datetime_now : M B Datetime.datetime).
Proof. intros w Hw. exact Hw. Qed.

Lemma keeps_get_driver : keeps (get_driver : M B (option B)).
Proof. intros w Hw. exact Hw. Qed.

Lemma keeps_call {A} (r : request) (f : B -> result A * B) : keeps (call r f).
Proof.
  intros w Hw. unfold consistent, call in *.
  destruct (driver w) as [b|] eqn:Hd; [|cbn [snd]; now rewrite Hd].
  destruct (f b) as [res b']. cbn [snd driver trace].
  rewrite open_sessions_app. cbn. lia.
Qed.

Lemma keeps_property {A} (f : B -> A) : keeps (property f).
Proof. intros w Hw. unfold property. now destruct (driver w) eqn:Hd. Qed.

Lemma keeps_try_except {A} (m : M B A) (h : exn -> option (M B A)) :
  keeps m -> (forall e k, h e = Some k -> keeps k) -> keeps (try_except m h).
Proof.
  intros Hm Hh w Hw. unfold try_except. specialize (Hm w Hw).
  destruct (m w) as [[a|e] w']; [exact Hm|].
  destruct (h e) as [k|] eqn:He; [now apply (Hh e k)|exact Hm].
Qed.

Lemma keeps_or_else (a : pyval) (m : M B pyval) : keeps m -> keeps (or_else a m).
Proof. intros Hm. unfold or_else. destruct (truthy a); [apply keeps_ret|exact Hm]. Qed.

Create HintDb keeps discriminated.
#[local] Hint Constants Opaque : keeps.
#[local] Hint Variables Opaque : keeps.
#[local] Hint Resolve keeps_ret keeps_raise keeps_lift keeps_print keeps_write_file
  keeps_time_sleep keeps_datetime_now keeps_get_driver keeps_call keeps_property
  : keeps.

(** One step through a computation, by its outermost form. *)
Ltac keeps_step :=
  lazymatch goal with
  | |- @keeps _ _ (_ ≫= _) => apply keeps_bind; [|intros ?]
  | |- @keeps _ _ (try_except _ _) =>
      apply keeps_try_except;
      [|let e := fresh "e" in let k := fresh "k" in
        intros e k; try destruct e; intros [= <-]]
  | |- @keeps _ _ (or_else _ _) => apply keeps_or_else
  | |- @keeps _ _ (log _) => apply keeps_log; reflexivity
  | |- @keeps _ _ (match ?x with _ => _ end) => destruct x
  | |- _ => solve [auto 1 with keeps nocore]
  end.

Ltac keeps_all := repeat keeps_step.

(** Starting Chrome sets the handle and records the session together. *)
Lemma keeps_init_driver (self : scraper) : keeps (_init_driver self).
Proof.
  intros w Hw. unfold _init_driver.
  unfold mbind at 1, M_bind at 1, get_driver at 1.
  destruct (driver w) as [b|] eqn:Hd; [exact Hw|].
  unfold mbind at 1, M_bind at 1, lift at 1.
  destruct (Chrome (chrome_options (headless self))) as [b|e]; [|exact Hw].
  unfold mbind at 1, M_bind at 1, set_driver at 1.
  unfold mbind at 1, M_bind at 1, log at 1. cbn [driver ticks trace].
  match goal with
  | |- consistent (?m ?w').2 => assert (Hk : keeps m) by keeps_all; apply Hk
  end.
  unfold consistent in *. cbn [driver trace]. rewrite open_sessions_app, Hw, Hd.
  reflexivity.
Qed.
#[local] Hint Resolve keeps_init_driver : keeps.

Lemma keeps_get_current_date : @keeps B _ _get_current_date.
Proof. unfold _get_current_date. keeps_all. Qed.
#[local] Hint Resolve keeps_get_current_date : keeps.

Lemma keeps_get_data_url (self : scraper) (p y m d g : pyval) :
  @keeps B _ (_get_data_url self p y m d g).
Proof. unfold _get_data_url. keeps_all. Qed.
#[local] Hint Resolve keeps_get_data_url : keeps.

Lemma keeps_accept_cookie (s : string) : @keeps B _ (accept_cookie s).
Proof. unfold accept_cookie. keeps_all. Qed.

Lemma keeps_accept_cookies (l : list string) : @keeps B _ (accept_cookies l).
Proof.
  induction l as [|s l IH]; intros w Hw; cbn [accept_cookies]; [exact Hw|].
  pose proof (keeps_accept_cookie s w Hw) as Hs.
  destruct (accept_cookie s w) as [[[]|e] w']; [exact Hs|now apply IH].
Qed.
#[local] Hint Resolve keeps_accept_cookies : keeps.

Lemma keeps_login (self : scraper) : @keeps B _ (_login self).
Proof. unfold _login. keeps_all. Qed.
#[local] Hint Resolve keeps_login : keeps.

Lemma keeps_read_chart : @keeps B _ read_chart.
Proof. unfold read_chart. keeps_all. Qed.
#[local] Hint Resolve keeps_read_chart : keeps.

Lemma keeps_open_data_page (self : scraper) (p y m d g : pyval) :
  @keeps B _ (open_data_page self p y m d g).
Proof. unfold open_data_page. keeps_all. Qed.
#[local] Hint Resolve keeps_open_data_page : keeps.

Lemma keeps_fetch_remote_data (self : scraper) (p y m d g : pyval) :
  @keeps B _ (_fetch_remote_data self p y m d g).
Proof. unfold _fetch_remote_data. keeps_all. Qed.
#[local] Hint Resolve keeps_fetch_remote_data : keeps.

Lemma keeps_get_year_data (self : scraper) (neto : bool) (y : pyval) :
  @keeps B _ (get_year_data self neto y).
Proof. unfold get_year_data. keeps_all. Qed.

Lemma keeps_get_month_data (self : scraper) (neto : bool) (y m g : pyval) :
  @keeps B _ (get_month_data self neto y m g).
Proof. unfold get_month_data. keeps_all. Qed.

Lemma keeps_get_day_data (self : scraper) (neto : bool) (y m d : pyval) :
  @keeps B _ (get_day_data self neto y m d).
Proof. unfold get_day_data. keeps_all. Qed.
#[local] Hint Resolve keeps_get_year_data keeps_get_month_data keeps_get_day_data : keeps.

Lemma keeps_now_field (f : Datetime.datetime -> Z) : @keeps B _ (now_field f).
Proof. unfold now_field. keeps_all. Qed.
#[local] Hint Resolve keeps_now_field : keeps.


Lemma close_closed (w : world B) : driver w = None -> close w = (Ok tt, w).
Proof. intros Hd. unfold close, get_driver, mbind, M_bind. now rewrite Hd. Qed.

Lemma close_open (w : world B) (b : B) :
  driver w = Some b ->
  close w = (Ok tt, World None (ticks w) (trace w ++ [EQuit])).
Proof. intros Hd. unfold close, get_driver, mbind, M_bind. now rewrite Hd. Qed.



(** Leaving the block is the body, then [close], and the body's outcome. *)
Lemma leaving_close {A} (body : M B A) (w : world B) :
  leaving body w = ((body w).1, (close (body w).2).2).
Proof.
  unfold leaving, __exit__. destruct (body w) as [r w']. cbn [fst snd].
  destruct (driver w') as [b|] eqn:Hd.
  - now rewrite (close_open w' b Hd).
  - now rewrite (close_closed w' Hd).
Qed.











End Sessions.


(** An error path, run: the portal's chart cannot be decoded, [main] ends
    with the error, and the session it opened is quit. *)
Example main_error_path :
  let end_ := @Main.main Fixture.browser unit (Fixture.scripted Scenario.undecodable)
                (Fixture.machine Fixture.credentials) []%string Fixture.start in
  end_.1 = Raise JSONDecodeError
  /\ driver end_.2 = None
  /\ last (trace end_.2) = Some EQuit.
Proof. cbv zeta. split; [|split]; vm_compute; reflexivity. Qed.

(** ** Fetching the chart *)

Section Fetch.
Context {B E : Type} `{!WebDriver B E} `{!Host}.
Import ElectricityScraper.

Ltac run :=
  unfold read_chart, try_except, mbind, M_bind, call, property, print,
    write_file, log, raise, lift; cbn [driver ticks trace].

(** (b) The chart never shows: dump, then the error. *)
Lemma read_chart_timeout (w : world B) (b : B) :
  driver w = Some b ->
  (until 20 chart_wait b).1 = Raise TimeoutException ->
  let b1 := (until 20 chart_wait b).2 in
  read_chart w
  = (Raise (Exception "Chart element not found"),
     World (Some b1) (ticks w)
           (trace w ++ [EBrowser (RUntil 20 chart_wait);
                        EPrint "ERROR: Chart not found on page";
                        EWrite "chart_not_found.html" (page_source b1)])).
Proof.
  intros Hd Hu. cbv zeta. run. rewrite Hd. fold chart_wait.
  destruct (until 20 chart_wait b) as [r b1]. cbn [fst snd] in *. subst r.
  cbn [driver ticks trace]. rewrite <- !app_assoc. reflexivity.
Qed.

(** (a) The attribute is empty, or not there: dump, then the error. *)
Lemma read_chart_empty (w : world B) (b : B) (el : E) (v : option string) :
  driver w = Some b ->
  (until 20 chart_wait b).1 = Ok el ->
  let b1 := (until 20 chart_wait b).2 in
  (get_attribute el "data-values" b1).1 = Ok v ->
  empty_attribute v = true ->
  let b2 := (get_attribute el "data-values" b1).2 in
  read_chart w
  = (Raise (Exception "Chart data not found"),
     World (Some b2) (ticks w)
           (trace w ++ [EBrowser (RUntil 20 chart_wait);
                        EBrowser (RGetAttribute "data-values");
                        EPrint "ERROR: Chart data-values attribute is empty";
                        EWrite "chart_empty.html" (page_source b2)])).
Proof.
  intros Hd Hu. cbv zeta. intros Ha Hv. run. rewrite Hd. fold chart_wait.
  destruct (until 20 chart_wait b) as [r b1]. cbn [fst snd] in *. subst r.
  cbn [driver ticks trace].
  destruct (get_attribute el "data-values" b1) as [r b2]. cbn [fst snd] in *. subst r.
  destruct v as [[|c s]|]; try discriminate;
    cbn [driver ticks trace]; rewrite <- !app_assoc; reflexivity.
Qed.

(** The attribute has text: the outcome is that of decoding it, and
    nothing is dumped unless the decoder itself raises a timeout. *)
Lemma read_chart_data (w : world B) (b : B) (el : E) (c : ascii) (s : string) :
  driver w = Some b ->
  (until 20 chart_wait b).1 = Ok el ->
  let b1 := (until 20 chart_wait b).2 in
  (get_attribute el "data-values" b1).1 = Ok (Some (String c s)) ->
  let b2 := (get_attribute el "data-values" b1).2 in
  let w2 := World (Some b2) (ticks w)
              (trace w ++ [EBrowser (RUntil 20 chart_wait);
                           EBrowser (RGetAttribute "data-values");
                           EPrint "[OK] Chart data found"]) in
  match json_loads (String c s) with
  | Ok payload => read_chart w = (Ok payload, w2)
  | Raise TimeoutException =>
      read_chart w
      = (Raise (Exception "Chart element not found"),
         World (Some b2) (ticks w)
               (trace w2 ++ [EPrint "ERROR: Chart not found on page";
                             EWrite "chart_not_found.html" (page_source b2)]))
  | Raise e => read_chart w = (Raise e, w2)
  end.
Proof.
  intros Hd Hu. cbv zeta. intros Ha. run. rewrite Hd. fold chart_wait.
  destruct (until 20 chart_wait b) as [r b1]. cbn [fst snd] in *. subst r.
  cbn [driver ticks trace].
  destruct (get_attribute el "data-values" b1) as [r b2]. cbn [fst snd] in *. subst r.
  cbn [driver ticks trace].
  destruct (json_loads (String c s)) as [payload|[]];
    cbn [driver ticks trace]; rewrite <- ?app_assoc; reflexivity.
Qed.

(** A value comes back only from a chart that appeared, with an attribute
    that has text, and it is the decoded attribute. *)
Lemma read_chart_ok (w w' : world B) (payload : response) :
  read_chart w = (Ok payload, w') ->
  exists b el c s,
    driver w = Some b
    /\ (until 20 chart_wait b).1 = Ok el
    /\ (get_attribute el "data-values" (until 20 chart_wait b).2).1
       = Ok (Some (String c s))
    /\ json_loads (String c s) = Ok payload.
Proof.
  run. fold chart_wait. destruct (driver w) as [b|] eqn:Hd; [|discriminate].
  destruct (until 20 chart_wait b) as [[el|e] b1] eqn:Hu.
  2:{ destruct e; discriminate. }
  cbn [driver ticks trace].
  destruct (get_attribute el "data-values" b1) as [[v|e] b2] eqn:Ha.
  2:{ destruct e; discriminate. }
  destruct v as [[|c s]|]; try discriminate. cbn [driver ticks trace].
  destruct (json_loads (String c s)) as [p|e] eqn:Hj.
  2:{ destruct e; discriminate. }
  intros [= <- <-]. exists b, el, c, s. rewrite Hu. cbn [fst snd]. rewrite Ha. auto.
Qed.

(** C8 (as amended): the fetch is the opening of the data page followed by
    the reading of the chart, and fails when the opening fails.  Once the
    page is open, it fails with [Chart element not found] when the chart
    element does not appear within the timeout, and with
    [Chart data not found] when the attribute is empty or not there; in both
    cases the page is dumped to a file before the error is raised, as the
    last effect.  When the attribute has text and decodes, the fetch returns
    the decoded value, and a fetch that returns a value returns the decoded
    text of the attribute of a chart that appeared. *)
Theorem fetch_outcomes (self : scraper) (p y m d g : pyval) (w : world B) :
  _fetch_remote_data self p y m d g w
  = match open_data_page self p y m d g w with
    | (Ok _, w1) => read_chart w1
    | (Raise e, w1) => (Raise e, w1)
    end
  /\ (forall b,
        driver w = Some b ->
        (until 20 chart_wait b).1 = Raise TimeoutException ->
        let b1 := (until 20 chart_wait b).2 in
        read_chart w
        = (Raise (Exception "Chart element not found"),
           World (Some b1) (ticks w)
                 (trace w ++ [EBrowser (RUntil 20 chart_wait);
                              EPrint "ERROR: Chart not found on page";
                              EWrite "chart_not_found.html" (page_source b1)])))
  /\ (forall b el v,
        driver w = Some b ->
        (until 20 chart_wait b).1 = Ok el ->
        let b1 := (until 20 chart_wait b).2 in
        (get_attribute el "data-values" b1).1 = Ok v ->
        empty_attribute v = true ->
        let b2 := (get_attribute el "data-values" b1).2 in
        read_chart w
        = (Raise (Exception "Chart data not found"),
           World (Some b2) (ticks w)
                 (trace w ++ [EBrowser (RUntil 20 chart_wait);
                              EBrowser (RGetAttribute "data-values");
                              EPrint "ERROR: Chart data-values attribute is empty";
                              EWrite "chart_empty.html" (page_source b2)])))
  /\ (forall b el c s payload,
        driver w = Some b ->
        (until 20 chart_wait b).1 = Ok el ->
        let b1 := (until 20 chart_wait b).2 in
        (get_attribute el "data-values" b1).1 = Ok (Some (String c s)) ->
        json_loads (String c s) = Ok payload ->
        let b2 := (get_attribute el "data-values" b1).2 in
        read_chart w
        = (Ok payload,
           World (Some b2) (ticks w)
                 (trace w ++ [EBrowser (RUntil 20 chart_wait);
                              EBrowser (RGetAttribute "data-values");
                              EPrint "[OK] Chart data found"])))
  /\ (forall payload w',
        read_chart w = (Ok payload, w') ->
        exists b el c s,
          driver w = Some b
          /\ (until 20 chart_wait b).1 = Ok el
          /\ (get_attribute el "data-values" (until 20 chart_wait b).2).1
             = Ok (Some (String c s))
          /\ json_loads (String c s) = Ok payload).
Proof.
  split; [reflexivity|].
  split; [intros b; apply read_chart_timeout|].
  split; [intros b el v; apply read_chart_empty|].
  split.
  - intros b el c s payload Hd Hu b1 Ha Hj b2.
    pose proof (read_chart_data w b el c s Hd Hu Ha) as Hr. cbv zeta in Hr.
    rewrite Hj in Hr. exact Hr.
  - intros payload w'. apply read_chart_ok.
Qed.

End Fetch.

Lemma fetch_outcomes_witness :
  driver (Scenario.on_data_page Scenario.chartless)
  = Some {| Fixture.address := ElectricityScraper.DATA_URL; Fixture.loads := 1;
            Fixture.script := Scenario.chartless |}
  /\ @ElectricityScraper.read_chart Fixture.browser unit
       (Fixture.scripted Scenario.chartless) (Fixture.machine Fixture.credentials)
       (Scenario.on_data_page Scenario.chartless)
     = (Raise (Exception "Chart element not found"),
        World (Some {| Fixture.address := ElectricityScraper.DATA_URL; Fixture.loads := 1;
                       Fixture.script := Scenario.chartless |}) 0
          [EBrowser (RUntil 20 chart_wait);
           EPrint "ERROR: Chart not found on page";
           EWrite "chart_not_found.html"
             ("<html>" +:+ ElectricityScraper.DATA_URL +:+ "</html>")]).
Proof.
  split; [reflexivity|].
  exact (proj1 (proj2 (@fetch_outcomes Fixture.browser unit
                         (Fixture.scripted Scenario.chartless)
                         (Fixture.machine Fixture.credentials)
                         Fixture.me PNone PNone PNone PNone PNone
                         (Scenario.on_data_page Scenario.chartless)))
           {| Fixture.address := ElectricityScraper.DATA_URL; Fixture.loads := 1;
              Fixture.script := Scenario.chartless |} eq_refl eq_refl).
Defined.

(** C8, as the specification words it, fails: here the login succeeds, the
    chart element appears and its attribute has text, and the fetch still
    fails, because the text is no JSON; and nothing is dumped. *)
Lemma fetch_undecodable_counterexample :
  let run :=
    @ElectricityScraper._fetch_remote_data Fixture.browser unit
      (Fixture.scripted Scenario.undecodable) (Fixture.machine Fixture.credentials)
      Fixture.me (PStr "M") PNone PNone PNone (PStr "D") Fixture.start in
  run.1 = Raise JSONDecodeError
  /\ (exists b,
        driver run.2 = Some b
        /\ (@until Fixture.browser unit (Fixture.scripted Scenario.undecodable)
              20 chart_wait b).1 = Ok tt
        /\ (@get_attribute Fixture.browser unit (Fixture.scripted Scenario.undecodable)
              tt "data-values" b).1 = Ok (Some "not json"%string))
  /\ existsb is_dump (trace run.2) = false.
Proof.
  cbv zeta. split; [vm_compute; reflexivity|]. split; [|vm_compute; reflexivity].
  eexists. split; [vm_compute; reflexivity|]. split; reflexivity.
Qed.

(** The same portal with a chart that decodes: the payload comes back. *)
Example fetch_sample :
  (@ElectricityScraper._fetch_remote_data Fixture.browser unit
     (Fixture.scripted Fixture.good) (Fixture.machine Fixture.credentials)
     Fixture.me (PStr "M") PNone PNone PNone (PStr "D") Fixture.start).1
  = Ok Fixture.sample.
Proof. vm_compute. reflexivity. Qed.


(** * Further properties of the code *)

(** ** The formatter's errors and edges *)

Section FormatterEdges.
Context `{!Host}.
Import ElectricityScraper.

(** X1: without a consumption series the formatter raises [KeyError: 'A+'],
    whatever the flag and whether or not a production series is there. *)
Theorem format_response_needs_consumption (resp : response) (neto : bool) :
  values resp !! "A+" = None ->
  _format_response resp neto = Raise (KeyError "A+").
Proof. intros Hc. unfold _format_response, getitem. now rewrite Hc. Qed.

Lemma for_each_ok_iff {A C} (f : A -> result C) (l : list A) :
  (exists r, for_each f l = Ok r) <-> Forall (fun a => exists c, f a = Ok c) l.
Proof.
  induction l as [|a l IH]; cbn [for_each].
  - split; [constructor | eauto].
  - split.
    + intros [r Hr]. destruct (f a) as [c|e] eqn:Ha; [|discriminate].
      cbn in Hr. destruct (for_each f l) as [cs|e] eqn:Hl; [|discriminate].
      constructor; [eauto | apply IH; eauto].
    + intros Hall. inversion Hall as [|? ? [c Hc] Hl]; subst.
      apply IH in Hl. destruct Hl as [r Hr]. rewrite Hc, Hr. cbn. eauto.
Qed.

Lemma fmt_ok_iff (ts : Z) : (exists d, fmt ts = Ok d) <-> representable ts.
Proof.
  split.
  - intros [d Hd]. destruct (decide (-62135596800000 <= ts < 253402300800000)) as [Hr|Hr];
      [exact Hr|].
    rewrite (fmt_beyond_range _ ts Hr) in Hd. discriminate.
  - apply fmt_representable.
Qed.

(** X2: all or nothing.  With a consumption series, the formatter returns
    a list exactly when every consumption timestamp lies in the range of
    [datetime]; one timestamp outside it makes the whole call raise, and no
    shorter list comes back: a list that comes back has the length of the
    series. *)
Theorem format_response_all_or_nothing (resp : response) (neto : bool) (sc : series) :
  values resp !! "A+" = Some sc ->
  ((exists recs, _format_response resp neto = Ok recs)
   <-> Forall (fun e => representable (timestamp e)) (data (total sc)))
  /\ (forall recs, _format_response resp neto = Ok recs ->
        length recs = length (data (total sc))).
Proof.
  intros Hc. rewrite (format_response_body resp neto sc Hc). cbv zeta.
  set (prod := match values resp !! "A-" with
               | Some sp => if neto then Some (data (total sp)) else None
               | None => None
               end).
  split.
  - rewrite for_each_ok_iff. apply Forall_iff. intros e.
    rewrite <- fmt_ok_iff. split.
    + intros [c Hc']. destruct (fmt (timestamp e)) as [d|]; [eauto | discriminate].
    + intros [d Hd]. rewrite Hd. cbn. eauto.
  - intros recs Hr.
    assert (Hall : Forall (fun e => representable (timestamp e)) (data (total sc))).
    { apply (Forall_impl (fun e => exists c,
               (d ← fmt (timestamp e); Ok (record_of prod e d)) = Ok c)).
      - apply for_each_ok_iff. eauto.
      - intros e [c Hc']. apply fmt_ok_iff.
        destruct (fmt (timestamp e)) as [d|]; [eauto | discriminate]. }
    destruct (fmt_all _ Hall) as [ds Hds].
    rewrite (for_each_zip (fun e => fmt (timestamp e)) (record_of prod) _ ds Hds) in Hr.
    injection Hr as <-. rewrite length_zip_with. apply Forall2_length in Hds. lia.
Qed.


End FormatterEdges.

Lemma format_response_needs_consumption_witness :
  @ElectricityScraper._format_response (Fixture.machine ∅) {| values := ∅ |} true
  = Raise (KeyError "A+").
Proof.
  apply (@format_response_needs_consumption (Fixture.machine ∅)). reflexivity.
Defined.

Lemma format_response_all_or_nothing_witness :
  (exists recs,
     @ElectricityScraper._format_response (Fixture.machine ∅) Fixture.sample true = Ok recs)
  <-> Forall (fun e => representable (timestamp e))
        [ {| timestamp := Fixture.T0; value := JInt 5 |};
          {| timestamp := Fixture.T1; value := JInt 7 |} ].
Proof.
  exact (proj1 (@format_response_all_or_nothing (Fixture.machine ∅) Fixture.sample true
     {| total := {| data := [ {| timestamp := Fixture.T0; value := JInt 5 |};
                              {| timestamp := Fixture.T1; value := JInt 7 |} ] |} |}
     eq_refl)).
Defined.


(** ** Date strings and minutes *)

Lemma append_inj_length (a a' b b' : string) :
  String.length a = String.length a' -> a +:+ b = a' +:+ b' -> a = a' /\ b = b'.
Proof.
  revert a'. induction a as [|c a IH]; intros [|c' a'] Hlen; try discriminate.
  - cbn. auto.
  - cbn. intros [= -> Hab]. injection Hlen as Hlen.
    destruct (IH a' Hlen Hab) as [-> ->]. auto.
Qed.

(** Two texts of digits that are followed by a hyphen end at the same
    place. *)
Lemma append_dash_inj (a a' b b' : string) :
  all_chars Argparse.is_digit a = true -> all_chars Argparse.is_digit a' = true ->
  a +:+ String "-" b = a' +:+ String "-" b' -> a = a' /\ b = b'.
Proof.
  revert a'. induction a as [|c a IH]; intros [|c' a']; cbn [all_chars String.append].
  - intros _ _ [= ->]. auto.
  - intros _ Ha' [= <- _]. discriminate Ha'.
  - intros Ha _ [= -> _]. discriminate Ha.
  - rewrite !andb_true_iff. intros [_ Ha] [_ Ha'] [= -> Hab].
    destruct (IH a' Ha Ha' Hab) as [-> ->]. auto.
Qed.

Lemma reads_back_spec (f : Z -> string) (width : nat) (z : Z) :
  reads_back f width z = true ->
  Argparse.digits 0 false (f z) = Some z /\ String.length (f z) = width.
Proof.
  unfold reads_back. destruct (Argparse.digits 0 false (f z)) as [z'|]; [|discriminate].
  intros [Hz Hw]%andb_prop. apply Z.eqb_eq in Hz. apply Nat.eqb_eq in Hw.
  now subst.
Qed.

Lemma fmt_02d_digits (z : Z) :
  0 <= z < 100 -> Argparse.digits 0 false (fmt_02d z) = Some z.
Proof.
  intros Hz. apply (reads_back_spec fmt_02d 2).
  apply (range_check (reads_back fmt_02d 2) 100); [vm_compute; reflexivity | lia].
Qed.

Lemma fmt_02d_inj (a b : Z) : 0 <= a < 100 -> 0 <= b < 100 -> fmt_02d a = fmt_02d b -> a = b.
Proof.
  intros Ha Hb Hab. apply fmt_02d_digits in Ha, Hb. rewrite Hab in Ha. congruence.
Qed.

Lemma year_text (y : Z) :
  0 <= y < 10000 ->
  Argparse.digits 0 false (str_int y) = Some y
  /\ all_chars Argparse.is_digit (str_int y) = true
  /\ String.length (str_int y)
     = (if (y <? 10)%Z then 1 else if (y <? 100)%Z then 2
        else if (y <? 1000)%Z then 3 else 4)%nat.
Proof.
  intros Hy.
  assert (Hc : year_reads_back y = true)
    by (apply (range_check year_reads_back (Z.to_nat 10000));
        [vm_compute; reflexivity | lia]).
  unfold year_reads_back in Hc.
  destruct (Argparse.digits 0 false (str_int y)) as [y'|]; [|discriminate].
  apply andb_prop in Hc. destruct Hc as [Hc Hl]. apply andb_prop in Hc.
  destruct Hc as [He Hd]. apply Z.eqb_eq in He. apply Nat.eqb_eq in Hl.
  subst y'. auto.
Qed.

Lemma year_text_inj (a b : Z) :
  0 <= a < 10000 -> 0 <= b < 10000 -> str_int a = str_int b -> a = b.
Proof.
  intros Ha Hb Hab. apply year_text in Ha, Hb.
  destruct Ha as [Ha _], Hb as [Hb _]. rewrite Hab in Ha. congruence.
Qed.

Lemma days_in_month_bound (y m : Z) : 1 <= m <= 12 -> Datetime._days_in_month y m <= 31.
Proof.
  intros Hm. unfold Datetime._days_in_month.
  assert (Hc : m = 1 \/ m = 2 \/ m = 3 \/ m = 4 \/ m = 5 \/ m = 6 \/ m = 7 \/ m = 8
               \/ m = 9 \/ m = 10 \/ m = 11 \/ m = 12) by lia.
  repeat (destruct Hc as [->|Hc];
          [destruct (Datetime._is_leap y); apply Z.leb_le; vm_compute; reflexivity|]).
  subst. destruct (Datetime._is_leap y); apply Z.leb_le; vm_compute; reflexivity.
Qed.

(** The fields a date text was written from can be read back, whatever
    the width of the year. *)
Lemma minute_text_inj (y m d hh mi y' m' d' hh' mi' : Z) :
  valid_date y m d -> 0 <= hh < 24 -> 0 <= mi < 60 ->
  valid_date y' m' d' -> 0 <= hh' < 24 -> 0 <= mi' < 60 ->
  minute_text y m d hh mi = minute_text y' m' d' hh' mi' ->
  y = y' /\ m = m' /\ d = d' /\ hh = hh' /\ mi = mi'.
Proof.
  unfold valid_date, Datetime.MINYEAR, Datetime.MAXYEAR.
  intros (Hy & Hm & Hd) Hh Hmi (Hy' & Hm' & Hd') Hh' Hmi'.
  pose proof (days_in_month_bound y m Hm). pose proof (days_in_month_bound y' m' Hm').
  unfold minute_text. cbn [String.append]. intros Heq.
  apply append_dash_inj in Heq; [|apply year_text; lia..].
  destruct Heq as [E1 Heq].
  apply append_inj_length in Heq; [|now rewrite !fmt_02d_length by lia].
  destruct Heq as [E2 Heq]. cbn [String.append] in Heq. injection Heq as Heq.
  apply append_inj_length in Heq; [|now rewrite !fmt_02d_length by lia].
  destruct Heq as [E3 Heq]. cbn [String.append] in Heq. injection Heq as Heq.
  apply append_inj_length in Heq; [|now rewrite !fmt_02d_length by lia].
  destruct Heq as [E4 Heq]. cbn [String.append] in Heq. injection Heq as E5.
  apply year_text_inj in E1; [|lia..].
  apply fmt_02d_inj in E2, E3, E4, E5; lia.
Qed.

Lemma minute_text_length (y m d hh mi : Z) :
  valid_date y m d -> 0 <= hh < 24 -> 0 <= mi < 60 ->
  String.length (minute_text y m d hh mi) = (String.length (str_int y) + 12)%nat.
Proof.
  unfold valid_date, Datetime.MINYEAR, Datetime.MAXYEAR.
  intros (Hy & Hm & Hd) Hh Hmi.
  pose proof (days_in_month_bound y m Hm).
  unfold minute_text. rewrite !length_append.
  rewrite !fmt_02d_length by lia. cbn [String.length]. lia.
Qed.

Section Minutes.
Import Datetime.

(** The fields up to the minute depend on the minute only. *)
Lemma of_seconds_same_minute (s1 us1 s2 us2 : Z) :
  s1 / 60 = s2 / 60 ->
  (fun dt => minute_text (year dt) (month dt) (day dt) (hour dt) (minute dt))
    <$> of_seconds s1 us1
  = (fun dt => minute_text (year dt) (month dt) (day dt) (hour dt) (minute dt))
    <$> of_seconds s2 us2.
Proof.
  intros Hs. unfold of_seconds.
  assert (E1 : s1 / 86400 = s2 / 86400) by (Z.div_mod_to_equations; lia).
  assert (E2 : s1 mod 86400 / 3600 = s2 mod 86400 / 3600)
    by (Z.div_mod_to_equations; lia).
  assert (E3 : s1 mod 86400 mod 3600 / 60 = s2 mod 86400 mod 3600 / 60)
    by (Z.div_mod_to_equations; lia).
  rewrite E1.
  destruct ((1 <=? s2 / 86400 + EPOCH_ORDINAL) && (s2 / 86400 + EPOCH_ORDINAL <=? _MAXORDINAL));
    [|reflexivity].
  destruct (_ord2ymd (s2 / 86400 + EPOCH_ORDINAL)) as [[y m] d].
  cbn. now rewrite E2, E3.
Qed.

Lemma fmt_minute_text (h : Host) (ts : Z) :
  @fmt h ts
  = (fun dt => minute_text (year dt) (month dt) (day dt) (hour dt) (minute dt))
    <$> of_seconds (ts / 1000) (ts mod 1000 * 1000).
Proof.
  unfold fmt. rewrite format_timestamp_eq.
  unfold of_seconds.
  destruct ((1 <=? ts / 1000 / 86400 + EPOCH_ORDINAL)
            && (ts / 1000 / 86400 + EPOCH_ORDINAL <=? _MAXORDINAL)); [|reflexivity].
  destruct (_ord2ymd (ts / 1000 / 86400 + EPOCH_ORDINAL)) as [[y m] d].
  unfold mbind, result_bind, fmap, result_fmap. rewrite strftime_seconds.
  cbn [year month day hour minute second].
  rewrite drop_last_append; [reflexivity|].
  cbn. rewrite fmt_02d_length; [reflexivity|].
  Z.div_mod_to_equations; lia.
Qed.

Ltac table_values :=
  repeat match goal with
         | |- context [table ?t ?k] =>
             let v := eval vm_compute in (table t k) in change (table t k) with v
         | H : context [table ?t ?k] |- _ =>
             let v := eval vm_compute in (table t k) in change (table t k) with v in H
         end;
  cbn [Z.eqb Z.ltb Z.compare Pos.eqb Pos.compare Pos.compare_cont andb] in *.

(** A year has 365 days, and one more when it is a leap year. *)
Lemma days_before_next_year (y : Z) :
  _days_before_year (y + 1) = _days_before_year y + 365 + (if _is_leap y then 1 else 0).
Proof.
  unfold _days_before_year, _is_leap.
  replace (y + 1 - 1) with y by lia.
  repeat match goal with
         | |- context [?a =? ?b] => destruct (Z.eqb_spec a b)
         end;
    cbn [andb orb negb]; Z.div_mod_to_equations; lia.
Qed.

(** The ordinal of a date lies in the days of its year. *)
Lemma ymd2ord_in_year (y m d : Z) :
  valid_date y m d ->
  _days_before_year y < _ymd2ord y m d <= _days_before_year (y + 1).
Proof.
  unfold valid_date. intros (_ & Hm & Hd).
  rewrite days_before_next_year. unfold _ymd2ord, _days_before_month.
  rewrite days_in_month_leap in Hd.
  assert (Hc : m = 1 \/ m = 2 \/ m = 3 \/ m = 4 \/ m = 5 \/ m = 6 \/ m = 7 \/ m = 8
               \/ m = 9 \/ m = 10 \/ m = 11 \/ m = 12) by lia.
  destruct (_is_leap y);
    repeat (destruct Hc as [->|Hc]; [table_values; lia|]);
    subst; table_values; lia.
Qed.

Lemma days_before_year_mono (y y' : Z) :
  1 <= y <= y' -> _days_before_year y <= _days_before_year y'.
Proof. unfold _days_before_year. intros Hy. Z.div_mod_to_equations. lia. Qed.

(** The year of a minute is 1000 or more exactly from [YEAR_1000] on. *)
Lemma year_threshold (y m d hh mi ts : Z) :
  valid_date y m d -> 0 <= hh < 24 -> 0 <= mi < 60 ->
  minutes_since_epoch y m d hh mi = ts / 60000 ->
  1000 <= y <-> YEAR_1000 <= ts.
Proof.
  intros Hv Hh Hmi Hmin. pose proof (ymd2ord_in_year y m d Hv) as Ho.
  destruct Hv as ((Hy1 & Hy2) & _). unfold MINYEAR, MAXYEAR in *.
  unfold minutes_since_epoch, EPOCH_ORDINAL in Hmin. unfold YEAR_1000.
  assert (H1000 : _days_before_year 1000 = 364877) by reflexivity.
  split.
  - intros Hy. pose proof (days_before_year_mono 1000 y ltac:(lia)).
    Z.div_mod_to_equations. lia.
  - intros Hts. destruct (Z_lt_le_dec y 1000) as [Hlt|]; [exfalso|assumption].
    pose proof (days_before_year_mono (y + 1) 1000 ltac:(lia)).
    Z.div_mod_to_equations. lia.
Qed.

End Minutes.

(** X4: the date string names the minute.  Two timestamps of the same UTC
    minute get the same outcome (the milliseconds and seconds are cut off,
    not rounded), and two timestamps in the range of [datetime] that get the
    same date string lie in the same minute, also where the year is written
    with fewer than four digits. *)
Theorem date_string_names_the_minute (h : Host) (ts1 ts2 : Z) :
  (ts1 / 60000 = ts2 / 60000 -> @fmt h ts1 = @fmt h ts2)
  /\ (representable ts1 -> representable ts2 ->
      @fmt h ts1 = @fmt h ts2 -> ts1 / 60000 = ts2 / 60000).
Proof.
  split.
  - intros Hm. rewrite !fmt_minute_text. apply of_seconds_same_minute.
    Z.div_mod_to_equations; lia.
  - intros H1 H2 Heq.
    destruct (fmt_in_range h ts1 H1) as (y & m & d & hh & mi & Hv & Hh & Hmi & E & F).
    destruct (fmt_in_range h ts2 H2) as (y' & m' & d' & hh' & mi' & Hv' & Hh' & Hmi' & E' & F').
    rewrite F, F' in Heq. injection Heq as Heq.
    apply minute_text_inj in Heq; try assumption.
    destruct Heq as (-> & -> & -> & -> & ->). congruence.
Qed.

(** X5: the width of the date string.  For every timestamp in the range of
    [datetime], [_format_timestamp] gives the date string followed by [:SS],
    so that [[:-3]] removes exactly the seconds.  The date string has the
    sixteen characters of [YYYY-MM-DD HH:MM] exactly for the timestamps from
    the year 1000 on; before, [%Y] gives a shorter year and the string has
    thirteen to fifteen characters. *)
Theorem date_string_width (h : Host) (ts : Z) :
  representable ts ->
  exists text ss,
    @fmt h ts = Ok text
    /\ @ElectricityScraper._format_timestamp h ts = Ok (text +:+ ":" +:+ ss)
    /\ String.length ss = 2%nat
    /\ (13 <= String.length text <= 16)%nat
    /\ (String.length text = 16%nat <-> YEAR_1000 <= ts).
Proof.
  intros Hr. unfold fmt, representable in *. rewrite format_timestamp_eq.
  destruct (of_seconds_ok (ts / 1000) (ts mod 1000 * 1000))
    as (dt & Hdt & Hv & Hh & Hm & Hs & Hmin); [Z.div_mod_to_equations; lia|].
  rewrite Hdt. unfold mbind, result_bind, fmap, result_fmap. rewrite strftime_seconds.
  exists (minute_text (Datetime.year dt) (Datetime.month dt) (Datetime.day dt)
            (Datetime.hour dt) (Datetime.minute dt)), (fmt_02d (Datetime.second dt)).
  assert (Hmin' : minutes_since_epoch (Datetime.year dt) (Datetime.month dt)
                    (Datetime.day dt) (Datetime.hour dt) (Datetime.minute dt)
                  = ts / 60000)
    by (rewrite Hmin; Z.div_mod_to_equations; lia).
  pose proof (year_threshold _ _ _ _ _ ts Hv Hh Hm Hmin') as Hth.
  pose proof (minute_text_length _ _ _ _ _ Hv Hh Hm) as Hlen.
  destruct Hv as ((Hy1 & Hy2) & _). unfold Datetime.MINYEAR, Datetime.MAXYEAR in *.
  destruct (year_text (Datetime.year dt) ltac:(lia)) as (_ & _ & Hyl).
  split; [|split; [|split; [|split]]].
  - rewrite drop_last_append; [reflexivity|]. cbn. now rewrite fmt_02d_length by lia.
  - reflexivity.
  - apply fmt_02d_length. lia.
  - rewrite Hlen, Hyl. repeat case_match; lia.
  - rewrite Hlen, Hyl, <- Hth.
    repeat case_match;
      repeat match goal with
             | H : (_ <? _) = true |- _ => apply Z.ltb_lt in H
             | H : (_ <? _) = false |- _ => apply Z.ltb_ge in H
             end; lia.
Qed.

Lemma date_string_names_the_minute_witness :
  1756684800000 / 60000 = 1756684859999 / 60000
  /\ @fmt (Fixture.machine ∅) 1756684800000 = @fmt (Fixture.machine ∅) 1756684859999.
Proof.
  assert (Hm : 1756684800000 / 60000 = 1756684859999 / 60000) by reflexivity.
  split; [exact Hm|].
  exact (proj1 (date_string_names_the_minute (Fixture.machine ∅) _ _) Hm).
Defined.

Lemma date_string_width_witness :
  representable (-62135596800000)
  /\ exists text ss,
       @fmt (Fixture.machine ∅) (-62135596800000) = Ok text
       /\ @ElectricityScraper._format_timestamp (Fixture.machine ∅) (-62135596800000)
          = Ok (text +:+ ":" +:+ ss)
       /\ String.length ss = 2%nat
       /\ (13 <= String.length text <= 16)%nat
       /\ (String.length text = 16%nat <-> YEAR_1000 <= -62135596800000).
Proof.
  assert (Hr : representable (-62135596800000)) by (unfold representable; lia).
  split; [exact Hr|].
  exact (date_string_width (Fixture.machine ∅) (-62135596800000) Hr).
Defined.

(** The first minute of the year 1 and the last of the year 999, as the
    program writes them. *)
Example date_string_early_years :
  @fmt (Fixture.machine ∅) (-62135596800000) = Ok "1-01-01 00:00"%string
  /\ @fmt (Fixture.machine ∅) (YEAR_1000 - 1) = Ok "999-12-31 23:59"%string
  /\ @fmt (Fixture.machine ∅) YEAR_1000 = Ok "1000-01-01 00:00"%string.
Proof. repeat split; reflexivity. Qed.

(** ** The URL builder, for every period *)

Section UrlEdges.
Context {B E : Type} `{!WebDriver B E} `{!Host}.
Import ElectricityScraper Urllib.


(** A period that is none of the three constants: no [if] fires. *)
Lemma get_data_url_other (self : scraper) (period year month day granularity : pyval)
    (w : world B) :
  period <> PStr PERIOD_YEAR -> period <> PStr PERIOD_MONTH -> period <> PStr PERIOD_DAY ->
  _get_data_url self period year month day granularity w
  = (Ok (DATA_URL +:+ "?"
         +:+ urlencode [("objectEic", PStr (object_id self));
                        ("counterNumber", PStr (meter_id self));
                        ("period", period)]%string),
     World (driver w) (defaulted year "%Y" (ticks w)).2 (trace w)).
Proof.
  intros Hy Hm Hd. unfold _get_data_url.
  unfold mbind at 1, M_bind at 1. rewrite or_else_year.
  rewrite !bool_decide_eq_false_2 by assumption. reflexivity.
Qed.

(** X6: with a period other than [D], [M] and [Y] (the default [None], say)
    the builder adds nothing to the three fixed parameters: the query is
    [objectEic=..&counterNumber=..&period=<str(period)>], and neither the
    date components given nor the granularity reach it.  The year is still
    defaulted first, so the clock is read when no year is given. *)
Theorem data_url_other_period (self : scraper)
    (period year month day granularity : pyval) (w : world B) :
  period <> PStr PERIOD_YEAR -> period <> PStr PERIOD_MONTH -> period <> PStr PERIOD_DAY ->
  let query :=
    "objectEic=" +:+ quote_plus (object_id self)
    +:+ "&counterNumber=" +:+ quote_plus (meter_id self)
    +:+ "&period=" +:+ quote_plus (str period) in
  _get_data_url self period year month day granularity w
  = (Ok (DATA_URL +:+ "?" +:+ query),
     World (driver w) (if truthy year then ticks w else S (ticks w)) (trace w))
  /\ query_keys query = ["objectEic"; "counterNumber"; "period"]%string.
Proof.
  intros Hy Hm Hd. cbv zeta.
  assert (Hq : urlencode [("objectEic", PStr (object_id self));
                          ("counterNumber", PStr (meter_id self));
                          ("period", period)]%string
               = "objectEic=" +:+ quote_plus (object_id self)
                 +:+ "&counterNumber=" +:+ quote_plus (meter_id self)
                 +:+ "&period=" +:+ quote_plus (str period)).
  { unfold urlencode. cbn [map join fst snd str]. rewrite !append_assoc. reflexivity. }
  split.
  - rewrite get_data_url_other by assumption. rewrite Hq.
    unfold defaulted. now destruct (truthy year).
  - rewrite <- Hq. rewrite query_keys_urlencode by discriminate. reflexivity.
Qed.


End UrlEdges.

(** X8: when the caller gives a year, a month and a day that are all true
    values, the builder does not read the clock and changes nothing, and the
    URL is the same on every machine. *)
Theorem data_url_without_clock {B : Type} (h1 h2 : Host) (self : ElectricityScraper.scraper)
    (period year month day granularity : pyval) (w : world B) :
  truthy year = true -> truthy month = true -> truthy day = true ->
  @ElectricityScraper._get_data_url B h1 self period year month day granularity w
  = @ElectricityScraper._get_data_url B h2 self period year month day granularity w
  /\ (@ElectricityScraper._get_data_url B h1 self period year month day granularity w).2 = w.
Proof.
  intros Hy Hm Hd.
  unfold ElectricityScraper._get_data_url, or_else. rewrite Hy, Hm, Hd.
  unfold mbind, M_bind, mret, M_ret.
  split; repeat case_bool_decide; reflexivity.
Qed.

Lemma data_url_other_period_witness :
  (@ElectricityScraper._get_data_url Fixture.browser
     (Fixture.machine Fixture.credentials)
     Fixture.me PNone (PInt 2025) (PInt 9) (PInt 5) (PStr "H") Fixture.start).1
  = Ok (ElectricityScraper.DATA_URL
        +:+ "?objectEic=" +:+ Urllib.quote_plus "30X-OBJ 1"
        +:+ "&counterNumber=" +:+ Urllib.quote_plus "12345"
        +:+ "&period=" +:+ Urllib.quote_plus (str PNone)).
Proof.
  assert (H1 : PNone <> PStr ElectricityScraper.PERIOD_YEAR) by discriminate.
  assert (H2 : PNone <> PStr ElectricityScraper.PERIOD_MONTH) by discriminate.
  assert (H3 : PNone <> PStr ElectricityScraper.PERIOD_DAY) by discriminate.
  pose proof (proj1 (@data_url_other_period Fixture.browser
                       (Fixture.machine Fixture.credentials) Fixture.me
                       PNone (PInt 2025) (PInt 9) (PInt 5) (PStr "H") Fixture.start
                       H1 H2 H3)) as Hu.
  now rewrite Hu.
Defined.

Lemma data_url_without_clock_witness :
  @ElectricityScraper._get_data_url Fixture.browser (Fixture.machine ∅)
     Fixture.me (PStr "D") (PInt 2025) (PInt 9) (PInt 5) (PStr "H") Fixture.start
  = @ElectricityScraper._get_data_url Fixture.browser (Fixture.machine_west ∅)
     Fixture.me (PStr "D") (PInt 2025) (PInt 9) (PInt 5) (PStr "H") Fixture.start.
Proof.
  exact (proj1 (@data_url_without_clock Fixture.browser
                  (Fixture.machine ∅) (Fixture.machine_west ∅) Fixture.me
                  (PStr "D") (PInt 2025) (PInt 9) (PInt 5) (PStr "H") Fixture.start
                  eq_refl eq_refl eq_refl)).
Defined.

(** ** What the workflow adds to the trace *)

Section Adds.
Context {B E : Type} `{!WebDriver B E} `{!Host}.
Variable P : event -> Prop.

Lemma adds_same {A} (m : M B A) :
  (forall w, trace (m w).2 = trace w) -> adds P m.
Proof. intros Hm w. exists []. rewrite Hm, app_nil_r. auto. Qed.

Lemma adds_ret {A} (a : A) : adds P (mret a : M B A).
Proof. now apply adds_same. Qed.

Lemma adds_raise {A} (e : exn) : adds P (raise e : M B A).
Proof. now apply adds_same. Qed.

Lemma adds_lift {A} (r : result A) : adds P (lift r : M B A).
Proof. now apply adds_same. Qed.

Lemma adds_get_driver : adds P (get_driver : M B (option B)).
Proof. now apply adds_same. Qed.

Lemma adds_set_driver (d : option B) : adds P (set_driver d : M B unit).
Proof. now apply adds_same. Qed.

Lemma adds_datetime_now : adds P (datetime_now : M B Datetime.datetime).
Proof. now apply adds_same. Qed.

Lemma adds_property {A} (f : B -> A) : adds P (property f).
Proof. apply adds_same. intros w. unfold property. now destruct (driver w). Qed.

Lemma adds_log (e : event) : P e -> adds P (log e : M B unit).
Proof. intros He w. exists [e]. split; [reflexivity|]. auto. Qed.

Lemma adds_time_sleep (n : Z) : P (ESleep n) -> adds P (time_sleep n : M B unit).
Proof. intros He w. exists [ESleep n]. split; [reflexivity|]. auto. Qed.

Lemma adds_call {A} (r : request) (f : B -> result A * B) :
  P (EBrowser r) -> adds P (call r f).
Proof.
  intros He w. unfold call. destruct (driver w) as [b|].
  - destruct (f b) as [res b']. exists [EBrowser r]. split; [reflexivity|]. auto.
  - exists []. cbn. now rewrite app_nil_r.
Qed.

Lemma adds_bind {A C} (m : M B A) (f : A -> M B C) :
  adds P m -> (forall a, adds P (f a)) -> adds P (m ≫= f).
Proof.
  intros Hm Hf w. unfold mbind, M_bind. destruct (Hm w) as (t & Ht & HP).
  destruct (m w) as [[a|e] w1]; cbn [snd] in *; [|eauto].
  destruct (Hf a w1) as (t' & Ht' & HP').
  exists (t ++ t'). rewrite Ht', Ht, app_assoc. split; [reflexivity|].
  now apply Forall_app.
Qed.

Lemma adds_try_except {A} (m : M B A) (h : exn -> option (M B A)) :
  adds P m -> (forall e k, h e = Some k -> adds P k) -> adds P (try_except m h).
Proof.
  intros Hm Hh w. unfold try_except. destruct (Hm w) as (t & Ht & HP).
  destruct (m w) as [[a|e] w1]; cbn [snd] in *; [eauto|].
  destruct (h e) as [k|] eqn:He; [|cbn [snd]; eauto].
  destruct (Hh e k He w1) as (t' & Ht' & HP').
  exists (t ++ t'). rewrite Ht', Ht, app_assoc. split; [reflexivity|].
  now apply Forall_app.
Qed.

Lemma adds_or_else (a : pyval) (m : M B pyval) : adds P m -> adds P (or_else a m).
Proof. intros Hm. unfold or_else. destruct (truthy a); [apply adds_ret|exact Hm]. Qed.

End Adds.

Create HintDb adds discriminated.
#[local] Hint Constants Opaque : adds.
#[local] Hint Variables Opaque : adds.
#[local] Hint Resolve adds_ret adds_raise adds_lift adds_get_driver adds_set_driver
  adds_datetime_now adds_property : adds.

(** One step through a computation, by its outermost form; [side] settles
    what is asked of an event. *)
Ltac adds_step side :=
  lazymatch goal with
  | |- @adds _ _ _ (_ ≫= _) => apply adds_bind; [|intros ?]
  | |- @adds _ _ _ (try_except _ _) =>
      apply adds_try_except;
      [|let e := fresh "e" in let k := fresh "k" in
        intros e k; try destruct e; intros [= <-]]
  | |- @adds _ _ _ (or_else _ _) => apply adds_or_else
  | |- @adds _ _ _ (print _) => apply adds_log; side
  | |- @adds _ _ _ (write_file _ _) => apply adds_log; side
  | |- @adds _ _ _ (log _) => apply adds_log; side
  | |- @adds _ _ _ (time_sleep _) => apply adds_time_sleep; side
  | |- @adds _ _ _ (call _ _) => apply adds_call; side
  | |- @adds _ _ _ (match ?x with _ => _ end) => destruct x
  | |- _ => solve [auto 1 with adds nocore]
  end.

Ltac adds_all side := repeat adds_step side.

Section AddsWorkflow.
Context {B E : Type} `{!WebDriver B E} `{!Host}.
Import ElectricityScraper Main.
Variable P : event -> Prop.
Hypothesis Hprint : forall s, P (EPrint s).
Hypothesis Hwrite : forall n s, P (EWrite n s).
Hypothesis Hsleep : forall n, P (ESleep n).
Hypothesis Hbrowser : forall r, P (EBrowser r).

Ltac side := first [apply Hprint | apply Hwrite | apply Hsleep | apply Hbrowser | assumption].

Lemma adds_init_driver (self : scraper) :
  P (ELaunch (chrome_options (headless self))) -> @adds B _ P (_init_driver self).
Proof. intros Hl. unfold _init_driver. adds_all side. Qed.

Lemma adds_get_data_url (self : scraper) (p y m d g : pyval) :
  @adds B _ P (_get_data_url self p y m d g).
Proof. unfold _get_data_url, _get_current_date. adds_all side. Qed.

Lemma adds_accept_cookies (l : list string) : @adds B _ P (accept_cookies l).
Proof.
  induction l as [|s l IH]; intros w; cbn [accept_cookies].
  - exists []. cbn. now rewrite app_nil_r.
  - assert (Hs : @adds B _ P (accept_cookie s)) by (unfold accept_cookie; adds_all side).
    destruct (Hs w) as (t & Ht & HP).
    destruct (accept_cookie s w) as [[[]|e] w1]; cbn [snd] in *; [eauto|].
    destruct (IH w1) as (t' & Ht' & HP').
    exists (t ++ t'). rewrite Ht', Ht, app_assoc. split; [reflexivity|].
    now apply Forall_app.
Qed.

Lemma adds_login (self : scraper) :
  P (ELaunch (chrome_options (headless self))) -> @adds B _ P (_login self).
Proof.
  intros Hl. pose proof (adds_init_driver self Hl). pose proof adds_accept_cookies.
  unfold _login. adds_all side.
Qed.

Lemma adds_read_chart : @adds B _ P read_chart.
Proof. unfold read_chart. adds_all side. Qed.

Lemma adds_open_data_page (self : scraper) (p y m d g : pyval) :
  P (ELaunch (chrome_options (headless self))) ->
  @adds B _ P (open_data_page self p y m d g).
Proof.
  intros Hl. pose proof (adds_login self Hl). pose proof (adds_get_data_url self p y m d g).
  unfold open_data_page. adds_all side.
Qed.

Lemma adds_fetch_remote_data (self : scraper) (p y m d g : pyval) :
  P (ELaunch (chrome_options (headless self))) ->
  @adds B _ P (_fetch_remote_data self p y m d g).
Proof.
  intros Hl. pose proof (adds_open_data_page self p y m d g Hl). pose proof adds_read_chart.
  unfold _fetch_remote_data. adds_all side.
Qed.

End AddsWorkflow.

(** ** A fetch and the session *)

Lemma open_sessions_launches (t : list event) :
  Forall (fun e => fetch_event e = true) t -> open_sessions t = Z.of_nat (launches t).
Proof.
  unfold open_sessions, launches.
  induction 1 as [|e t He _ IH]; [reflexivity|].
  cbn [foldr List.filter]. rewrite IH.
  destruct e; cbn [fetch_event is_launch] in *; try discriminate He; cbn [length]; lia.
Qed.

Section FetchSession.
Context {B E : Type} `{!WebDriver B E} `{!Host}.
Import ElectricityScraper.

(** X9: a fetch keeps what is in the trace and adds to it; it never ends
    the browser session and never emits the data; it starts Chrome at most
    once, and not at all when a session is held, which it then still holds
    at the end, however the fetch ends. *)
Theorem fetch_keeps_the_session (self : scraper) (p y m d g : pyval) (w : world B) :
  consistent w ->
  exists t,
    trace (_fetch_remote_data self p y m d g w).2 = trace w ++ t
    /\ Forall (fun e => fetch_event e = true) t
    /\ (launches t <= 1)%nat
    /\ (forall b, driver w = Some b ->
          launches t = 0%nat
          /\ exists b', driver (_fetch_remote_data self p y m d g w).2 = Some b').
Proof.
  intros Hw.
  assert (Ha : @adds B _ (fun e => fetch_event e = true)
                 (_fetch_remote_data self p y m d g))
    by (apply adds_fetch_remote_data; intros; reflexivity).
  destruct (Ha w) as (t & Ht & HP).
  pose proof (keeps_fetch_remote_data self p y m d g w Hw) as Hw'.
  unfold consistent in Hw, Hw'. rewrite Ht, open_sessions_app in Hw'.
  rewrite (open_sessions_launches t HP) in Hw'.
  exists t. split; [exact Ht|]. split; [exact HP|]. split.
  - destruct (driver w), (driver (_fetch_remote_data self p y m d g w).2); lia.
  - intros b Hb. rewrite Hb in Hw.
    destruct (driver (_fetch_remote_data self p y m d g w).2) as [b'|]; [|lia].
    split; [lia|eauto].
Qed.

End FetchSession.

Lemma fetch_keeps_the_session_witness :
  exists t,
    trace (@ElectricityScraper._fetch_remote_data _ _ (Fixture.scripted Fixture.good)
             (Fixture.machine Fixture.credentials) Fixture.me
             (PStr "M") (PInt 2025) (PInt 9) PNone (PStr "D") Fixture.start).2
    = trace Fixture.start ++ t
    /\ (launches t <= 1)%nat.
Proof.
  assert (Hw : consistent Fixture.start) by reflexivity.
  destruct (@fetch_keeps_the_session _ _ (Fixture.scripted Fixture.good)
              (Fixture.machine Fixture.credentials) Fixture.me
              (PStr "M") (PInt 2025) (PInt 9) PNone (PStr "D") Fixture.start Hw)
    as (t & Ht & _ & Hl & _).
  exists t. split; [exact Ht | exact Hl].
Defined.

(** ** Logging in *)

Section Returns.
Context {B E : Type} `{!WebDriver B E} `{!Host}.

Lemma returns_bind {A C} (Q : C -> world B -> Prop) (m : M B A) (f : A -> M B C) :
  (forall a, returns Q (f a)) -> returns Q (m ≫= f).
Proof.
  intros Hf w c w'. unfold mbind, M_bind.
  destruct (m w) as [[a|e] w1]; [apply Hf | discriminate].
Qed.

Lemma returns_try_except {A} (Q : A -> world B -> Prop) (m : M B A)
    (h : exn -> option (M B A)) :
  returns Q m -> (forall e k, h e = Some k -> returns Q k) -> returns Q (try_except m h).
Proof.
  intros Hm Hh w a w'. unfold try_except.
  destruct (m w) as [[a1|e] w1] eqn:Hmw.
  - intros [= <- <-]. now apply (Hm w).
  - destruct (h e) as [k|] eqn:He; [apply (Hh e k He) | discriminate].
Qed.

End Returns.

Section Login.
Context {B E : Type} `{!WebDriver B E} `{!Host}.
Import ElectricityScraper.

(** The cookie loop swallows every exception of every round. *)
Lemma accept_cookies_total (l : list string) : @never_raises B _ (accept_cookies l).
Proof.
  induction l as [|s l IH]; intros w; cbn [accept_cookies]; [now exists tt|].
  destruct (accept_cookie s w) as [[[]|e] w1]; [now exists tt | apply IH].
Qed.

(** X10: the cookie-banner block raises nothing, whatever the browser does
    and whether or not there is a banner: every round of the loop swallows
    its own exceptions.  So the handler around the block, which would print
    [No cookie banner or already accepted], never runs: the block with the
    handler is the block without it. *)
Theorem cookie_block_never_raises (l : list string) (k : M B unit) (w : world B) :
  (exists w',
     (print "Checking for cookie consent banner...";; accept_cookies l) w = (Ok tt, w'))
  /\ try_except (print "Checking for cookie consent banner...";; accept_cookies l)
                (fun _ => Some k) w
     = (print "Checking for cookie consent banner...";; accept_cookies l) w.
Proof.
  assert (Hok : exists w',
            (print "Checking for cookie consent banner...";; accept_cookies l) w
            = (Ok tt, w')).
  { unfold mbind, M_bind, print, log.
    match goal with
    | |- exists w', accept_cookies l ?w0 = _ =>
        destruct (accept_cookies_total l w0) as [[] Ha];
        destruct (accept_cookies l w0) as [r w1]; cbn [fst] in Ha; subst r; eauto
    end. }
  split; [exact Hok|].
  destruct Hok as [w' Hw']. unfold try_except. now rewrite Hw'.
Qed.

Ltac returns_step :=
  lazymatch goal with
  | |- @returns _ _ _ (property _ ≫= _) => fail
  | |- @returns _ _ _ (_ ≫= _) => apply returns_bind; intros ?
  | |- @returns _ _ _ (try_except _ _) =>
      apply returns_try_except;
      [|let e := fresh "e" in let k := fresh "k" in
        intros e k; destruct e; intros [= <-]]
  end.

Lemma login_returns (self : scraper) : @returns B _ login_post (_login self).
Proof.
  unfold _login. repeat returns_step.
  - intros w ok w'. unfold mbind, M_bind, property, print, log, mret, M_ret.
    destruct (driver w) as [b|] eqn:Hd; [|discriminate].
    cbn [driver ticks trace]. intros [= <- <-].
    exists b, (trace w ++ [EPrint ("Current URL after login: " +:+ current_url b)]).
    split; [exact Hd | reflexivity].
  - intros w ok w'. unfold mbind, M_bind, property, write_file, log, mret, M_ret.
    destruct (driver w) as [b|] eqn:Hd; [|discriminate].
    cbn [driver ticks trace]. intros [= <- <-].
    exists b, (trace w). split; [exact Hd | reflexivity].
Qed.

(** X11: when [_login] returns a value, the browser session exists and the
    last thing done tells the value: after [True] it is the print of
    [[OK] Login submitted, session should be active]; after [False] it is
    the writing of the page source to [login_timeout.html]. *)
Theorem login_outcomes (self : scraper) (w w' : world B) (ok : bool) :
  _login self w = (Ok ok, w') ->
  exists b t,
    driver w' = Some b
    /\ trace w' = t ++ [if ok
                        then EPrint "[OK] Login submitted, session should be active"
                        else EWrite "login_timeout.html" (page_source b)].
Proof. intros Hl. exact (login_returns self w ok w' Hl). Qed.

(** X12: errors that [_fetch_remote_data] does not handle while it reads
    the chart.  With no session the first driver call raises
    [AttributeError] and nothing happens.  An error of the wait for the
    chart that is no timeout goes to the caller as it is, and no page is
    written.  An error of [get_attribute] goes to the caller likewise,
    except a timeout, which is reported as a chart that was not found. *)
Theorem read_chart_unhandled (w : world B) :
  (driver w = None ->
   read_chart w = (Raise (AttributeError "'NoneType' object has no attribute"), w))
  /\ (forall b e,
        driver w = Some b ->
        (until 20 chart_wait b).1 = Raise e ->
        e <> TimeoutException ->
        read_chart w
        = (Raise e,
           World (Some (until 20 chart_wait b).2) (ticks w)
                 (trace w ++ [EBrowser (RUntil 20 chart_wait)])))
  /\ (forall b el e,
        driver w = Some b ->
        (until 20 chart_wait b).1 = Ok el ->
        let b1 := (until 20 chart_wait b).2 in
        (get_attribute el "data-values" b1).1 = Raise e ->
        let b2 := (get_attribute el "data-values" b1).2 in
        let t := trace w ++ [EBrowser (RUntil 20 chart_wait);
                             EBrowser (RGetAttribute "data-values")] in
        read_chart w
        = match e with
          | TimeoutException =>
              (Raise (Exception "Chart element not found"),
               World (Some b2) (ticks w)
                     (t ++ [EPrint "ERROR: Chart not found on page";
                            EWrite "chart_not_found.html" (page_source b2)]))
          | _ => (Raise e, World (Some b2) (ticks w) t)
          end).
Proof.
  split; [|split].
  - intros Hd. unfold read_chart, try_except, mbind, M_bind, call. now rewrite Hd.
  - intros b e Hd Hu He.
    unfold read_chart, try_except, mbind, M_bind, call. rewrite Hd. fold chart_wait.
    destruct (until 20 chart_wait b) as [r b1]. cbn [fst snd] in *. subst r.
    destruct e; try reflexivity. contradiction.
  - intros b el e Hd Hu. cbv zeta. intros Ha.
    unfold read_chart, try_except, mbind, M_bind, call. rewrite Hd. fold chart_wait.
    destruct (until 20 chart_wait b) as [r b1]. cbn [fst snd] in *. subst r.
    cbn [driver ticks trace].
    destruct (get_attribute el "data-values" b1) as [r b2]. cbn [fst snd] in *. subst r.
    destruct e; try (rewrite <- !app_assoc; reflexivity).
    unfold print, write_file, log, property, raise. cbn [driver ticks trace].
    rewrite <- !app_assoc. reflexivity.
Qed.

Lemma get_data_url_total (self : scraper) (p y m d g : pyval) (w : world B) :
  exists url t,
    _get_data_url self p y m d g w = (Ok url, World (driver w) t (trace w)).
Proof.
  destruct (decide (p = PStr PERIOD_YEAR)) as [->|Hy];
    [|destruct (decide (p = PStr PERIOD_MONTH)) as [->|Hm];
      [|destruct (decide (p = PStr PERIOD_DAY)) as [->|Hd]]].
  - eexists _, _. apply get_data_url_year.
  - eexists _, _. apply get_data_url_month.
  - eexists _, _. apply get_data_url_day.
  - unfold _get_data_url. unfold mbind at 1, M_bind at 1. rewrite or_else_year.
    rewrite !bool_decide_eq_false_2 by assumption. eexists _, _. reflexivity.
Qed.

(** X13: a session that is held is used as it is.  When the data page
    loads and the browser is not sent to a login page, opening the data
    page is: print the URL, load it, print, sleep five seconds.  Chrome is
    not started, the login page is not opened and no credentials are
    typed. *)
Theorem held_session_is_reused (self : scraper) (p y m d g : pyval) (w : world B)
    (b : B) :
  driver w = Some b ->
  exists url t,
    _get_data_url self p y m d g w = (Ok url, World (Some b) t (trace w))
    /\ ((get url b).1 = Ok tt ->
        stays_on_page (current_url (sleep 5 (get url b).2)) = true ->
        open_data_page self p y m d g w
        = (Ok tt,
           World (Some (sleep 5 (get url b).2)) t
                 (trace w ++ [EPrint ("Fetching data from: " +:+ url);
                              EBrowser (RGet url);
                              EPrint "Waiting for chart to load...";
                              ESleep 5]))).
Proof.
  intros Hd. destruct (get_data_url_total self p y m d g w) as (url & t & Hu).
  rewrite Hd in Hu. exists url, t. split; [exact Hu|].
  intros Hg Hs. unfold stays_on_page in Hs. apply negb_true_iff in Hs.
  unfold open_data_page.
  unfold mbind at 1, M_bind at 1, get_driver at 1. rewrite Hd.
  unfold mbind at 1, M_bind at 1, mret at 1, M_ret at 1.
  unfold mbind at 1, M_bind at 1. rewrite Hu.
  unfold mbind, M_bind, print, log, call, time_sleep, property, mret, M_ret.
  cbn [driver ticks trace].
  destruct (get url b) as [r b1]. cbn [fst snd] in *. subst r.
  cbn [driver ticks trace fmap option_fmap option_map]. rewrite Hs.
  rewrite <- !app_assoc. reflexivity.
Qed.

(** X14: when there is no session and Chrome does not start, the fetch
    raises Chrome's error at once: nothing is printed, no page is asked for,
    and there is still no session. *)
Theorem chrome_failure_changes_nothing (self : scraper) (p y m d g : pyval)
    (w : world B) (e : exn) :
  driver w = None ->
  Chrome (chrome_options (headless self)) = Raise e ->
  _login self w = (Raise e, w)
  /\ _fetch_remote_data self p y m d g w = (Raise e, w).
Proof.
  intros Hd Hc.
  assert (Hi : _init_driver self w = (Raise e, w)).
  { unfold _init_driver, mbind, M_bind, get_driver, lift. now rewrite Hd, Hc. }
  assert (Hl : _login self w = (Raise e, w)).
  { unfold _login. unfold mbind at 1, M_bind at 1. now rewrite Hi. }
  split; [exact Hl|].
  unfold _fetch_remote_data, open_data_page.
  unfold mbind at 1, M_bind at 1. unfold mbind at 1, M_bind at 1.
  unfold get_driver at 1. rewrite Hd.
  unfold mbind at 1, M_bind at 1. unfold mbind at 1, M_bind at 1. now rewrite Hl.
Qed.

End Login.

Lemma login_outcomes_witness :
  exists b t,
    driver (@ElectricityScraper._login _ _ (Fixture.scripted Fixture.good)
              Fixture.me Fixture.start).2 = Some b
    /\ trace (@ElectricityScraper._login _ _ (Fixture.scripted Fixture.good)
                Fixture.me Fixture.start).2
       = t ++ [EPrint "[OK] Login submitted, session should be active"].
Proof.
  assert (Hl : @ElectricityScraper._login _ _ (Fixture.scripted Fixture.good)
                 Fixture.me Fixture.start
               = (Ok true,
                  (@ElectricityScraper._login _ _ (Fixture.scripted Fixture.good)
                     Fixture.me Fixture.start).2))
    by (vm_compute; reflexivity).
  exact (@login_outcomes _ _ (Fixture.scripted Fixture.good)
           Fixture.me Fixture.start _ true Hl).
Defined.

Lemma read_chart_unhandled_witness :
  @ElectricityScraper.read_chart _ _ Broken.stale (Fixture.machine ∅)
     (Scenario.on_data_page Fixture.good)
  = (Raise (WebDriverException "invalid session id"),
     World (Some {| Fixture.address := ElectricityScraper.DATA_URL; Fixture.loads := 1;
                    Fixture.script := Fixture.good |}) 0
           [EBrowser (RUntil 20 chart_wait)]).
Proof.
  assert (Hd : driver (Scenario.on_data_page Fixture.good)
               = Some {| Fixture.address := ElectricityScraper.DATA_URL;
                         Fixture.loads := 1; Fixture.script := Fixture.good |})
    by reflexivity.
  assert (Hu : (@until _ _ Broken.stale 20 chart_wait
                  {| Fixture.address := ElectricityScraper.DATA_URL;
                     Fixture.loads := 1; Fixture.script := Fixture.good |}).1
               = Raise (WebDriverException "invalid session id")) by reflexivity.
  assert (He : WebDriverException "invalid session id" <> TimeoutException)
    by discriminate.
  exact (proj1 (proj2 (@read_chart_unhandled _ _ Broken.stale (Fixture.machine ∅)
                         (Scenario.on_data_page Fixture.good))) _ _ Hd Hu He).
Defined.

Lemma held_session_is_reused_witness :
  exists url t,
    @ElectricityScraper._get_data_url _ (Fixture.machine Fixture.credentials)
       Fixture.me (PStr "Y") (PInt 2025) PNone PNone PNone
       (Scenario.on_data_page Fixture.good)
    = (Ok url,
       World (Some {| Fixture.address := ElectricityScraper.DATA_URL; Fixture.loads := 1;
                      Fixture.script := Fixture.good |}) t []).
Proof.
  assert (Hd : driver (Scenario.on_data_page Fixture.good)
               = Some {| Fixture.address := ElectricityScraper.DATA_URL;
                         Fixture.loads := 1; Fixture.script := Fixture.good |})
    by reflexivity.
  destruct (@held_session_is_reused _ _ (Fixture.scripted Fixture.good)
              (Fixture.machine Fixture.credentials) Fixture.me
              (PStr "Y") (PInt 2025) PNone PNone PNone
              (Scenario.on_data_page Fixture.good) _ Hd) as (url & t & Hu & _).
  exists url, t. exact Hu.
Defined.

Lemma chrome_failure_changes_nothing_witness :
  @ElectricityScraper._fetch_remote_data _ _ Broken.no_chrome
     (Fixture.machine Fixture.credentials) Fixture.me
     (PStr "Y") (PInt 2025) PNone PNone PNone Fixture.start
  = (Raise (WebDriverException "chromedriver not found"), Fixture.start).
Proof.
  assert (Hd : driver Fixture.start = None) by reflexivity.
  assert (Hc : @Chrome _ _ Broken.no_chrome
                 (ElectricityScraper.chrome_options
                    (ElectricityScraper.headless Fixture.me))
               = Raise (WebDriverException "chromedriver not found")) by reflexivity.
  exact (proj2 (@chrome_failure_changes_nothing _ _ Broken.no_chrome
                  (Fixture.machine Fixture.credentials) Fixture.me
                  (PStr "Y") (PInt 2025) PNone PNone PNone Fixture.start _ Hd Hc)).
Defined.

(** ** The whole run: what is written, and when *)

Section AddsMain.
Context {B E : Type} `{!WebDriver B E} `{!Host}.
Import Argparse ElectricityScraper Main.
Variable P : event -> Prop.
Hypothesis Hprint : forall s, P (EPrint s).
Hypothesis Hwrite : forall n s, P (EWrite n s).
Hypothesis Hsleep : forall n, P (ESleep n).
Hypothesis Hbrowser : forall r, P (EBrowser r).

Ltac side :=
  first [apply Hprint | apply Hwrite | apply Hsleep | apply Hbrowser | assumption].

(** The three ways to the data, with the clock readings for the file name
    that follow them in [main]. *)
Lemma adds_get_year_data (self : scraper) (neto : bool) (y : pyval) :
  P (ELaunch (chrome_options (headless self))) -> @adds B _ P (get_year_data self neto y).
Proof.
  intros Hl. pose proof (fun p y m d g =>
    adds_fetch_remote_data P Hprint Hwrite Hsleep Hbrowser self p y m d g Hl).
  unfold get_year_data. adds_all side.
Qed.

Lemma adds_get_month_data (self : scraper) (neto : bool) (y m g : pyval) :
  P (ELaunch (chrome_options (headless self))) ->
  @adds B _ P (get_month_data self neto y m g).
Proof.
  intros Hl. pose proof (fun p y m d g =>
    adds_fetch_remote_data P Hprint Hwrite Hsleep Hbrowser self p y m d g Hl).
  unfold get_month_data. adds_all side.
Qed.

Lemma adds_get_day_data (self : scraper) (neto : bool) (y m d : pyval) :
  P (ELaunch (chrome_options (headless self))) ->
  @adds B _ P (get_day_data self neto y m d).
Proof.
  intros Hl. pose proof (fun p y m d g =>
    adds_fetch_remote_data P Hprint Hwrite Hsleep Hbrowser self p y m d g Hl).
  unfold get_day_data. adds_all side.
Qed.

Lemma adds_now_field (f : Datetime.datetime -> Z) : @adds B _ P (now_field f).
Proof. unfold now_field. adds_all side. Qed.

Lemma adds_close : P EQuit -> @adds B _ P close.
Proof. intros Hq. unfold close. adds_all side. Qed.

Lemma adds_leaving {A} (body : M B A) : P EQuit -> adds P body -> adds P (leaving body).
Proof.
  intros Hq Hb w. rewrite leaving_close. cbn [snd].
  destruct (Hb w) as (t & Ht & HP).
  destruct (adds_close Hq (body w).2) as (t' & Ht' & HP').
  exists (t ++ t'). rewrite Ht', Ht, app_assoc. split; [reflexivity|].
  now apply Forall_app.
Qed.

Lemma adds_bind_returns {A C} (R : A -> Prop) (m : M B A) (f : A -> M B C) :
  adds P m -> returns (fun a _ => R a) m -> (forall a, R a -> adds P (f a)) ->
  adds P (m ≫= f).
Proof.
  intros Hm Hr Hf w. unfold mbind, M_bind. destruct (Hm w) as (t & Ht & HP).
  destruct (m w) as [[a|e] w1] eqn:Hmw; cbn [snd] in *; [|eauto].
  destruct (Hf a (Hr w a w1 Hmw) w1) as (t' & Ht' & HP').
  exists (t ++ t'). rewrite Ht', Ht, app_assoc. split; [reflexivity|].
  now apply Forall_app.
Qed.

Lemma adds_lift_bind {A C} (r : result A) (f : A -> M B C) :
  (forall a, r = Ok a -> adds P (f a)) -> adds P (lift r ≫= f).
Proof.
  intros Hf w. unfold mbind, M_bind, lift. destruct r as [a|e].
  - now apply Hf.
  - exists []. cbn [snd]. now rewrite app_nil_r.
Qed.

Lemma adds_session (args : gmap string pyval) (self : scraper) :
  P (ELaunch (chrome_options (headless self))) ->
  (forall n d, P (EDump n d)) -> (forall d, P (EPrintJson d)) ->
  @adds B _ P (session args self).
Proof.
  intros Hl Hdump Hjson.
  pose proof (fun neto y => adds_get_year_data self neto y Hl).
  pose proof (fun neto y m g => adds_get_month_data self neto y m g Hl).
  pose proof (fun neto y m d => adds_get_day_data self neto y m d Hl).
  pose proof adds_now_field.
  unfold session. apply adds_bind.
  - repeat case_bool_decide; adds_all side.
  - intros [data auto_filename].
    adds_all ltac:(first [apply Hdump | apply Hjson | apply Hprint]).
Qed.

(** [main], given what the body of its [with] block adds. *)
Lemma adds_main (argv : list string) :
  P EQuit ->
  (forall args self,
     parse_args parser argv = Ok args ->
     headless self = negb (truthy (attr args "debug")) ->
     adds P (session args self)) ->
  @adds B _ P (main argv).
Proof.
  intros Hq Hs. unfold main. apply adds_lift_bind. intros args Hp. cbv zeta.
  destruct missing_vars as [|v vs]; [|adds_all side].
  do 5 (apply adds_bind; [solve [adds_all side]|intros ?]).
  apply adds_bind; [|intros ?; adds_all side].
  intros w. unfold with_, __init__, __enter__, set_driver, mbind, M_bind, mret, M_ret.
  match goal with
  | |- context [leaving (session args ?s) ?w0] =>
      exact (adds_leaving (session args s) Hq (Hs args s Hp eq_refl) w0)
  end.
Qed.

End AddsMain.



Section Emits.
Context {B E : Type} `{!WebDriver B E} `{!Host}.
Import Argparse ElectricityScraper Main.





Ltac side := first [reflexivity | assumption].




End Emits.

Section Run.
Context {B E : Type} `{!WebDriver B E} `{!Host}.
Import Argparse ElectricityScraper Main.

Lemma headless_flag (hl : bool) :
  In "--headless=new"%string (arguments (chrome_options hl)) <-> hl = true.
Proof.
  destruct hl; cbn; split; intros Hh; try discriminate; auto.
  repeat destruct Hh as [Hh|Hh]; try discriminate; contradiction.
Qed.

(** X16: headless by default.  Every Chrome that a run of [main] starts is
    started with the options for [headless = not args.debug]; these options
    carry [--headless=new] exactly when [headless] is true. *)
Theorem main_headless_unless_debug (argv : list string) (args : gmap string pyval)
    (w : world B) :
  parse_args parser argv = Ok args ->
  (exists t,
     trace (main argv w).2 = trace w ++ t
     /\ Forall (launched_as (negb (truthy (attr args "debug")))) t)
  /\ (In "--headless=new"%string
         (arguments (chrome_options (negb (truthy (attr args "debug")))))
      <-> truthy (attr args "debug") = false).
Proof.
  intros Hp. split.
  - apply (adds_main (launched_as (negb (truthy (attr args "debug")))));
      try (intros; exact I).
    intros args' self Hp' Hh. rewrite Hp in Hp'. injection Hp' as <-.
    apply adds_session; try (intros; exact I).
    cbn. now rewrite Hh.
  - rewrite headless_flag. now destruct (truthy (attr args "debug")).
Qed.

Lemma session_names_a_file (args : gmap string pyval) (self : scraper) :
  @adds B _ not_json (session args self).
Proof.
  assert (forall neto y, @adds B _ not_json (get_year_data self neto y))
    by (intros; apply adds_get_year_data; intros; exact I).
  assert (forall neto y m g, @adds B _ not_json (get_month_data self neto y m g))
    by (intros; apply adds_get_month_data; intros; exact I).
  assert (forall neto y m d, @adds B _ not_json (get_day_data self neto y m d))
    by (intros; apply adds_get_day_data; intros; exact I).
  assert (forall f, @adds B _ not_json (now_field f))
    by (intros; apply adds_now_field; intros; exact I).
  unfold session.
  apply (adds_bind_returns not_json (fun a => truthy (PStr a.2) = true)).
  - repeat case_bool_decide; adds_all ltac:(exact I).
  - repeat case_bool_decide; repeat (apply returns_bind; intros ?);
      intros w0 r0 w1 [= <- <-]; reflexivity.
  - intros [data auto_filename] Hn. cbn [snd] in Hn.
    assert (Ht : truthy (py_or (attr args "outfile") (PStr auto_filename)) = true).
    { unfold py_or. destruct (truthy (attr args "outfile")) eqn:Ho; assumption. }
    rewrite Ht. adds_all ltac:(exact I).
Qed.

(** X17: the data is never printed.  The file name that [main] makes up
    always has text, so the output always has a file to go to, and the branch
    that prints the JSON to the terminal is not taken, on any run. *)
Theorem json_is_never_printed (argv : list string) (w : world B) :
  exists t,
    trace (main argv w).2 = trace w ++ t
    /\ Forall not_json t.
Proof.
  apply (adds_main not_json); try (intros; exact I).
  intros args self _ _. apply session_names_a_file.
Qed.

Ltac session_run Hp Ho :=
  unfold session; rewrite Hp;
  rewrite ?bool_decide_eq_false_2 by discriminate;
  rewrite bool_decide_eq_true_2 by reflexivity;
  unfold mbind, M_bind, or_else, lift, mret, M_ret, py_or;
  rewrite Ho.

Ltac saving :=
  unfold then_save, saved, print, log;
  cbn [negb str fst snd driver ticks trace format_02d String.eqb String.append Ascii.eqb
       Bool.eqb];
  rewrite <- ?app_assoc; reflexivity.

(** X18: the file the data goes to when no [--outfile] is given and the
    date is given in full: [st_<year>.json], [st_<year><mm>.json] or
    [st_<year><mm><dd>.json], month and day written with two digits.  The
    run of the [with] block's body is then the fetch for the period followed
    by the saving under that name; the clock is not read for the name. *)
Theorem auto_file_name (args : gmap string pyval) (self : scraper) (w : world B) :
  truthy (attr args "outfile") = false ->
  let neto := truthy (attr args "neto") in
  (forall y,
     attr args "period" = PStr "year" -> attr args "year" = PInt y -> y <> 0 ->
     session args self w
     = then_save ("st_" +:+ str_int y +:+ ".json")
                 (get_year_data self neto (PInt y) w))
  /\ (forall y m,
        attr args "period" = PStr "month" ->
        attr args "year" = PInt y -> y <> 0 ->
        attr args "month" = PInt m -> m <> 0 ->
        session args self w
        = then_save ("st_" +:+ str_int y +:+ fmt_02d m +:+ ".json")
                    (get_month_data self neto (PInt y) (PInt m)
                                    (attr args "granularity") w))
  /\ (forall y m d,
        attr args "period" = PStr "day" ->
        attr args "year" = PInt y -> y <> 0 ->
        attr args "month" = PInt m -> m <> 0 ->
        attr args "day" = PInt d -> d <> 0 ->
        session args self w
        = then_save ("st_" +:+ str_int y +:+ fmt_02d m +:+ fmt_02d d +:+ ".json")
                    (get_day_data self neto (PInt y) (PInt m) (PInt d) w)).
Proof.
  intros Ho. cbv zeta. split; [|split].
  - intros y Hp Hy Hy0. session_run Hp Ho. rewrite Hy.
    destruct (get_year_data self (truthy (attr args "neto")) (PInt y) w)
      as [[data|e] w1]; [|reflexivity].
    cbn [truthy]. rewrite (proj2 (Z.eqb_neq y 0) Hy0). saving.
  - intros y m Hp Hy Hy0 Hm Hm0. session_run Hp Ho. rewrite Hy, Hm.
    destruct (get_month_data self (truthy (attr args "neto")) (PInt y) (PInt m)
                (attr args "granularity") w) as [[data|e] w1]; [|reflexivity].
    cbn [truthy]. rewrite (proj2 (Z.eqb_neq y 0) Hy0), (proj2 (Z.eqb_neq m 0) Hm0).
    saving.
  - intros y m d Hp Hy Hy0 Hm Hm0 Hd Hd0. session_run Hp Ho. rewrite Hy, Hm, Hd.
    destruct (get_day_data self (truthy (attr args "neto")) (PInt y) (PInt m) (PInt d) w)
      as [[data|e] w1]; [|reflexivity].
    cbn [truthy]. rewrite (proj2 (Z.eqb_neq y 0) Hy0), (proj2 (Z.eqb_neq m 0) Hm0),
      (proj2 (Z.eqb_neq d 0) Hd0).
    saving.
Qed.

End Run.


Lemma main_headless_unless_debug_witness :
  Argparse.parse_args Main.parser ["--debug"]%string
  = Ok (<["debug"%string := PBool true]> (Argparse.defaults Main.parser))
  /\ ~ In "--headless=new"%string
         (arguments (ElectricityScraper.chrome_options
            (negb (truthy (Argparse.attr
               (<["debug"%string := PBool true]> (Argparse.defaults Main.parser))
               "debug"))))).
Proof.
  assert (Hp : Argparse.parse_args Main.parser ["--debug"]%string
               = Ok (<["debug"%string := PBool true]> (Argparse.defaults Main.parser)))
    by reflexivity.
  split; [exact Hp|].
  intros Hin.
  pose proof (proj2 (@main_headless_unless_debug Fixture.browser unit
                  (Fixture.scripted Fixture.good) (Fixture.machine Fixture.credentials)
                  _ _ Fixture.start Hp)) as Hiff.
  apply (proj1 Hiff) in Hin.
  discriminate Hin.
Defined.

Lemma auto_file_name_witness :
  let args : gmap string pyval :=
    <["day"%string := PInt 5]>
      (<["month"%string := PInt 9]>
         (<["year"%string := PInt 2025]>
            (<["period"%string := PStr "day"]> (Argparse.defaults Main.parser)))) in
  "st_" +:+ str_int 2025 +:+ fmt_02d 9 +:+ fmt_02d 5 +:+ ".json" = "st_20250905.json"
  /\ @Main.session Fixture.browser unit (Fixture.scripted Fixture.good)
       (Fixture.machine Fixture.credentials) args Fixture.me Fixture.start
     = then_save ("st_" +:+ str_int 2025 +:+ fmt_02d 9 +:+ fmt_02d 5 +:+ ".json")
         (@ElectricityScraper.get_day_data Fixture.browser unit
            (Fixture.scripted Fixture.good) (Fixture.machine Fixture.credentials)
            Fixture.me (truthy (Argparse.attr args "neto"))
            (PInt 2025) (PInt 9) (PInt 5) Fixture.start).
Proof.
  intros args.
  assert (Ho : truthy (Argparse.attr args "outfile") = false) by reflexivity.
  assert (Hp : Argparse.attr args "period" = PStr "day") by reflexivity.
  assert (Hy : Argparse.attr args "year" = PInt 2025) by reflexivity.
  assert (Hm : Argparse.attr args "month" = PInt 9) by reflexivity.
  assert (Hd : Argparse.attr args "day" = PInt 5) by reflexivity.
  assert (Hy0 : 2025 <> 0) by lia.
  assert (Hm0 : 9 <> 0) by lia.
  assert (Hd0 : 5 <> 0) by lia.
  split; [reflexivity|].
  exact (proj2 (proj2 (@auto_file_name Fixture.browser unit
            (Fixture.scripted Fixture.good) (Fixture.machine Fixture.credentials)
            args Fixture.me Fixture.start Ho)) 2025 9 5 Hp Hy Hy0 Hm Hm0 Hd Hd0).
Defined.

(** ** The command line, beyond [--neto] *)

Section Namespace.
Import Argparse.

(** What every [store] and every [store_true] keeps, the whole parse
    keeps. *)
Lemma consume_invariant (I : gmap string pyval -> Prop) (spec : list argument) :
  (forall a ty ch raw ns ns',
     a ∈ spec -> act a = Store ty ch -> store a ty ch raw ns = Ok ns' -> I ns -> I ns') ->
  (forall a ns, a ∈ spec -> act a = StoreTrue -> I ns -> I (<[dest a := PBool true]> ns)) ->
  forall (n : nat) (argv : list string) (ns ns' : gmap string pyval),
    (length argv <= n)%nat -> I ns -> consume spec argv ns = Ok ns' -> I ns'.
Proof.
  intros Hstore Htrue. induction n as [|n IH]; intros argv ns ns' Hlen Hns.
  { destruct argv; [|cbn in Hlen; lia]. now intros [= <-]. }
  destruct argv as [|tok rest]; [now intros [= <-]|].
  cbn [consume length] in *.
  destruct (String.eqb tok "--"); [discriminate|].
  destruct (classify spec tok) as [|a explicit| |] eqn:Hcl; try discriminate.
  pose proof (classify_elem _ _ _ _ Hcl) as Ha.
  destruct (act a) as [ty ch| |] eqn:Hact.
  - destruct explicit as [raw|].
    + destruct (store a ty ch raw ns) as [ns1|] eqn:Hst; [|discriminate]. cbn.
      apply IH; [lia|]. exact (Hstore _ _ _ _ _ _ Ha Hact Hst Hns).
    + destruct rest as [|v rest']; [discriminate|].
      destruct (String.eqb v "--"); [discriminate|].
      destruct (classify spec v); try discriminate.
      destruct (store a ty ch v ns) as [ns1|] eqn:Hst; [|discriminate]. cbn.
      apply IH; [cbn in Hlen; lia|]. exact (Hstore _ _ _ _ _ _ Ha Hact Hst Hns).
  - destruct explicit; [discriminate|].
    apply IH; [lia|]. now apply Htrue.
  - destruct explicit; discriminate.
Qed.

Lemma attr_insert (ns : gmap string pyval) (k k' : string) (v : pyval) :
  attr (<[k := v]> ns) k' = if decide (k = k') then v else attr ns k'.
Proof.
  unfold attr. destruct (decide (k = k')) as [->|Hk].
  - now rewrite lookup_insert_eq.
  - now rewrite lookup_insert_ne.
Qed.

Lemma attr_insert_ne (ns : gmap string pyval) (k k' : string) (v : pyval) :
  k <> k' -> attr (<[k := v]> ns) k' = attr ns k'.
Proof. intros Hk. rewrite attr_insert. now destruct (decide (k = k')). Qed.

Lemma typed_insert (ns : gmap string pyval) (k : string) (v : pyval) :
  typed_value k v = true -> typed ns -> typed (<[k := v]> ns).
Proof.
  intros Hv Hns k'. rewrite attr_insert. destruct (decide (k = k')) as [<-|_]; auto.
Qed.

Lemma py_int_is_int (s : string) (v : pyval) :
  py_int s = Ok v -> match v with PInt _ => True | _ => False end.
Proof.
  unfold py_int.
  destruct (match strip s with
            | String "-" r => (true, r)
            | String "+" r => (false, r)
            | _ => (false, strip s)
            end%string) as [neg body].
  destruct (digits 0 false body); [|discriminate]. now intros [= <-].
Qed.

Lemma typed_defaults : typed (defaults Main.parser).
Proof.
  intros k. unfold typed_value.
  destruct (String.eqb_spec k "period") as [->|_]; [reflexivity|].
  destruct (String.eqb_spec k "year") as [->|_]; [reflexivity|].
  destruct (String.eqb_spec k "month") as [->|_]; [reflexivity|].
  destruct (String.eqb_spec k "day") as [->|_]; [reflexivity|].
  cbn [orb].
  destruct (String.eqb_spec k "granularity") as [->|_]; [reflexivity|].
  destruct (String.eqb_spec k "outfile") as [->|_]; [reflexivity|].
  destruct (String.eqb_spec k "neto") as [->|_]; [reflexivity|].
  destruct (String.eqb_spec k "debug") as [->|_]; [reflexivity|].
  reflexivity.
Qed.

Lemma typed_store (a : argument) (ty : string -> result pyval)
    (ch : option (list pyval)) (raw : string) (ns ns' : gmap string pyval) :
  a ∈ Main.parser -> act a = Store ty ch -> store a ty ch raw ns = Ok ns' ->
  typed ns -> typed ns'.
Proof.
  unfold Main.parser. rewrite !elem_of_cons, elem_of_nil.
  intros Ha Hact Hst Hns.
  repeat (destruct Ha as [->|Ha];
          [cbn [act] in Hact; try discriminate Hact; injection Hact as <- <-|]);
    [..|destruct Ha];
    unfold store, error in Hst; cbn [dest] in Hst;
    (destruct (String.eqb raw "--");
     [injection Hst as <-; now apply typed_insert|]).
  - cbn in Hst. case_bool_decide as Hin; [|discriminate]. injection Hst as <-.
    apply typed_insert; [|exact Hns].
    cbn [typed_value String.eqb Ascii.eqb Bool.eqb].
    apply bool_decide_eq_true_2. rewrite !elem_of_cons in *. tauto.
  - destruct (py_int raw) as [v|] eqn:Hv; [|discriminate]. injection Hst as <-.
    apply py_int_is_int in Hv. apply typed_insert; [|exact Hns]. now destruct v.
  - destruct (py_int raw) as [v|] eqn:Hv; [|discriminate]. injection Hst as <-.
    apply py_int_is_int in Hv. apply typed_insert; [|exact Hns]. now destruct v.
  - destruct (py_int raw) as [v|] eqn:Hv; [|discriminate]. injection Hst as <-.
    apply py_int_is_int in Hv. apply typed_insert; [|exact Hns]. now destruct v.
  - cbn in Hst. case_bool_decide as Hin; [|discriminate]. injection Hst as <-.
    apply typed_insert; [|exact Hns].
    cbn [typed_value String.eqb Ascii.eqb Bool.eqb orb].
    apply bool_decide_eq_true_2. rewrite !elem_of_cons in *. tauto.
  - cbn in Hst. injection Hst as <-. now apply typed_insert.
Qed.

Lemma typed_store_true (a : argument) (ns : gmap string pyval) :
  a ∈ Main.parser -> act a = StoreTrue -> typed ns ->
  typed (<[dest a := PBool true]> ns).
Proof.
  unfold Main.parser. rewrite !elem_of_cons, elem_of_nil.
  intros Ha Hact Hns.
  repeat (destruct Ha as [->|Ha]; [cbn [act] in Hact; try discriminate Hact|]);
    [..|destruct Ha]; now apply typed_insert.
Qed.

(** X19: in the namespace of every command line that the parser accepts,
    every option that takes a value holds a value of its type or of its
    choices, its default [None], or the empty list, which [argparse] stores
    for an option written [--opt=--] without converting or checking it.  So
    [period] is [day], [month], [year] or [[]], and the [Invalid period]
    branch of [main] is reached with [[]] only; [year], [month] and [day]
    are [None], [[]] or an integer, so one that is true is an integer and
    the two-digit formatting of the file name does not fail on its type;
    [granularity] is [None], [[]], [D] or [H]; [outfile] is [None], [[]] or
    a string; [debug] is a boolean. *)
Theorem accepted_command_line_is_typed (argv : list string) (args : gmap string pyval) :
  parse_args Main.parser argv = Ok args ->
  attr args "period" ∈ [PStr "day"; PStr "month"; PStr "year"; PEmptyList]
  /\ (forall k, k ∈ ["year"; "month"; "day"]%string ->
        (attr args k = PNone \/ attr args k = PEmptyList
         \/ exists z, attr args k = PInt z)
        /\ (truthy (attr args k) = true -> exists z, attr args k = PInt z))
  /\ attr args "granularity" ∈ [PNone; PStr "D"; PStr "H"; PEmptyList]
  /\ (attr args "outfile" = PNone \/ attr args "outfile" = PEmptyList
      \/ exists s, attr args "outfile" = PStr s)
  /\ (exists b, attr args "debug" = PBool b).
Proof.
  intros Hp. unfold parse_args in Hp.
  assert (Ht : typed args).
  { apply (consume_invariant typed Main.parser typed_store typed_store_true
             (length argv) argv (defaults Main.parser) args);
      [apply Nat.le_refl | apply typed_defaults | exact Hp]. }
  split; [|split; [|split; [|split]]].
  - pose proof (Ht "period"%string) as H. cbn in H. now apply bool_decide_eq_true_1 in H.
  - intros k Hk. rewrite !elem_of_cons, elem_of_nil in Hk.
    destruct Hk as [->|[->|[->|[]]]];
      match goal with
      | |- (attr args ?k = _ \/ _) /\ _ =>
          pose proof (Ht k) as H; cbn in H;
          destruct (attr args k); try discriminate H;
          (split; [eauto | intros Hv; try discriminate Hv; eauto])
      end.
  - pose proof (Ht "granularity"%string) as H. cbn in H.
    now apply bool_decide_eq_true_1 in H.
  - pose proof (Ht "outfile"%string) as H. cbn in H.
    destruct (attr args "outfile"); try discriminate; eauto.
  - pose proof (Ht "debug"%string) as H. cbn in H.
    destruct (attr args "debug"); try discriminate; eauto.
Qed.

End Namespace.

Lemma accepted_command_line_is_typed_witness :
  Argparse.parse_args Main.parser ["--per"; "year"; "--year=2024"]%string
  = Ok (<["year"%string := PInt 2024]>
          (<["period"%string := PStr "year"]> (Argparse.defaults Main.parser)))
  /\ Argparse.attr
       (<["year"%string := PInt 2024]>
          (<["period"%string := PStr "year"]> (Argparse.defaults Main.parser))) "period"
     ∈ [PStr "day"; PStr "month"; PStr "year"; PEmptyList].
Proof.
  assert (Hp : Argparse.parse_args Main.parser ["--per"; "year"; "--year=2024"]%string
               = Ok (<["year"%string := PInt 2024]>
                       (<["period"%string := PStr "year"]>
                          (Argparse.defaults Main.parser))))
    by reflexivity.
  split; [exact Hp|].
  exact (proj1 (accepted_command_line_is_typed _ _ Hp)).
Defined.

(** The empty list at work: [--period=--] is accepted, and [main] then
    runs into its [Invalid period] branch before any browser is started. *)
Example invalid_period_run :
  Argparse.parse_args Main.parser ["--period=--"]%string
  = Ok (<["period"%string := PEmptyList]> (Argparse.defaults Main.parser))
  /\ (@Main.main Fixture.browser unit (Fixture.scripted Fixture.good)
        (Fixture.machine Fixture.credentials) ["--period=--"]%string Fixture.start).1
     = Raise (ValueError "Invalid period: []")
  /\ launches
       (trace (@Main.main Fixture.browser unit (Fixture.scripted Fixture.good)
                 (Fixture.machine Fixture.credentials) ["--period=--"]%string
                 Fixture.start).2)
     = 0%nat.
Proof. split; [reflexivity|]. split; vm_compute; reflexivity. Qed.

Section Ignored.
Context {B E : Type} `{!WebDriver B E} `{!Host}.
Import Argparse ElectricityScraper Main.

Ltac same_session k Hp :=
  unfold session; cbv zeta;
  rewrite (attr_insert_ne _ k "period"%string) by discriminate;
  rewrite Hp;
  rewrite ?bool_decide_eq_false_2 by discriminate;
  rewrite !bool_decide_eq_true_2 by reflexivity;
  cbv iota;
  rewrite !attr_insert_ne by discriminate;
  reflexivity.

(** X20: options that the chosen period has no use for are accepted and
    ignored.  For [--period year] the run is the same whatever [--month],
    [--day] and [--granularity] are; for [--period month] whatever [--day]
    is; for [--period day] whatever [--granularity] is (the day is always
    fetched by the hour). *)
Theorem unused_options_are_ignored (args : gmap string pyval) (self : scraper)
    (v : pyval) (w : world B) :
  (attr args "period" = PStr "year" ->
   forall k, k ∈ ["month"; "day"; "granularity"]%string ->
     session (<[k := v]> args) self w = session args self w)
  /\ (attr args "period" = PStr "month" ->
      session (<["day"%string := v]> args) self w = session args self w)
  /\ (attr args "period" = PStr "day" ->
      session (<["granularity"%string := v]> args) self w = session args self w).
Proof.
  split; [|split].
  - intros Hp k Hk. rewrite !elem_of_cons, elem_of_nil in Hk.
    destruct Hk as [->|[->|[->|[]]]].
    + same_session "month"%string Hp.
    + same_session "day"%string Hp.
    + same_session "granularity"%string Hp.
  - intros Hp. same_session "day"%string Hp.
  - intros Hp. same_session "granularity"%string Hp.
Qed.

End Ignored.

Lemma unused_options_are_ignored_witness :
  let args : gmap string pyval :=
    <["period"%string := PStr "year"]> (Argparse.defaults Main.parser) in
  @Main.session Fixture.browser unit (Fixture.scripted Fixture.good)
     (Fixture.machine Fixture.credentials)
     (<["month"%string := PInt 13]> args) Fixture.me Fixture.start
  = @Main.session Fixture.browser unit (Fixture.scripted Fixture.good)
      (Fixture.machine Fixture.credentials) args Fixture.me Fixture.start.
Proof.
  intros args.
  assert (Hp : Argparse.attr args "period" = PStr "year") by reflexivity.
  assert (Hk : "month"%string ∈ ["month"; "day"; "granularity"]%string)
    by (rewrite !elem_of_cons; auto).
  exact (proj1 (@unused_options_are_ignored Fixture.browser unit
                  (Fixture.scripted Fixture.good) (Fixture.machine Fixture.credentials)
                  args Fixture.me (PInt 13) Fixture.start) Hp "month"%string Hk).
Defined.
